(** * Chat-to-BI backend (app.py): a shallow embedding and its properties

    The development follows the layout of [app.py]:
    - [Py]     : the fragments of Python's data model the program relies on
                 (JSON values as produced by [json.loads], truthiness, [or],
                 [dict.get], iteration, [str.find] / [str.rfind], slicing);
    - [Frame]  : tables in the style of pandas (column access and
                 assignment, [rename], [empty], left [merge]);
    - [Loader] : [get_data];
    - [Interp] : [gerar_grafico_plotly], with the pandas operations it calls
                 ([between], [isin], [query], [groupby().agg()],
                 [sort_values]) and the traces of plotly express;
    - [Route]  : [extrair_json] and the [/ask] handler [ask_gemini];
    - [Sample] : a small data set and an executable library instance;
    followed by the properties, component by component, and by worked
    examples on the sample data.

    Exceptions are modelled by [None]: every [try ... except] of the source
    turns an exception into the value [None], so an [option] result is
    exactly what the caller observes.

    Modelling scope.  JSON numbers are integers ([Z]); floating point values
    are outside the embedding.  A table is a list of labels and a list of
    rows; cells carry their own kind, there are no column dtypes.  Date
    parsing, aggregation by name, the evaluation of query expressions other
    than the six comparisons and the JSON parser belong to libraries and
    are the fields of the class [Library].  Where a plan field has a type
    the prompt does not provide for (a column label, an x axis or a
    grouping key that is not a string, a [group_by] that is not a list),
    the call is taken to raise.  [list(set(...))] is taken in order of
    first occurrence.  The cache around [get_data] and the background
    thread are left out. *)

From stdpp Require Import gmap strings list fin_maps sorting.
From Stdlib Require Import ZArith String Ascii Bool Lia.

Open Scope string_scope.
Open Scope list_scope.
Open Scope Z_scope.

(* ===================================================================== *)
(** * Python values                                                        *)
(* ===================================================================== *)

Module Py.

(** What [json.loads] returns.  A [dict] keeps insertion order, hence an
    association list; the first binding of a key is the one [lookup] sees. *)
#[local] Unset Elimination Schemes.
Inductive JSON : Type :=
  | JNull
  | JBool (b : bool)
  | JNum (z : Z)
  | JStr (s : string)
  | JArr (l : list JSON)
  | JObj (kvs : list (string * JSON)).
#[local] Set Elimination Schemes.

(** [bool(x)] *)
Definition truthy (j : JSON) : bool :=
  match j with
  | JNull => false
  | JBool b => b
  | JNum z => negb (z =? 0)
  | JStr s => negb (s =? EmptyString)%string
  | JArr l => match l with [] => false | _ => true end
  | JObj kvs => match kvs with [] => false | _ => true end
  end.

(** [a or b] *)
Definition py_or (a b : JSON) : JSON := if truthy a then a else b.

Fixpoint assoc (k : string) (kvs : list (string * JSON)) : option JSON :=
  match kvs with
  | [] => None
  | (k', v) :: rest => if (k =? k')%string then Some v else assoc k rest
  end.

(** [d.get(k)] : the value, or [None] (which is JSON [null]) when absent. *)
Definition dict_get (d : list (string * JSON)) (k : string) : JSON :=
  default JNull (assoc k d).

(** [d.get(k, dflt)] *)
Definition dict_get_default (d : list (string * JSON)) (k : string) (dflt : JSON) : JSON :=
  default dflt (assoc k d).

(** [x.get(k)] on an arbitrary value: only a [dict] has [get]. *)
Definition py_get (x : JSON) (k : string) : option JSON :=
  match x with
  | JObj d => Some (dict_get d k)
  | _ => None
  end.

(** [x[k]] with a string key: [KeyError] / [TypeError] are [None]. *)
Definition py_getitem (x : JSON) (k : string) : option JSON :=
  match x with
  | JObj d => assoc k d
  | _ => None
  end.

Fixpoint str_chars (s : string) : list JSON :=
  match s with
  | EmptyString => []
  | String c rest => JStr (String c EmptyString) :: str_chars rest
  end.

(** [for x in v]: lists yield their elements, dicts their keys, strings
    their characters; anything else raises [TypeError]. *)
Definition py_iter (v : JSON) : option (list JSON) :=
  match v with
  | JArr l => Some l
  | JObj d => Some (map (fun kv => JStr (fst kv)) d)
  | JStr s => Some (str_chars s)
  | _ => None
  end.

(** Python [==] on JSON values ([True == 1] and [False == 0] hold). *)
Fixpoint py_eqb (a b : JSON) {struct a} : bool :=
  match a, b with
  | JNull, JNull => true
  | JBool x, JBool y => Bool.eqb x y
  | JBool x, JNum y | JNum y, JBool x => (y =? (if x then 1 else 0))
  | JNum x, JNum y => (x =? y)
  | JStr x, JStr y => (x =? y)%string
  | JArr l1, JArr l2 =>
      (fix go (l1 l2 : list JSON) : bool :=
         match l1, l2 with
         | [], [] => true
         | x :: xs, y :: ys => py_eqb x y && go xs ys
         | _, _ => false
         end) l1 l2
  | JObj d1, JObj d2 =>
      (fix go (d1 d2 : list (string * JSON)) : bool :=
         match d1, d2 with
         | [], [] => true
         | (k1, x) :: xs, (k2, y) :: ys => (k1 =? k2)%string && py_eqb x y && go xs ys
         | _, _ => false
         end) d1 d2
  | _, _ => false
  end.

(** [x in l] for a Python list [l]. *)
Definition py_in (x : JSON) (l : list JSON) : bool := existsb (py_eqb x) l.

(** ** Strings *)

Fixpoint str_prefixb (p s : string) : bool :=
  match p, s with
  | EmptyString, _ => true
  | String a p', String b s' => Ascii.eqb a b && str_prefixb p' s'
  | String _ _, EmptyString => false
  end.

(** [p in s] for strings. *)
Fixpoint str_contains (p s : string) : bool :=
  str_prefixb p s ||
  match s with
  | EmptyString => false
  | String _ s' => str_contains p s'
  end.

(** [s.find(c)] for a one-character needle: [None] stands for [-1]. *)
Fixpoint str_find (c : ascii) (s : string) : option nat :=
  match s with
  | EmptyString => None
  | String a s' => if Ascii.eqb a c then Some 0%nat else S <$> str_find c s'
  end.

(** [s.rfind(c)] for a one-character needle: [None] stands for [-1]. *)
Fixpoint str_rfind (c : ascii) (s : string) : option nat :=
  match s with
  | EmptyString => None
  | String a s' =>
      match str_rfind c s' with
      | Some i => Some (S i)
      | None => if Ascii.eqb a c then Some 0%nat else None
      end
  end.

(** [s[i:j]] for non-negative [i], [j]; empty when [j <= i]. *)
Definition str_slice (i j : nat) (s : string) : string := substring i (j - i) s.

Definition lower_ascii (c : ascii) : ascii :=
  let n := nat_of_ascii c in
  if (65 <=? n)%nat && (n <=? 90)%nat then ascii_of_nat (n + 32) else c.

(** [s.lower()] on the ASCII letters (the file names it is matched against
    are ASCII). *)
Fixpoint str_lower (s : string) : string :=
  match s with
  | EmptyString => EmptyString
  | String c s' => String (lower_ascii c) (str_lower s')
  end.

End Py.

Export Py.

(* ===================================================================== *)
(** * Tables                                                               *)
(* ===================================================================== *)

Module Frame.

(** A pandas [Timestamp], by its calendar fields; the order is the
    lexicographic order of the fields. *)
Record Timestamp : Type := mkTimestamp {
  ts_year : Z;
  ts_month : Z;
  ts_day : Z;
  ts_nanos : Z
}.

(** A cell.  [VNull] stands for [NaN], [NaT] and [None] alike. *)
Inductive Value : Type :=
  | VNull
  | VBool (b : bool)
  | VInt (z : Z)
  | VStr (s : string)
  | VDate (t : Timestamp).

#[global] Instance Timestamp_eq_dec : EqDecision Timestamp.
Proof. solve_decision. Defined.

#[global] Instance Value_eq_dec : EqDecision Value.
Proof. solve_decision. Defined.

(** A [DataFrame]: column labels and rows of cells, in order. *)
Record DataFrame : Type := mkDataFrame {
  columns : list string;
  rows : list (list Value)
}.

(** The services of pandas and [json] that the program calls by name and
    whose algorithms are not part of it. *)
Class Library : Type := {
  (** [pd.to_datetime(series, errors='coerce')] on one cell of [series]
      (the whole series is given too: pandas infers the format from it);
      [None] is [NaT]. *)
  parse_cell : list Value -> Value -> option Timestamp;
  (** [pd.to_datetime(x)] for a scalar [x] of the plan: [None] when it
      raises, [Some None] for [NaT]. *)
  to_datetime : JSON -> option (option Timestamp);
  (** [.agg({col: func})] on the cells of one group: [None] when [func] is
      not an aggregation pandas knows or it raises on these cells. *)
  agg_named : JSON -> list Value -> option Value;
  (** [df.query(f"`{column}` {operator} @value")] for an operator text
      other than the six comparisons, or a value that is not a scalar. *)
  query_other : string -> string -> JSON -> DataFrame -> option DataFrame;
  (** [json.loads]: [None] when it raises. *)
  json_loads : string -> option JSON;
  (** The key test of [merge] for a pair of key columns that pandas
      brings to a common dtype of its own (booleans, dates, mixed objects,
      integers beyond int64), given the left and the right key column:
      [None] when [merge] raises. *)
  merge_keys_other : list Value -> list Value -> option (Value -> Value -> bool);
  (** Whether [merge] raises on a key column without any value (no row, or
      nulls only: such a column is float64, object or datetime64, its
      cells do not tell) against the other key column. *)
  merge_void_raises : list Value -> list Value -> bool;
  (** [series.isin(values)] as a row mask, where the cells do not settle
      it (dates, columns without a value, nested or very large listed
      values, more than a million rows): [None] when it raises. *)
  isin_other : list Value -> list JSON -> option (list bool);
  (** The date that [query] makes of a scalar before it compares a date
      column with it under the given operator ([Timestamp(value)] for the
      orderings; [==] and [!=] with a text go through [isin], which parses
      the text): [None] when it raises, [Some None] for [NaT] and for a
      text that [isin] cannot parse. *)
  timestamp_scalar : string -> JSON -> option (option Timestamp);
  (** The row mask of [series <operator> value] in [query] where the
      cells do not settle it (a column without a value, a mixed column, an
      integer that float64 does not hold): [None] when it raises. *)
  compare_other : string -> list Value -> JSON -> option (list bool);
  (** The row mask of a comparison in [query] on a name that is not
      looked up as it is written: a name of the namespace of [query] that
      is not a column (the row index under [index] and [ilevel_0], which
      the tables here do not carry; the column labels under [columns] and
      [clevel_0]), or a label that is no plain identifier, which [query]
      rewrites before it looks it up; [None] when it raises. *)
  query_name : string -> string -> JSON -> DataFrame -> option (list bool);
  (** The index labels of the rows of a table, which plotly express
      plots against a continuous [x] when it is given no [y] (the tables
      here do not carry them). *)
  row_labels : DataFrame -> list Value;
  (** Whether plotly express takes a colour column for continuous (a
      numeric dtype) where the cells do not settle its dtype. *)
  continuous_other : list Value -> bool
}.

Definition is_null (v : Value) : bool :=
  match v with VNull => true | _ => false end.

Definition is_date_or_null (v : Value) : bool :=
  match v with VNull | VDate _ => true | _ => false end.

Definition date_value (t : option Timestamp) : Value :=
  match t with Some d => VDate d | None => VNull end.

(** ** Columns *)

Fixpoint index_of (c : string) (cs : list string) : option nat :=
  match cs with
  | [] => None
  | c' :: rest => if (c =? c')%string then Some 0%nat else S <$> index_of c rest
  end.

Definition col_index (df : DataFrame) (c : string) : option nat :=
  index_of c (columns df).

Definition has_column (df : DataFrame) (c : string) : bool :=
  match col_index df c with Some _ => true | None => false end.

Definition cell (i : nat) (r : list Value) : Value := nth i r VNull.

(** [df[c]] : [KeyError] when the label is missing. *)
Definition get_column (df : DataFrame) (c : string) : option (list Value) :=
  i ← col_index df c; Some (map (cell i) (rows df)).

(** [df[c] = vals] : overwrite the column, or add it as the last one. *)
Definition set_column (df : DataFrame) (c : string) (vals : list Value) : DataFrame :=
  match col_index df c with
  | Some i => {| columns := columns df;
                 rows := zip_with (fun r v => <[i := v]> r) (rows df) vals |}
  | None => {| columns := columns df ++ [c];
               rows := zip_with (fun r v => r ++ [v]) (rows df) vals |}
  end.

(** [df.rename(columns={old: new})] *)
Definition rename_column (old new : string) (df : DataFrame) : DataFrame :=
  {| columns := map (fun c => if (c =? old)%string then new else c) (columns df);
     rows := rows df |}.

(** [df.empty] : some axis has length 0. *)
Definition empty (df : DataFrame) : bool :=
  match columns df, rows df with
  | [], _ | _, [] => true
  | _, _ => false
  end.

(** ** Dates *)

Section Dates.
Context `{Library}.

Definition coerce_cell (ctx : list Value) (v : Value) : Value :=
  match v with
  | VNull => VNull
  | VDate t => VDate t
  | _ => date_value (parse_cell ctx v)
  end.

(** [pd.to_datetime(series, errors='coerce')] *)
Definition to_datetime_coerce (series : list Value) : list Value :=
  map (coerce_cell series) series.

(** [pd.api.types.is_datetime64_any_dtype(series)]: the cells carry no
    dtype of their own, a series of dates and nulls counts as datetime
    (coercing such a series changes nothing). *)
Definition is_datetime64_any_dtype (series : list Value) : bool :=
  forallb is_date_or_null series.

End Dates.

(** ** merge *)

Definition drop_nth {A} (i : nat) (l : list A) : list A :=
  take i l ++ drop (S i) l.

Definition str_in (c : string) (cs : list string) : bool :=
  existsb (String.eqb c) cs.

(** Labels of one side after a merge on [key]: a label that also occurs
    on the other side gets the suffix of its side. *)
Definition suffixed (own other : list string) (key sfx : string) : list string :=
  map (fun c => if negb (c =? key)%string && str_in c other then String.append c sfx else c) own.

(** *** Storage types

    The cells carry no dtype; the dtype of a column is read off its
    cells, as far as they tell. *)

Definition is_int64 (v : Value) : bool :=
  match v with VInt z => (- 2 ^ 63 <=? z) && (z <? 2 ^ 63) | _ => false end.

Definition is_str (v : Value) : bool := match v with VStr _ => true | _ => false end.
Definition is_date (v : Value) : bool := match v with VDate _ => true | _ => false end.
Definition is_bool (v : Value) : bool := match v with VBool _ => true | _ => false end.

(** [DInt]: int64; [DFloat]: integers and nulls, held as float64; [DBool];
    [DText]: strings, with or without nulls (object); [DDate]: datetime64;
    [DVoid]: no value at all (no row, or nulls only); [DOther]: anything
    else (mixed kinds, booleans with nulls, integers beyond int64). *)
Inductive Dtype : Type := DInt | DFloat | DBool | DText | DDate | DVoid | DOther.

Definition dtype (series : list Value) : Dtype :=
  let live := List.filter (fun v => negb (is_null v)) series in
  let whole := (List.length live =? List.length series)%nat in
  match live with
  | [] => DVoid
  | _ :: _ =>
      if forallb is_int64 live then (if whole then DInt else DFloat)
      else if forallb is_str live then DText
      else if forallb is_date live then DDate
      else if forallb is_bool live && whole then DBool
      else DOther
  end.

(** The float64 nearest to the integer [z] (ties to even), as an integer:
    what an int64 becomes in a float64 column.  Integers up to [2^53] in
    absolute value are kept. *)
Definition float64 (z : Z) : Z :=
  let n := Z.abs z in
  let shift := Z.log2 n - 52 in
  if shift <=? 0 then z
  else
    let q := Z.shiftr n shift in
    let rest := Z.land n (Z.ones shift) in
    let half := Z.shiftl 1 (shift - 1) in
    let q' := if (half <? rest) || ((rest =? half) && Z.odd q) then q + 1 else q in
    Z.sgn z * Z.shiftl q' shift.

Definition as_float64 (v : Value) : Value :=
  match v with VInt z => VInt (float64 z) | _ => v end.

Section Merge.
Context `{Library}.

(** How [merge] compares the keys of two key columns; [None] when it
    raises.  Two int64 columns and two text columns are compared as they
    are; an int64 column against a float64 column is compared in float64;
    a numeric column against a text column raises ([ValueError]: "You are
    trying to merge on int64 and object columns").  A null key matches a
    null key. *)
Definition merge_keys (left right : list Value) : option (Value -> Value -> bool) :=
  match dtype left, dtype right with
  | DInt, DInt | DText, DText => Some (fun a b => bool_decide (a = b))
  | DInt, DFloat | DFloat, DInt | DFloat, DFloat =>
      Some (fun a b => bool_decide (as_float64 a = as_float64 b))
  | DInt, DText | DFloat, DText | DText, DInt | DText, DFloat => None
  | DVoid, _ | _, DVoid =>
      if merge_void_raises left right then None
      else Some (fun a b => bool_decide (a = b))
  | _, _ => merge_keys_other left right
  end.

(** The right rows a left row is joined with. *)
Definition matching (test : Value -> Value -> bool) (il ir : nat) (r : DataFrame)
    (lr : list Value) : list (list Value) :=
  List.filter (fun rr => test (cell il lr) (cell ir rr)) (rows r).

(** When a left row finds no match the right columns take nulls, and an
    int64 column that takes a null becomes float64. *)
Definition promoted (r : DataFrame) (j : nat) : bool :=
  match dtype (map (cell j) (rows r)) with DInt => true | _ => false end.

Definition promote (r : DataFrame) (rr : list Value) : list Value :=
  imap (fun j v => if promoted r j then as_float64 v else v) rr.

(** The rows a left row contributes to a left merge: one per matching
    right row ([stored] is how the right cells are held in the result), and
    the left row padded with nulls when there is none. *)
Definition joined_rows (test : Value -> Value -> bool) (il ir : nat) (r : DataFrame)
    (stored : list Value -> list Value) (lr : list Value) : list (list Value) :=
  match matching test il ir r lr with
  | [] => [lr ++ replicate (List.length (columns r) - 1) VNull]
  | ms => map (fun rr => lr ++ drop_nth ir (stored rr)) ms
  end.

(** [l.merge(r, on=key, how="left", suffixes=sfx)] : [KeyError] when a
    side lacks the key. *)
Definition merge_left (l r : DataFrame) (key : string) (sfx : string * string)
  : option DataFrame :=
  il ← col_index l key;
  ir ← col_index r key;
  test ← merge_keys (map (cell il) (rows l)) (map (cell ir) (rows r));
  let padded :=
    existsb (fun lr => match matching test il ir r lr with [] => true | _ => false end)
            (rows l) in
  let stored := if padded then promote r else (fun rr => rr) in
  Some {| columns := suffixed (columns l) (columns r) key (fst sfx)
                     ++ drop_nth ir (suffixed (columns r) (columns l) key (snd sfx));
          rows := flat_map (joined_rows test il ir r stored) (rows l) |}.

End Merge.

End Frame.

Export Frame.

(* ===================================================================== *)
(** * Dataset loader: [get_data]                                           *)
(* ===================================================================== *)

Module Loader.

Section Loader.
Context `{Library}.

Definition csv_files : list (string * string) :=
  [ ("parceiros.csv", "parceiros"); ("clientes.csv", "clientes");
    ("contas.csv", "contas"); ("movimentos_contas.csv", "movimentos");
    ("classificacao_ultimo_movimento.csv", "classificacao") ].

Fixpoint csv_role (name : string) (table : list (string * string)) : option string :=
  match table with
  | [] => None
  | (k, v) :: rest => if (name =? k)%string then Some v else csv_role name rest
  end.

(** One entry of the Drive listing; [item_csv] is what [pd.read_csv] makes
    of the download, [None] when the download or the parse raises. *)
Record DriveItem : Type := mkDriveItem {
  item_name : string;
  item_modifiedTime : string;
  item_csv : option DataFrame
}.

(** The loop over the listing: [csv_modification_times] is written as the
    files are read, so it is returned also when a later file raises. *)
Fixpoint load_items (items : list DriveItem)
    (csv_modification_times : gmap string string)
    (local_dataframes : gmap string DataFrame)
  : gmap string string * option (gmap string DataFrame) :=
  match items with
  | [] => (csv_modification_times, Some local_dataframes)
  | item :: rest =>
      match csv_role (str_lower (item_name item)) csv_files with
      | None => load_items rest csv_modification_times local_dataframes
      | Some df_name =>
          match item_csv item with
          | None => (csv_modification_times, None)
          | Some df =>
              load_items rest
                (<[item_name item := item_modifiedTime item]> csv_modification_times)
                (<[df_name := df]> local_dataframes)
          end
      end
  end.

(** The chain of four left merges anchored on the movements table. *)
Definition merge_tables (local_dataframes : gmap string DataFrame) : option DataFrame :=
  df_mov ← local_dataframes !! "movimentos";
  df_class ← rename_column "Data_Ultimo_Movimento" "Data_Movimento"
             <$> local_dataframes !! "classificacao";
  contas ← local_dataframes !! "contas";
  m1 ← merge_left df_mov contas "ID_Conta" ("_x", "_y");
  clientes ← local_dataframes !! "clientes";
  m2 ← merge_left m1 clientes "ID_Cliente" ("_x", "_y");
  m3 ← merge_left m2 df_class "ID_Conta" ("_mov", "_class");
  parceiros ← local_dataframes !! "parceiros";
  merge_left m3 parceiros "ID_Parceiro" ("_x", "_y").

(** Every column whose label contains ["Data"] becomes a date column. *)
Definition coerce_date_columns (final_df : DataFrame) : DataFrame :=
  foldl (fun df col =>
           if str_contains "Data" col then
             match get_column df col with
             | Some series => set_column df col (to_datetime_coerce series)
             | None => df
             end
           else df)
        final_df (columns final_df).

(** What [get_data] makes of the tables it has loaded. *)
Definition process_tables (local_dataframes : gmap string DataFrame) : option DataFrame :=
  coerce_date_columns <$> merge_tables local_dataframes.

(** [get_data()] without its cache: [drive_service] is [None] when the
    connection was never made, and holds the listing otherwise ([None] when
    the listing request raises).  Returns the new
    [csv_modification_times] and the table. *)
Definition get_data (drive_service : option (option (list DriveItem)))
    (csv_modification_times : gmap string string)
  : gmap string string * option DataFrame :=
  match drive_service with
  | None => (csv_modification_times, None)
  | Some None => (csv_modification_times, None)
  | Some (Some items) =>
      let '(times, loaded) := load_items items csv_modification_times ∅ in
      (times, loaded ≫= process_tables)
  end.

End Loader.

(** No dimension row repeats a key. *)
Definition unique_key (r : DataFrame) (key : string) : Prop :=
  forall i, col_index r key = Some i -> NoDup (map (cell i) (rows r)).

(** An integer key that float64 holds as it is, or a null. *)
Definition integer_key (v : Value) : Prop :=
  match v with
  | VNull => True
  | VInt z => Z.abs z <= 2 ^ 53
  | _ => False
  end.

(** The key column of [r] holds such keys only. *)
Definition integer_keys (r : DataFrame) (key : string) : Prop :=
  forall i, col_index r key = Some i ->
    Forall (fun row => integer_key (cell i row)) (rows r).

Section Steps.
Context `{Library}.

(** The four merges of [get_data]: left table, right table and key. *)
Inductive merge_step (local_dataframes : gmap string DataFrame)
  : DataFrame -> DataFrame -> string -> Prop :=
  | step_contas df_mov contas :
      local_dataframes !! "movimentos" = Some df_mov ->
      local_dataframes !! "contas" = Some contas ->
      merge_step local_dataframes df_mov contas "ID_Conta"
  | step_clientes df_mov contas m1 clientes :
      local_dataframes !! "movimentos" = Some df_mov ->
      local_dataframes !! "contas" = Some contas ->
      merge_left df_mov contas "ID_Conta" ("_x", "_y") = Some m1 ->
      local_dataframes !! "clientes" = Some clientes ->
      merge_step local_dataframes m1 clientes "ID_Cliente"
  | step_classificacao df_mov contas m1 clientes m2 classificacao :
      local_dataframes !! "movimentos" = Some df_mov ->
      local_dataframes !! "contas" = Some contas ->
      merge_left df_mov contas "ID_Conta" ("_x", "_y") = Some m1 ->
      local_dataframes !! "clientes" = Some clientes ->
      merge_left m1 clientes "ID_Cliente" ("_x", "_y") = Some m2 ->
      local_dataframes !! "classificacao" = Some classificacao ->
      merge_step local_dataframes m2
        (rename_column "Data_Ultimo_Movimento" "Data_Movimento" classificacao) "ID_Conta"
  | step_parceiros df_mov contas m1 clientes m2 classificacao m3 parceiros :
      local_dataframes !! "movimentos" = Some df_mov ->
      local_dataframes !! "contas" = Some contas ->
      merge_left df_mov contas "ID_Conta" ("_x", "_y") = Some m1 ->
      local_dataframes !! "clientes" = Some clientes ->
      merge_left m1 clientes "ID_Cliente" ("_x", "_y") = Some m2 ->
      local_dataframes !! "classificacao" = Some classificacao ->
      merge_left m2 (rename_column "Data_Ultimo_Movimento" "Data_Movimento" classificacao)
        "ID_Conta" ("_mov", "_class") = Some m3 ->
      local_dataframes !! "parceiros" = Some parceiros ->
      merge_step local_dataframes m3 parceiros "ID_Parceiro".

(** At every merge both key columns hold integers that float64 holds as
    they are (or nulls), and the dimension table repeats no key. *)
Definition integer_unique_keys (local_dataframes : gmap string DataFrame) : Prop :=
  forall l r key, merge_step local_dataframes l r key ->
    integer_keys l key /\ integer_keys r key /\ unique_key r key.



End Steps.


End Loader.

Export Loader.

(* ===================================================================== *)
(** * Chart plan interpreter: [gerar_grafico_plotly]                       *)
(* ===================================================================== *)

Module Interp.

(** ** Order of cells *)

Definition ts_leb (a b : Timestamp) : bool :=
  (ts_year a <? ts_year b)
  || ((ts_year a =? ts_year b)
      && ((ts_month a <? ts_month b)
          || ((ts_month a =? ts_month b)
              && ((ts_day a <? ts_day b)
                  || ((ts_day a =? ts_day b) && (ts_nanos a <=? ts_nanos b)))))).

(** Numbers and booleans compare as numbers. *)
Definition num_of (v : Value) : option Z :=
  match v with
  | VInt z => Some z
  | VBool b => Some (if b then 1 else 0)
  | _ => None
  end.

Definition kind (v : Value) : nat :=
  match v with
  | VBool _ | VInt _ => 0
  | VStr _ => 1
  | VDate _ => 2
  | VNull => 3
  end.

(** The order [sort_values] and [groupby] put cells in: ascending within
    a kind, nulls last. *)
Definition value_leb (a b : Value) : bool :=
  match a, b with
  | VStr x, VStr y => (x <=? y)%string
  | VDate x, VDate y => ts_leb x y
  | _, _ =>
      match num_of a, num_of b with
      | Some x, Some y => (x <=? y)
      | _, _ => (kind a <=? kind b)%nat
      end
  end.

Definition value_le (a b : Value) : Prop := value_leb a b = true.

Definition row_le (i : nat) (r1 r2 : list Value) : Prop :=
  value_leb (cell i r1) (cell i r2) = true.

#[global] Instance row_le_dec i : RelDecision (row_le i).
Proof. intros r1 r2. unfold row_le. apply _. Defined.

(** A column sorts only if its cells, nulls apart, are of one kind
    (Python refuses to order a string against a number). *)
Definition sortable (series : list Value) : bool :=
  match List.filter (fun v => negb (is_null v)) series with
  | [] => true
  | v :: rest => forallb (fun w => (kind w =? kind v)%nat) rest
  end.

(** [df.sort_values(by=c)] *)
Definition sort_values (df : DataFrame) (c : string) : option DataFrame :=
  i ← col_index df c;
  if sortable (map (cell i) (rows df))
  then Some {| columns := columns df; rows := merge_sort (row_le i) (rows df) |}
  else None.

Fixpoint keys_leb (k1 k2 : list Value) : bool :=
  match k1, k2 with
  | [], _ => true
  | _ :: _, [] => false
  | a :: k1', b :: k2' =>
      if bool_decide (a = b) then keys_leb k1' k2'
      else value_leb a b
  end.

Definition keys_le (k1 k2 : list Value) : Prop := keys_leb k1 k2 = true.

#[global] Instance keys_le_dec : RelDecision keys_le.
Proof. intros k1 k2. unfold keys_le. apply _. Defined.

(** ** Filtering *)

(** A row test that may raise, run over all rows. *)
Fixpoint filter_opt {A} (test : A -> option bool) (l : list A) : option (list A) :=
  match l with
  | [] => Some []
  | x :: rest =>
      match test x, filter_opt test rest with
      | Some b, Some kept => Some (if b then x :: kept else kept)
      | _, _ => None
      end
  end.

Definition filter_rows (test : Value -> option bool) (df : DataFrame) (c : string)
  : option DataFrame :=
  i ← col_index df c;
  kept ← filter_opt (fun r => test (cell i r)) (rows df);
  Some {| columns := columns df; rows := kept |}.

(** [df[mask]] : the rows at which a boolean mask holds. *)
Fixpoint select {A} (mask : list bool) (l : list A) : list A :=
  match mask, l with
  | b :: mask', x :: l' => if b then x :: select mask' l' else select mask' l'
  | _, _ => []
  end.

Definition masked (df : DataFrame) (mask : option (list bool)) : option DataFrame :=
  m ← mask; Some {| columns := columns df; rows := select m (rows df) |}.

Inductive CmpOp : Type := OpEq | OpNe | OpLt | OpLe | OpGt | OpGe.

Definition cmp_op (operator : string) : option CmpOp :=
  if (operator =? "==")%string then Some OpEq
  else if (operator =? "!=")%string then Some OpNe
  else if (operator =? "<")%string then Some OpLt
  else if (operator =? "<=")%string then Some OpLe
  else if (operator =? ">")%string then Some OpGt
  else if (operator =? ">=")%string then Some OpGe
  else None.

(** A scalar of the plan as a cell. *)
Definition scalar (j : JSON) : option Value :=
  match j with
  | JNull => Some VNull
  | JBool b => Some (VBool b)
  | JNum z => Some (VInt z)
  | JStr s => Some (VStr s)
  | JArr _ | JObj _ => None
  end.

(** The names that [query] looks up as they are written: identifiers in
    ASCII that are no keyword of Python.  Any other label is rewritten
    first (a space becomes an underscore, a sign its name, and the result
    is prefixed), so that two labels can come to the same name. *)
Definition ident_start (c : ascii) : bool :=
  let n := nat_of_ascii c in
  ((65 <=? n)%nat && (n <=? 90)%nat) || ((97 <=? n)%nat && (n <=? 122)%nat)
  || (n =? 95)%nat.

Definition ident_char (c : ascii) : bool :=
  let n := nat_of_ascii c in
  ident_start c || ((48 <=? n)%nat && (n <=? 57)%nat).

Fixpoint all_chars (p : ascii -> bool) (s : string) : bool :=
  match s with
  | EmptyString => true
  | String c rest => p c && all_chars p rest
  end.

Definition python_keywords : list string :=
  [ "False"; "None"; "True"; "and"; "as"; "assert"; "async"; "await"; "break";
    "class"; "continue"; "def"; "del"; "elif"; "else"; "except"; "finally"; "for";
    "from"; "global"; "if"; "import"; "in"; "is"; "lambda"; "nonlocal"; "not"; "or";
    "pass"; "raise"; "return"; "try"; "while"; "with"; "yield" ].

Definition plain_name (s : string) : bool :=
  match s with
  | EmptyString => false
  | String c rest => ident_start c && all_chars ident_char rest
  end
  && negb (existsb (String.eqb s) python_keywords)
  && negb (str_prefixb "BACKTICK_QUOTED_STRING_" s).

(** A scalar that a float64 column is compared with as it is: every
    value but an integer beyond [2^53]. *)
Definition exact_scalar (x : Value) : bool :=
  match x with VInt z => Z.abs z <=? 2 ^ 53 | _ => true end.

Section Filters.
Context `{Library}.

(** Three-way comparison of a cell with a scalar: [None] when pandas
    refuses the pair. *)
Definition compare_cells (v x : Value) : option comparison :=
  match v, x with
  | VStr a, VStr b => Some (a ?= b)%string
  | VDate a, VDate b =>
      Some (if bool_decide (a = b) then Eq else if ts_leb a b then Lt else Gt)
  | _, _ =>
      match num_of v, num_of x with
      | Some a, Some b => Some (a ?= b)
      | _, _ => None
      end
  end.

(** [series <op> x] on one cell.  A null on either side makes every
    comparison false and [!=] true; equality across kinds is false,
    ordering across kinds raises. *)
Definition compare_cell (op : CmpOp) (v x : Value) : option bool :=
  if is_null v || is_null x then
    Some (match op with OpNe => true | _ => false end)
  else
    match op, compare_cells v x with
    | OpEq, Some c => Some (match c with Eq => true | _ => false end)
    | OpEq, None => Some false
    | OpNe, Some c => Some (match c with Eq => false | _ => true end)
    | OpNe, None => Some true
    | OpLt, Some c => Some (match c with Lt => true | _ => false end)
    | OpLe, Some c => Some (match c with Gt => false | _ => true end)
    | OpGt, Some c => Some (match c with Gt => true | _ => false end)
    | OpGe, Some c => Some (match c with Lt => false | _ => true end)
    | _, None => None
    end.

(** [df.query(f"`{column}` {operator} @value", local_dict={'value': value})]
    for one of the six comparisons and a scalar.  Against [None] no
    comparison holds but [!=], whatever the column.  For a date column
    [query] first makes a date of the value, and raises if that raises.
    A name that is not a column is looked up in the namespace of [query]
    ([index] and [ilevel_0] are the row index, [columns] and [clevel_0] the
    column labels, whose mask fits no row); any other name raises. *)
Definition query (df : DataFrame) (column operator : string) (value : JSON)
  : option DataFrame :=
  match cmp_op operator, scalar value with
  | Some op, Some x =>
      let null_rows :=
        {| columns := columns df;
           rows := match op with OpNe => rows df | _ => [] end |} in
      if plain_name column then
        match col_index df column with
        | Some i =>
            let series := map (cell i) (rows df) in
            let by_cell (x : Value) :=
              filter_rows (fun v => compare_cell op v x) df column in
            if is_null x then by_cell x
            else
              match dtype series with
              | DDate => t ← timestamp_scalar operator value; by_cell (date_value t)
              | DInt | DBool | DText =>
                  if exact_scalar x then by_cell x
                  else masked df (compare_other operator series value)
              | DFloat =>
                  if exact_scalar x && forallb exact_scalar series then by_cell x
                  else masked df (compare_other operator series value)
              | DVoid | DOther => masked df (compare_other operator series value)
              end
        | None =>
            if str_in column ["index"; "ilevel_0"] then
              if is_null x then Some null_rows
              else masked df (query_name column operator value df)
            else if str_in column ["columns"; "clevel_0"] then
              if is_null x
              then match rows df with [] => Some df | _ :: _ => None end
              else masked df (query_name column operator value df)
            else None
        end
      else
        m ← query_name column operator value df;
        if is_null x then Some null_rows
        else Some {| columns := columns df; rows := select m (rows df) |}
  | _, _ => query_other column operator value df
  end.

(** [series >= bound] / [series <= bound] against a [Timestamp] or [NaT]. *)
Definition cmp_bound (test : Timestamp -> Timestamp -> bool) (v : Value)
    (bound : option Timestamp) : option bool :=
  match v, bound with
  | VNull, _ => Some false
  | VDate _, None => Some false
  | VDate t, Some b => Some (test t b)
  | _, _ => None
  end.

(** [series.between(left, right)] on one cell: both ends included. *)
Definition between_cell (left right : option Timestamp) (v : Value) : option bool :=
  match cmp_bound (fun t b => ts_leb b t) v left, cmp_bound ts_leb v right with
  | Some ge, Some le => Some (ge && le)
  | _, _ => None
  end.

(** Python's [==] between a stored cell and a listed value: numbers and
    booleans compare as numbers, a null cell ([NaN]) equals nothing. *)
Definition same_listed (v : Value) (j : JSON) : bool :=
  match v, j with
  | VInt a, JNum b => (a =? b)
  | VInt a, JBool b => (a =? (if b then 1 else 0))
  | VBool a, JBool b => Bool.eqb a b
  | VBool a, JNum b => ((if a then 1 else 0) =? b)
  | VStr a, JStr b => (a =? b)%string
  | _, _ => false
  end.

(** A listed value that is a scalar (an integer within int64). *)
Definition listed_flat (j : JSON) : bool :=
  match j with
  | JNull | JBool _ | JStr _ => true
  | JNum z => (- 2 ^ 63 <=? z) && (z <? 2 ^ 63)
  | JArr _ | JObj _ => false
  end.

(** A listed value that float64 holds as it is. *)
Definition listed_exact (j : JSON) : bool :=
  match j with JNum z => Z.abs z <=? 2 ^ 53 | _ => true end.

(** The columns and lists on which [isin] is the membership test of
    Python: numbers, booleans or text against scalars, up to a million
    rows; in a float64 column, as long as float64 holds the integers on
    both sides as they are. *)
Definition isin_plain (series : list Value) (values : list JSON) : bool :=
  (Z.of_nat (List.length series) <=? 1000000)
  && forallb listed_flat values
  && match dtype series with
     | DInt | DBool | DText => true
     | DFloat => forallb exact_scalar series && forallb listed_exact values
     | DDate | DVoid | DOther => false
     end.

(** [series.isin(values)] as a row mask. *)
Definition isin (series : list Value) (values : list JSON) : option (list bool) :=
  if isin_plain series values
  then Some (map (fun v => existsb (same_listed v) values) series)
  else isin_other series values.

(** The rows [between] keeps: a date within the two bounds, ends
    included. *)
Definition inside (left right : option Timestamp) (v : Value) : bool :=
  match v, left, right with
  | VDate t, Some lo, Some hi => ts_leb lo t && ts_leb t hi
  | _, _, _ => false
  end.



(** [f.get('operator') or f.get('condition')] *)
Definition filter_operator (f : list (string * JSON)) : JSON :=
  py_or (dict_get f "operator") (dict_get f "condition").

(** [f.get('value') or f.get('values')] *)
Definition filter_value (f : list (string * JSON)) : JSON :=
  py_or (dict_get f "value") (dict_get f "values").

(** A column whose label contains ["Data"] is made a date column before
    it is compared. *)
Definition prepare_column (df : DataFrame) (column : string) : option DataFrame :=
  if str_contains "Data" column then
    series ← get_column df column;
    Some (if is_datetime64_any_dtype series then df
          else set_column df column (to_datetime_coerce series))
  else Some df.

(** One pass of the filter loop: the table after the entry [f].  The
    column label must be a string (any other value of ["column"] is taken
    to raise). *)
Definition apply_filter (df : DataFrame) (f : JSON) : option DataFrame :=
  match f with
  | JObj f =>
      column ← assoc "column" f;
      let operator := filter_operator f in
      let value := filter_value f in
      if negb (truthy operator) then Some df
      else
        match column with
        | JStr column =>
            df ← prepare_column df column;
            match operator, value with
            | JStr "between", JArr [v0; v1] =>
                start_date ← to_datetime v0;
                end_date ← to_datetime v1;
                filter_rows (between_cell start_date end_date) df column
            | JStr "in", JArr values =>
                i ← col_index df column;
                masked df (isin (map (cell i) (rows df)) values)
            | JStr operator, _ => query df column operator value
            | _, _ => None
            end
        | _ => None
        end
  | _ => None
  end.

Fixpoint apply_filters (filters : list JSON) (df : DataFrame) : option DataFrame :=
  match filters with
  | [] => Some df
  | f :: rest => df' ← apply_filter df f; apply_filters rest df'
  end.

(** Step 1 of the interpreter. *)
Definition filter_stage (transformation : list (string * JSON)) (df : DataFrame)
  : option DataFrame :=
  filters ← py_iter (dict_get_default transformation "filters" (JArr []));
  apply_filters filters df.

End Filters.

(** ** Grouping and aggregation *)

Definition as_str (j : JSON) : option string :=
  match j with JStr s => Some s | _ => None end.

(** Distinct elements in the order of their first occurrence. *)
Fixpoint nub {A} `{EqDecision A} (l : list A) : list A :=
  match l with
  | [] => []
  | x :: rest => x :: List.filter (fun y => negb (bool_decide (y = x))) (nub rest)
  end.

(** The two shapes of the aggregation descriptor, as (column, function):
    a mapping with a single entry is read as column -> function, anything
    else must be an object and is asked for ['column'] and ['function']. *)
Definition resolve_aggregation (agg_info : JSON) : option (JSON * JSON) :=
  match agg_info with
  | JObj [(agg_col, agg_func)] => Some (JStr agg_col, agg_func)
  | JObj d => Some (dict_get d "column", dict_get d "function")
  | _ => None
  end.

Definition digit_char (d : Z) : ascii := ascii_of_nat (48 + Z.to_nat (d mod 10)).

(** The last [width] decimal digits of [n]. *)
Fixpoint decimal (width : nat) (n : Z) : string :=
  match width with
  | O => EmptyString
  | S w => String.append (decimal w (n / 10)) (String (digit_char n) EmptyString)
  end.

(** [str(timestamp.to_period('M'))], e.g. ["2024-03"]; ["NaT"] for a null. *)
Definition period_str (v : Value) : Value :=
  match v with
  | VDate t =>
      VStr (String.append (decimal 4 (ts_year t))
              (String.append "-" (decimal 2 (ts_month t))))
  | _ => VStr "NaT"
  end.

(** A timestamp with a four-digit year and a month of the calendar (every
    pandas [Timestamp] is one: its years run from 1677 to 2262). *)
Definition calendar (t : Timestamp) : Prop :=
  0 <= ts_year t < 10000 /\ 1 <= ts_month t <= 12.

(** [a] is in the same month as [b] or in an earlier one. *)
Definition month_le (a b : Timestamp) : Prop :=
  ts_year a < ts_year b \/ (ts_year a = ts_year b /\ ts_month a <= ts_month b).

Section Charts.
Context `{Library}.

(** [df['Ano-Mês'] = df['Data_Movimento_mov'].dt.to_period('M').astype(str)];
    [.dt] raises on a column that is not a date column. *)
Definition add_ano_mes (df : DataFrame) : option DataFrame :=
  series ← get_column df "Data_Movimento_mov";
  if is_datetime64_any_dtype series
  then Some (set_column df "Ano-Mês" (map period_str series))
  else None.

(** [df.groupby(keys).agg({agg_col: agg_func}).reset_index()]: rows with a
    null key are left out, one row per distinct key in ascending key order,
    the key columns followed by the aggregated column. *)
Definition groupby_agg (df : DataFrame) (keys : list string) (agg_col : string)
    (agg_func : JSON) : option DataFrame :=
  ks ← mapM (col_index df) keys;
  ia ← col_index df agg_col;
  if str_in agg_col keys then None
  else
    let key_of (r : list Value) := map (fun k => cell k r) ks in
    let live := List.filter (fun r => forallb (fun v => negb (is_null v)) (key_of r))
                  (rows df) in
    let groups := merge_sort keys_le (nub (map key_of live)) in
    rows' ← mapM (fun g =>
                    v ← agg_named agg_func
                          (map (cell ia)
                             (List.filter (fun r => bool_decide (key_of r = g)) live));
                    Some (g ++ [v]))
                 groups;
    Some {| columns := keys ++ [agg_col]; rows := rows' |}.

(** Step 2 of the interpreter: the table to draw and the aggregated
    column.  [group_by] must be a list (absent counts as the empty list);
    [list(set(group_by_cols))] is taken in order of first occurrence. *)
Definition aggregate_stage (plan transformation : list (string * JSON))
    (df : DataFrame) : option (DataFrame * JSON) :=
  match dict_get_default transformation "group_by" (JArr []) with
  | JArr group_by_cols =>
      match resolve_aggregation
              (dict_get_default transformation "aggregation" (JObj [])) with
      | Some (agg_col, agg_func) =>
          let color_col := dict_get plan "color" in
          let group_by_cols :=
            if truthy color_col && negb (py_in color_col group_by_cols)
            then group_by_cols ++ [color_col] else group_by_cols in
          df ← (if py_in (JStr "Ano-Mês") group_by_cols
                then add_ano_mes df else Some df);
          if truthy (JArr group_by_cols) && truthy agg_col && truthy agg_func then
            keys ← mapM as_str group_by_cols;
            col ← as_str agg_col;
            df_agg ← groupby_agg df (nub keys) col agg_func;
            Some (df_agg, agg_col)
          else Some (df, agg_col)
      | None => None
      end
  | _ => None
  end.

(** ** Charts *)

(** One trace of a figure: the points of one colour (bar) or the slices
    (pie). *)
Record Trace : Type := mkTrace {
  trace_name : option Value;
  trace_x : option (list Value);
  trace_y : option (list Value)
}.

Inductive ChartKind : Type := Bar | Pie.

(** What [fig.to_json()] carries, as far as the program sets it.  [fig_x],
    [fig_y] and [fig_color] are the columns given to plotly express;
    without [fig_y] a bar chart draws the row index, under the axis title
    [index], and a pie has no values. *)
Record Figure : Type := mkFigure {
  fig_kind : ChartKind;
  fig_title : JSON;
  fig_x : option string;
  fig_y : option string;
  fig_color : option string;
  fig_hole : Z * Z;
  fig_traces : list Trace;
  fig_texttemplate : string;
  fig_barmode : option string
}.

(** A column argument of plotly express: [None] or an existing label. *)
Definition px_arg (df : DataFrame) (j : JSON) : option (option string) :=
  match j with
  | JNull => Some None
  | JStr c => if has_column df c then Some (Some c) else None
  | _ => None
  end.

Definition px_column (df : DataFrame) (c : option string) : option (list Value) :=
  match c with
  | None => None
  | Some c => get_column df c
  end.

(** Whether plotly express takes the colour column for continuous: it
    does for a numeric dtype, and then draws a single trace with a colour
    scale. *)
Definition continuous (series : list Value) : bool :=
  match dtype series with
  | DInt | DFloat => true
  | DBool | DText | DDate => false
  | DVoid | DOther => continuous_other series
  end.

(** What [px.bar] draws for the rows [part] of [df] when it is given no
    [y]: a constant 1 for each row when the [x] column is categorical, the
    row index when it is continuous (a plan whose [x] column is missing has
    ended before). *)
Definition missing_y (df : DataFrame) (x : string) (part : DataFrame) : list Value :=
  match get_column df x with
  | Some xs =>
      if continuous xs then row_labels part
      else replicate (List.length (rows part)) (VInt 1)
  | None => row_labels part
  end.

(** The traces of [px.bar(df, x=x, y=y, color=color)]: a single trace
    without [color] or with a continuous one, else one per colour in
    order of first appearance, each with its rows in table order. *)
Definition px_bar (df : DataFrame) (x : string) (y color : option string)
  : list Trace :=
  let trace (name : option Value) (rs : list (list Value)) :=
    let part := {| columns := columns df; rows := rs |} in
    {| trace_name := name;
       trace_x := get_column part x;
       trace_y := match y with
                  | Some c => get_column part c
                  | None => Some (missing_y df x part)
                  end |} in
  match color ≫= col_index df with
  | None => [trace None (rows df)]
  | Some ic =>
      if continuous (map (cell ic) (rows df)) then [trace None (rows df)]
      else
        map (fun name =>
               trace (Some name)
                     (List.filter (fun r => bool_decide (cell ic r = name)) (rows df)))
            (nub (List.filter (fun v => negb (is_null v)) (map (cell ic) (rows df))))
  end.

Definition px_pie (df : DataFrame) (names values : option string) : list Trace :=
  [ {| trace_name := None;
       trace_x := px_column df names;
       trace_y := px_column df values |} ].

(** Step 3 of the interpreter. *)
Definition build_chart (plan : list (string * JSON)) (agg_col : JSON)
    (df_agg : DataFrame) : option Figure :=
  let chart_type := dict_get plan "chart_type" in
  let title := dict_get plan "title" in
  let x_axis := dict_get plan "x_axis" in
  let y_axis := agg_col in
  let color_col := dict_get plan "color" in
  if py_eqb chart_type (JStr "bar") then
    let x_axis := if str_in "Ano-Mês" (columns df_agg) then JStr "Ano-Mês" else x_axis in
    x ← as_str x_axis;
    df_agg ← sort_values df_agg x;
    y ← px_arg df_agg y_axis;
    color ← px_arg df_agg color_col;
    Some {| fig_kind := Bar; fig_title := title;
            fig_x := Some x; fig_y := y; fig_color := color;
            fig_hole := (0, 1);
            fig_traces := px_bar df_agg x y color;
            fig_texttemplate := "%{value:,.0f}";
            fig_barmode := Some "group" |}
  else if py_in chart_type [JStr "pie"; JStr "donut"] then
    names ← px_arg df_agg x_axis;
    values ← px_arg df_agg y_axis;
    Some {| fig_kind := Pie; fig_title := title;
            fig_x := names; fig_y := values; fig_color := None;
            fig_hole := if py_eqb chart_type (JStr "donut") then (4, 10) else (0, 1);
            fig_traces := px_pie df_agg names values;
            fig_texttemplate := "%{label}<br>%{percent:1.1%}";
            fig_barmode := None |}
  else None.

(** [gerar_grafico_plotly(plan, df_original)]: the figure, or [None] (also
    for every exception, which the function catches). *)
Definition gerar_grafico_plotly (plan : JSON) (df_original : DataFrame)
  : option Figure :=
  match plan with
  | JObj plan =>
      match dict_get plan "data_transformation" with
      | JObj ((_ :: _) as transformation) =>
          df ← filter_stage transformation df_original;
          if empty df then None
          else
            match aggregate_stage plan transformation df with
            | Some (df_agg, agg_col) =>
                if empty df_agg then None else build_chart plan agg_col df_agg
            | None => None
            end
      | _ => None
      end
  | _ => None
  end.

(** The x values of a trace are in ascending order. *)
Definition sorted_trace (t : Trace) : Prop :=
  exists xs, trace_x t = Some xs /\ StronglySorted value_le xs.

(** The traces of [fig] are those of a table whose rows are in ascending
    order of the column [x]. *)
Definition drawn_from_sorted (fig : Figure) (x : string) : Prop :=
  exists data i,
    col_index data x = Some i
    /\ StronglySorted (row_le i) (rows data)
    /\ fig_traces fig = px_bar data x (fig_y fig) (fig_color fig).

(** A plan whose [data_transformation] carries the aggregation
    descriptor [agg_info] next to the entries [transformation], and whose
    other fields are [fields]. *)
Definition plan_with_aggregation (agg_info : JSON)
    (transformation fields : list (string * JSON)) : JSON :=
  JObj (("data_transformation", JObj (("aggregation", agg_info) :: transformation))
          :: fields).

(** The filter entry [{column: c, operator: '==', value: 0}]. *)
Definition equals_zero (c : string) : JSON :=
  JObj [("column", JStr c); ("operator", JStr "=="); ("value", JNum 0)].

(** A plan with the filter list [filters]. *)
Definition plan_with_filters (filters : list JSON)
    (transformation fields : list (string * JSON)) : JSON :=
  JObj (("data_transformation", JObj (("filters", JArr filters) :: transformation))
          :: fields).

End Charts.

End Interp.

Export Interp.

(* ===================================================================== *)
(** * Conversation orchestrator: [extrair_json] and [/ask]                 *)
(* ===================================================================== *)

Module Route.

Section Route.
Context `{Library}.

(** [extrair_json(text)]: the span from the first ['{'] to the last ['}']
    handed to [json.loads]; [None] when a brace is missing or the parse
    raises. *)
Definition extrair_json (text : string) : option JSON :=
  match str_find "{" text, str_rfind "}" text with
  | Some start_index, Some last =>
      json_loads (str_slice start_index (S last) text)
  | _, _ => None
  end.

(** One turn of the conversation, as stored in the session. *)
Record Turn : Type := mkTurn { q : JSON; a : JSON }.

(** The body of a successful reply. *)
Record Answer : Type := mkAnswer {
  answer : JSON;
  insight_text : JSON;
  charts_json : list Figure
}.

(** What the handler sends back: a reply with its status, or [Crash] when
    an exception leaves the handler (the request body has no [get]). *)
Inductive Reply : Type :=
  | Ok (body : Answer)
  | Error (status : Z) (message : string)
  | Crash.

Definition msg_no_data : string :=
  "Desculpe, os dados não estão disponíveis no momento para análise.".
Definition msg_no_question : string := "Por favor, faça uma pergunta.".
Definition msg_model : string :=
  "Não consegui processar a resposta do modelo. Tente novamente.".
Definition msg_unexpected : string :=
  "Ocorreu um erro inesperado ao processar sua pergunta.".

(** The charts of a reply: the plans in order, those without a figure
    left out. *)
Definition render_charts (chart_plans : list JSON) (df : DataFrame) : list Figure :=
  omap (fun plan => gerar_grafico_plotly plan df) chart_plans.

(** The history after a successful turn: append, then drop the oldest
    entry when there are more than three. *)
Definition update_history (history : list Turn) (turn : Turn) : list Turn :=
  let history := history ++ [turn] in
  if (3 <? List.length history)%nat then tail history else history.

(** One request to [/ask].  [df] is what [get_data()] returns, [session]
    the value of [session['history']] ([None] when the key is absent),
    [data] the JSON body of the request and [response] the text of the
    model's reply ([None] when the call raises).  Returns the reply and
    the session afterwards. *)
Definition ask_gemini (df : option DataFrame) (session : option (list Turn))
    (data : JSON) (response : option string)
  : Reply * option (list Turn) :=
  match df with
  | None => (Error 500 msg_no_data, session)
  | Some df =>
      let history := default [] session in
      match py_get data "question" with
      | None => (Crash, Some history)
      | Some question =>
          if negb (truthy question) then (Error 400 msg_no_question, Some history)
          else
            match response with
            | None => (Error 500 msg_unexpected, Some history)
            | Some text =>
                match extrair_json text with
                | None => (Error 500 msg_model, Some history)
                | Some response_json =>
                    if negb (truthy response_json)
                    then (Error 500 msg_model, Some history)
                    else
                      match response_json with
                      | JObj d =>
                          let text_answer := dict_get d "answer" in
                          let insight := dict_get d "insight_text" in
                          match py_iter (dict_get_default d "chart_plans" (JArr [])) with
                          | Some chart_plans =>
                              (Ok {| answer := text_answer;
                                     insight_text := insight;
                                     charts_json := render_charts chart_plans df |},
                               Some (update_history history
                                       {| q := question; a := text_answer |}))
                          | None => (Error 500 msg_unexpected, Some history)
                          end
                      | _ => (Error 500 msg_unexpected, Some history)
                      end
                end
            end
      end
  end.

(** The last [n] elements of a list. *)
Definition last_n {A} (n : nat) (l : list A) : list A := drop (List.length l - n) l.

(** A request as the handler sees it. *)
Record Request : Type := mkRequest {
  req_df : option DataFrame;
  req_data : JSON;
  req_response : option string
}.

Definition handle (session : option (list Turn)) (r : Request)
  : Reply * option (list Turn) :=
  ask_gemini (req_df r) session (req_data r) (req_response r).

(** A sequence of requests in one session: the session at the end. *)
Definition run (requests : list Request) (session : option (list Turn))
  : option (list Turn) :=
  foldl (fun s r => snd (handle s r)) session requests.

(** The turn a request contributes when it is answered. *)
Definition turn_of (r : Request) : Turn :=
  {| q := default JNull (py_get (req_data r) "question");
     a := match fst (handle None r) with
          | Ok body => answer body
          | _ => JNull
          end |}.

Definition answered (r : Request) : Prop :=
  exists body, fst (handle None r) = Ok body.

End Route.

End Route.

Export Route.

(* ===================================================================== *)
(** * Background check: [verificar_atualizacoes_periodicamente]            *)
(* ===================================================================== *)

Module Checker.

(** The file is one of the five the loader reads. *)
Definition recognised (item : DriveItem) : bool :=
  match csv_role (str_lower (item_name item)) csv_files with
  | Some _ => true
  | None => false
  end.

(** The test of the loop body: the name is on record and the recorded
    modification time is not the listed one. *)
Definition changed (csv_modification_times : gmap string string) (item : DriveItem) : bool :=
  match csv_modification_times !! item_name item with
  | Some recorded => negb (recorded =? item_modifiedTime item)%string
  | None => false
  end.

Section Checker.
Context `{Library}.

(** One turn of the loop, after the sleep.  [listing] is what the Drive
    answers to the checker ([None] when the request raises, which the loop
    catches), [drive_service] the service as [get_data] sees it.  On the
    first changed file the cache is cleared and [get_data] is called; the
    turn returns whether the cache was cleared, and the modification times
    afterwards. *)
Definition verificar_atualizacoes (drive_service : option (option (list DriveItem)))
    (listing : option (list DriveItem))
    (csv_modification_times : gmap string string)
  : bool * gmap string string :=
  match drive_service with
  | None => (false, csv_modification_times)
  | Some _ =>
      match listing with
      | None => (false, csv_modification_times)
      | Some items =>
          if existsb (changed csv_modification_times) items
          then (true, fst (get_data drive_service csv_modification_times))
          else (false, csv_modification_times)
      end
  end.

End Checker.

(** Only files the loader reads are on record. *)
Definition tracked_known (csv_modification_times : gmap string string) : Prop :=
  forall name recorded, csv_modification_times !! name = Some recorded ->
    is_Some (csv_role (str_lower name) csv_files).

(** Every file the loader reads downloads and parses. *)
Definition all_readable (items : list DriveItem) : Prop :=
  forall item, In item items -> recognised item = true -> is_Some (item_csv item).

End Checker.

Export Checker.

(* ===================================================================== *)
(** * Notions used by the properties                                       *)
(* ===================================================================== *)

Module Notions.

(** Every row has one cell per column. *)
Definition well_formed (df : DataFrame) : Prop :=
  Forall (fun r => List.length r = List.length (columns df)) (rows df).

(** The column [c] of [df] holds dates and nulls only. *)
Definition date_column (df : DataFrame) (c : string) : Prop :=
  exists series, get_column df c = Some series /\ is_datetime64_any_dtype series = true.

(** [fig] with the hole of a donut. *)
Definition with_hole (hole : Z * Z) (fig : Figure) : Figure :=
  {| fig_kind := fig_kind fig; fig_title := fig_title fig;
     fig_x := fig_x fig; fig_y := fig_y fig; fig_color := fig_color fig;
     fig_hole := hole; fig_traces := fig_traces fig;
     fig_texttemplate := fig_texttemplate fig; fig_barmode := fig_barmode fig |}.

(** The filter entry [{column: c, operator: op, value: v}]. *)
Definition comparison_entry (c op : string) (v : JSON) : list (string * JSON) :=
  [("column", JStr c); ("operator", JStr op); ("value", v)].

(** The six comparison operators as the plan spells them. *)
Definition comparison_operators : list (string * CmpOp) :=
  [("==", OpEq); ("!=", OpNe); ("<", OpLt); ("<=", OpLe); (">", OpGt); (">=", OpGe)].



(** A column whose cells settle how pandas holds it: values of one kind,
    and integers that float64 holds as they are. *)
Definition settled (series : list Value) : Prop :=
  In (dtype series) [DInt; DFloat; DBool; DText; DDate]
  /\ Forall (fun v => exact_scalar v = true) series.

(** A plan whose [data_transformation] groups by [group_by]. *)
Definition plan_with_grouping (group_by : list JSON)
    (transformation fields : list (string * JSON)) : JSON :=
  JObj (("data_transformation", JObj (("group_by", JArr group_by) :: transformation))
          :: fields).

(** A text that opens with a brace and closes with one. *)
Definition braced (inner : string) : string :=
  String "{" (String.append inner "}").

End Notions.

Export Notions.

(* ===================================================================== *)
(** * A small library instance and sample data                             *)
(* ===================================================================== *)

(** An executable instance of [Library], used to run the definitions on
    concrete inputs: ISO dates ["YYYY-MM-DD"], the aggregations ["count"]
    and ["sum"], no operator beyond the six comparisons, a JSON reader
    that knows the replies of [sample_replies] only, rows labelled by
    their position, and nothing where the cells do not settle what pandas
    does. *)
Module Sample.

Definition digit (c : ascii) : option Z :=
  let n := nat_of_ascii c in
  if (48 <=? n)%nat && (n <=? 57)%nat then Some (Z.of_nat (n - 48)) else None.

Fixpoint number (s : string) (acc : Z) : option Z :=
  match s with
  | EmptyString => Some acc
  | String c rest => d ← digit c; number rest (10 * acc + d)
  end.

Definition parse_iso (s : string) : option Timestamp :=
  if (String.length s =? 10)%nat
     && (substring 4 1 s =? "-")%string && (substring 7 1 s =? "-")%string
  then
    y ← number (substring 0 4 s) 0;
    m ← number (substring 5 2 s) 0;
    d ← number (substring 8 2 s) 0;
    Some (mkTimestamp y m d 0)
  else None.

Definition sample_parse_cell (_ : list Value) (v : Value) : option Timestamp :=
  match v with
  | VStr s => parse_iso s
  | _ => None
  end.

Definition sample_to_datetime (j : JSON) : option (option Timestamp) :=
  match j with
  | JNull => Some None
  | JStr s => Some <$> parse_iso s
  | _ => None
  end.

(** A text that is no date raises under an ordering; under [==] and [!=]
    it equals no date. *)
Definition sample_timestamp (operator : string) (j : JSON) : option (option Timestamp) :=
  match j with
  | JStr s =>
      match parse_iso s with
      | Some t => Some (Some t)
      | None => if str_in operator ["=="; "!="] then Some None else None
      end
  | _ => None
  end.

Definition sample_agg (func : JSON) (cells : list Value) : option Value :=
  match func with
  | JStr "count" =>
      Some (VInt (Z.of_nat (List.length (List.filter (fun v => negb (is_null v)) cells))))
  | JStr "sum" =>
      foldr (fun v acc =>
               a ← acc;
               match v, a with
               | VInt z, VInt s => Some (VInt (z + s))
               | VNull, _ => Some a
               | _, _ => None
               end) (Some (VInt 0)) cells
  | _ => None
  end.

Definition dq : string := String "034"%char EmptyString.

(** The text [{"answer": "ok", "chart_plans": []}]. *)
Definition ok_json : string :=
  String.concat dq ["{"; "answer"; ": "; "ok"; ", "; "chart_plans"; ": []}"].

Definition sample_replies : list (string * JSON) :=
  [ (ok_json, JObj [("answer", JStr "ok"); ("chart_plans", JArr [])]);
    ("{}", JObj []) ].

Definition sample_json_loads (s : string) : option JSON := assoc s sample_replies.

#[export] Instance sample_library : Library := {
  parse_cell := sample_parse_cell;
  to_datetime := sample_to_datetime;
  agg_named := sample_agg;
  query_other := fun _ _ _ _ => None;
  json_loads := sample_json_loads;
  merge_keys_other := fun _ _ => None;
  merge_void_raises := fun _ _ => false;
  isin_other := fun _ _ => None;
  timestamp_scalar := sample_timestamp;
  compare_other := fun _ _ _ => None;
  query_name := fun _ _ _ _ => None;
  row_labels := fun df => map (fun n => VInt (Z.of_nat n)) (seq 0 (List.length (rows df)));
  continuous_other := fun _ => false
}.

(** Five small tables.  Three movements, listed out of date order; the
    last one is on an account that the accounts table does not have. *)
Definition movimentos : DataFrame :=
  {| columns := ["ID_Movimento"; "ID_Conta"; "Data_Movimento"; "Valor"];
     rows := [ [VInt 1; VInt 10; VStr "2024-03-10"; VInt 100];
               [VInt 2; VInt 10; VStr "2024-01-15"; VInt 0];
               [VInt 3; VInt 99; VStr "2024-02-03"; VInt 250] ] |}.

Definition contas : DataFrame :=
  {| columns := ["ID_Conta"; "ID_Cliente"; "ID_Parceiro"];
     rows := [ [VInt 10; VInt 7; VInt 3] ] |}.

Definition clientes : DataFrame :=
  {| columns := ["ID_Cliente"; "Nome"];
     rows := [ [VInt 7; VStr "Ana"] ] |}.

Definition classificacao : DataFrame :=
  {| columns := ["ID_Conta"; "Data_Ultimo_Movimento"; "Classe"];
     rows := [ [VInt 10; VStr "2024-03-10"; VStr "ativa"] ] |}.

Definition parceiros : DataFrame :=
  {| columns := ["ID_Parceiro"; "Parceiro"];
     rows := [ [VInt 3; VStr "Banco"] ] |}.

Definition tables (df_mov contas0 : DataFrame) : gmap string DataFrame :=
  <["movimentos" := df_mov]>
  (<["contas" := contas0]>
  (<["clientes" := clientes]>
  (<["classificacao" := classificacao]>
  (<["parceiros" := parceiros]> ∅)))).

Definition loaded : gmap string DataFrame := tables movimentos contas.

(** The merged table, before and after the date coercion. *)
Definition merged : DataFrame :=
  Eval vm_compute in default (mkDataFrame [] []) (merge_tables loaded).

Definition joined : DataFrame :=
  Eval vm_compute in default (mkDataFrame [] []) (process_tables loaded).





(** ** Plans *)

Definition strs (l : list string) : JSON := JArr (map JStr l).

(** Movements per month as bars; the plan asks for another x axis. *)
Definition monthly : list (string * JSON) := [("group_by", strs ["Ano-Mês"])].

Definition bar_fields : list (string * JSON) :=
  [("chart_type", JStr "bar"); ("title", JStr "Movimentos por mês");
   ("x_axis", JStr "Valor")].

Definition bar_plan : list (string * JSON) :=
  ("data_transformation",
   JObj (("aggregation", JObj [("ID_Movimento", JStr "count")]) :: monthly))
  :: bar_fields.

Definition count_explicit : list (string * JSON) :=
  [("column", JStr "ID_Movimento"); ("function", JStr "count")].


Definition in_entry : list (string * JSON) :=
  [("column", JStr "ID_Conta"); ("operator", JStr "in"); ("value", JArr [JNum 99])].

Definition large_operator : list (string * JSON) :=
  [("operator", JStr ">"); ("column", JStr "Valor"); ("value", JNum 200)].

Definition large_condition : list (string * JSON) :=
  [("condition", JStr ">"); ("column", JStr "Valor"); ("value", JNum 200)].

Definition no_operator : list (string * JSON) :=
  [("column", JStr "Valor"); ("value", JNum 200)].

Definition huge : list (string * JSON) :=
  [("column", JStr "Valor"); ("operator", JStr ">"); ("value", JNum 1000)].

(** An entry with neither an operator nor a column. *)
Definition bare_entry : list (string * JSON) := [("value", JNum 200)].

Definition counted : list (string * JSON) :=
  ("aggregation", JObj [("ID_Movimento", JStr "count")]) :: monthly.

Definition zero_entry : list (string * JSON) :=
  [("column", JStr "Valor"); ("operator", JStr "=="); ("value", JNum 0)].

(** A plan whose filter leaves no row, and one whose only grouping key is
    null in every row that passes the filter. *)
Definition no_rows_plan : list (string * JSON) :=
  ("data_transformation", JObj [("filters", JArr [JObj huge])]) :: bar_fields.

Definition null_group : list (string * JSON) :=
  [("filters", JArr [JObj in_entry]); ("group_by", strs ["Nome"]);
   ("aggregation", JObj [("Valor", JStr "sum")])].

Definition null_group_plan : list (string * JSON) :=
  ("data_transformation", JObj null_group) :: bar_fields.

Definition scatter_plan : list (string * JSON) :=
  [("chart_type", JStr "scatter3d");
   ("data_transformation", JObj (("aggregation", JObj [("ID_Movimento", JStr "count")])
                                   :: monthly))].

(** ** Requests *)

Definition reply_text : string :=
  String.append "Segue: " (String.append ok_json " fim").

Definition ask (question : string) : Request :=
  {| req_df := Some joined;
     req_data := JObj [("question", JStr question)];
     req_response := Some reply_text |}.

Definition four_requests : list Request := [ask "a"; ask "b"; ask "c"; ask "d"].

End Sample.

(* ===================================================================== *)
(** * Further sample data                                                  *)
(* ===================================================================== *)

Module Scenes.

(** A Drive folder: the five files of [Sample], one of them with an upper
    case name, and a file the loader does not read. *)
Definition file (name modified : string) (df : DataFrame) : DriveItem :=
  {| item_name := name; item_modifiedTime := modified; item_csv := Some df |}.

Definition notes : DriveItem :=
  {| item_name := "notas.csv"; item_modifiedTime := "2024-04-02T08:00:00Z";
     item_csv := None |}.

Definition without_partners : list DriveItem :=
  [ file "movimentos_contas.csv" "2024-04-01T10:00:00Z" Sample.movimentos;
    file "Contas.csv" "2024-04-01T10:05:00Z" Sample.contas;
    notes;
    file "clientes.csv" "2024-04-01T10:10:00Z" Sample.clientes;
    file "classificacao_ultimo_movimento.csv" "2024-04-01T10:15:00Z"
      Sample.classificacao ].

Definition listing : list DriveItem :=
  without_partners ++ [ file "parceiros.csv" "2024-04-01T10:20:00Z" Sample.parceiros ].

(** The accounts file is on record with an older modification time. *)
Definition stale : gmap string string := {[ "Contas.csv" := "2024-03-01T09:00:00Z" ]}.

(** Two movements, the second on an account that is not listed; the
    account of the first belongs to client [2^53 + 1], and the clients
    table lists the clients [2^53] and [2^53 + 1]. *)
Definition two_movements : DataFrame :=
  {| columns := ["ID_Movimento"; "ID_Conta"];
     rows := [ [VInt 1; VInt 10]; [VInt 2; VInt 99] ] |}.

Definition contas_big : DataFrame :=
  {| columns := ["ID_Conta"; "ID_Cliente"; "ID_Parceiro"];
     rows := [ [VInt 10; VInt (2 ^ 53 + 1); VInt 3] ] |}.

Definition clientes_big : DataFrame :=
  {| columns := ["ID_Cliente"; "Nome"];
     rows := [ [VInt (2 ^ 53); VStr "Ana"]; [VInt (2 ^ 53 + 1); VStr "Bia"] ] |}.

Definition loaded_big : gmap string DataFrame :=
  <["movimentos" := two_movements]>
  (<["contas" := contas_big]>
  (<["clientes" := clientes_big]>
  (<["classificacao" := Sample.classificacao]>
  (<["parceiros" := Sample.parceiros]> ∅)))).

(** Accounts keyed by text. *)
Definition contas_text : DataFrame :=
  {| columns := ["ID_Conta"; "ID_Cliente"; "ID_Parceiro"];
     rows := [ [VStr "10"; VInt 7; VInt 3] ] |}.

(** Movements per month, as the aggregation leaves them. *)
Definition monthly_counts : DataFrame :=
  {| columns := ["Ano-Mês"; "ID_Movimento"];
     rows := [ [VStr "2024-03"; VInt 1]; [VStr "2024-01"; VInt 1];
               [VStr "2024-02"; VInt 1] ] |}.

(** A [between] entry whose bounds are in the wrong order. *)
Definition reversed_entry : list (string * JSON) :=
  [("column", JStr "Data_Movimento_mov"); ("operator", JStr "between");
   ("value", Sample.strs ["2024-02-03"; "2024-01-15"])].

(** A comparison on a column the table does not have. *)
Definition balance_entry : list (string * JSON) :=
  [("column", JStr "Saldo"); ("operator", JStr ">"); ("value", JNum 10)].


(** Movements counted per month and class, the class as colour. *)
Definition counting : list (string * JSON) :=
  [("aggregation", JObj [("ID_Movimento", JStr "count")])].

Definition coloured_fields : list (string * JSON) :=
  ("color", JStr "Classe") :: Sample.bar_fields.

(** Counting per account, the account as colour. *)
Definition by_account : DataFrame :=
  {| columns := ["ID_Conta"; "ID_Movimento"];
     rows := [ [VInt 99; VInt 1]; [VInt 10; VInt 2] ] |}.

Definition account_bars : list (string * JSON) :=
  [("chart_type", JStr "bar"); ("x_axis", JStr "ID_Conta"); ("color", JStr "ID_Conta")].

(** A bar chart of the client names without aggregation. *)
Definition names_plan : JSON :=
  JObj [("chart_type", JStr "bar"); ("x_axis", JStr "Nome");
        ("data_transformation", JObj [("filters", JArr [])])].

(** A comparison on the row index. *)
Definition index_entry : list (string * JSON) :=
  [("column", JStr "index"); ("operator", JStr ">"); ("value", JNum 0)].

Definition one_turn : list Turn := [mkTurn (JStr "a") (JStr "ok")].

End Scenes.

(* ===================================================================== *)
(** * Properties of the loader                                             *)
(* ===================================================================== *)

Section MergeFacts.
Context `{Library}.


Lemma joined_rows_prefix test il ir r stored lr tr :
  tr ∈ joined_rows test il ir r stored lr -> lr `prefix_of` tr.
Proof.
  unfold joined_rows.
  destruct (matching test il ir r lr) as [|m ms] eqn:E.
  - intros Hin. apply list_elem_of_singleton in Hin. subst. by eexists.
  - intros Hin. apply list_elem_of_fmap in Hin as (rr & -> & _). by eexists.
Qed.

Lemma filter_nodup_key (test : Value -> bool) (ir : nat) (k : Value)
    (rs : list (list Value)) :
  (forall rr, In rr rs -> test (cell ir rr) = bool_decide (k = cell ir rr)) ->
  NoDup (map (cell ir) rs) ->
  (List.length (List.filter (fun rr => test (cell ir rr)) rs) <= 1)%nat.
Proof.
  induction rs as [|rr rs IH]; simpl; [lia|].
  intros Htest Hnd. apply NoDup_cons in Hnd as [Hnotin Hnd].
  assert (forall rr0, In rr0 rs -> test (cell ir rr0) = bool_decide (k = cell ir rr0))
    as Hrest by (intros rr0 Hin; apply Htest; by right).
  rewrite (Htest rr) by (by left).
  case_bool_decide as Hk; [|by apply IH].
  simpl.
  assert (List.filter (fun rr0 => test (cell ir rr0)) rs = []) as ->; [|simpl; lia].
  clear IH Hnd Htest. induction rs as [|rr' rs IH]; simpl; [done|].
  rewrite (Hrest rr') by (by left).
  case_bool_decide as Hk'.
  - exfalso. apply Hnotin. simpl. rewrite <- Hk, Hk'. apply list_elem_of_here.
  - apply IH.
    + intros Hin. apply Hnotin. simpl. by apply list_elem_of_further.
    + intros rr0 Hin. apply Hrest. by right.
Qed.

Lemma joined_rows_unique test il ir r stored lr :
  (forall rr, In rr (rows r) ->
     test (cell il lr) (cell ir rr) = bool_decide (cell il lr = cell ir rr)) ->
  NoDup (map (cell ir) (rows r)) ->
  List.length (joined_rows test il ir r stored lr) = 1%nat.
Proof.
  intros Htest Hnd. unfold joined_rows, matching.
  pose proof (filter_nodup_key (test (cell il lr)) ir (cell il lr) (rows r) Htest Hnd)
    as Hle.
  destruct (List.filter _ (rows r)) as [|m ms]; [done|].
  simpl in *. destruct ms; simpl in *; [done|lia].
Qed.




(** What [merge_left] returns, laid out. *)
Lemma merge_left_Some l r key sfx out :
  merge_left l r key sfx = Some out ->
  exists il ir test stored,
    col_index l key = Some il /\ col_index r key = Some ir
    /\ merge_keys (map (cell il) (rows l)) (map (cell ir) (rows r)) = Some test
    /\ (forall rr, List.length (stored rr) = List.length rr)
    /\ columns out = suffixed (columns l) (columns r) key (fst sfx)
                     ++ drop_nth ir (suffixed (columns r) (columns l) key (snd sfx))
    /\ rows out = flat_map (joined_rows test il ir r stored) (rows l).
Proof.
  unfold merge_left. intros Hm.
  destruct (col_index l key) as [il|]; [|done].
  destruct (col_index r key) as [ir|]; [|done].
  cbn [mbind option_bind] in Hm.
  destruct (merge_keys _ _) as [test|] eqn:Et; [|done].
  cbn [mbind option_bind] in Hm.
  match type of Hm with
  | context [joined_rows _ _ _ _ ?st] => set (stored := st) in Hm
  end.
  injection Hm as <-. exists il, ir, test, stored.
  repeat (split; [done|]). split; [|done].
  intros rr. subst stored. destruct (existsb _ (rows l)); [|done].
  unfold promote. by rewrite length_imap.
Qed.


Lemma float64_small (z : Z) : Z.abs z <= 2 ^ 53 -> float64 z = z.
Proof.
  intros Hz. unfold float64.
  destruct (Z.eq_dec (Z.abs z) (2 ^ 53)) as [Heq|Hne].
  - destruct (Z.abs_eq_or_opp z) as [E|E]; rewrite E in Heq.
    + subst z. reflexivity.
    + assert (z = - 2 ^ 53) as -> by lia. reflexivity.
  - destruct (Z.eq_dec (Z.abs z) 0) as [H0|H0].
    + rewrite H0. reflexivity.
    + assert (Z.log2 (Z.abs z) < 53) as Hlog
        by (apply Z.log2_lt_pow2; lia).
      destruct (Z.leb_spec (Z.log2 (Z.abs z) - 52) 0); [done|lia].
Qed.

Lemma as_float64_integer_key (v : Value) : integer_key v -> as_float64 v = v.
Proof. destruct v as [| |z| |]; simpl; try done. intros Hz. by rewrite float64_small. Qed.

Lemma integer_key_int64 (v : Value) : integer_key v -> is_null v = false -> is_int64 v = true.
Proof.
  destruct v as [| |z| |]; simpl; try done. intros Hz _.
  apply andb_true_iff. split; [apply Z.leb_le|apply Z.ltb_lt]; lia.
Qed.

(** A column of integer keys is int64, float64 or without any value. *)
Lemma dtype_integer_keys (series : list Value) :
  Forall integer_key series ->
  dtype series = DInt \/ dtype series = DFloat \/ dtype series = DVoid.
Proof.
  intros Hall. unfold dtype.
  assert (forallb is_int64 (List.filter (fun v => negb (is_null v)) series) = true) as Hint.
  { apply forallb_forall. intros v Hv. apply filter_In in Hv as [Hv Hn].
    apply integer_key_int64; [|by destruct (is_null v)].
    rewrite Forall_forall in Hall. by apply Hall, list_elem_of_In. }
  destruct (List.filter _ series) as [|v live]; [tauto|].
  rewrite Hint. destruct (_ =? _)%nat; tauto.
Qed.

(** On integer keys every key test of [merge] is equality. *)
Lemma merge_keys_integer (left right : list Value) (test : Value -> Value -> bool) :
  Forall integer_key left -> Forall integer_key right ->
  merge_keys left right = Some test ->
  forall a b, integer_key a -> integer_key b -> test a b = bool_decide (a = b).
Proof.
  intros Hl Hr Hm a b Ha Hb. revert Hm. unfold merge_keys.
  assert (bool_decide (as_float64 a = as_float64 b) = bool_decide (a = b)) as Hf
    by (by rewrite !as_float64_integer_key).
  destruct (dtype_integer_keys left Hl) as [El | [El | El]],
           (dtype_integer_keys right Hr) as [Er | [Er | Er]];
    rewrite El; cbv beta iota; try rewrite Er; cbv beta iota;
    try (intros [= <-]; done);
    destruct (merge_void_raises left right); try done; by intros [= <-].
Qed.




End MergeFacts.

Section CoerceFacts.
Context `{Library}.




End CoerceFacts.

Lemma index_of_rename (old new k : string) (cs : list string) :
  k <> old -> k <> new ->
  index_of k (map (fun c => if (c =? old)%string then new else c) cs) = index_of k cs.
Proof.
  intros Hold Hnew. induction cs as [|c cs IH]; simpl; [done|].
  rewrite IH.
  destruct (String.eqb_spec c old) as [->|Hc].
  - destruct (String.eqb_spec k new); [done|].
    destruct (String.eqb_spec k old); done.
  - done.
Qed.

Section LoaderClaims.
Context `{Library}.


End LoaderClaims.

(* ===================================================================== *)
(** * The order of cells                                                   *)
(* ===================================================================== *)

Section Order.

Lemma ascii_compare_N (a b : ascii) :
  (a ?= b)%char = (N_of_ascii a ?= N_of_ascii b)%N.
Proof. reflexivity. Qed.

Lemma string_leb_cons (a b : ascii) (s t : string) :
  (String a s <=? String b t)%string = true <->
  (N_of_ascii a < N_of_ascii b)%N \/ (a = b /\ (s <=? t)%string = true).
Proof.
  unfold String.leb. simpl. rewrite ascii_compare_N.
  destruct (N.compare_spec (N_of_ascii a) (N_of_ascii b)) as [E|L|G].
  - assert (a = b) as -> by (rewrite <- (ascii_N_embedding a), <- (ascii_N_embedding b); by f_equal).
    split; [by right|]. intros [Hlt|[_ Hle]]; [lia|done].
  - split; [by left|done].
  - split; [done|]. intros [Hlt|[-> _]]; lia.
Qed.

Lemma string_leb_trans (s t u : string) :
  (s <=? t)%string = true -> (t <=? u)%string = true -> (s <=? u)%string = true.
Proof.
  revert t u. induction s as [|a s IH]; intros t u Hst Htu.
  - by destruct u.
  - destruct t as [|b t]; [done|]. destruct u as [|c u]; [done|].
    apply string_leb_cons in Hst, Htu. apply string_leb_cons.
    destruct Hst as [Hab|[-> Hst]], Htu as [Hbc|[-> Htu]].
    + left. lia.
    + by left.
    + by left.
    + right. split; [done|]. by apply (IH t).
Qed.

Lemma ts_leb_trans (a b c : Timestamp) :
  ts_leb a b = true -> ts_leb b c = true -> ts_leb a c = true.
Proof.
  unfold ts_leb.
  rewrite !orb_true_iff, !andb_true_iff, !orb_true_iff, !andb_true_iff,
          !orb_true_iff, !andb_true_iff, !Z.ltb_lt, !Z.eqb_eq, !Z.leb_le.
  lia.
Qed.

Lemma ts_leb_total (a b : Timestamp) : ts_leb a b = true \/ ts_leb b a = true.
Proof.
  unfold ts_leb.
  rewrite !orb_true_iff, !andb_true_iff, !orb_true_iff, !andb_true_iff,
          !orb_true_iff, !andb_true_iff, !Z.ltb_lt, !Z.eqb_eq, !Z.leb_le.
  lia.
Qed.

Lemma value_leb_trans (a b c : Value) :
  value_leb a b = true -> value_leb b c = true -> value_leb a c = true.
Proof.
  destruct a as [|[]| | |], b as [|[]| | |], c as [|[]| | |]; simpl;
    try done; try (rewrite ?Z.leb_le; lia).
  - apply string_leb_trans.
  - apply ts_leb_trans.
Qed.

Lemma value_leb_total (a b : Value) : value_leb a b = true \/ value_leb b a = true.
Proof.
  destruct a as [|[]| | |], b as [|[]| | |]; simpl;
    try (by left); try (by right); try (rewrite ?Z.leb_le; lia).
  - apply String.leb_total.
  - apply ts_leb_total.
Qed.

#[global] Instance row_le_trans i : Transitive (row_le i).
Proof. intros r1 r2 r3. unfold row_le. apply value_leb_trans. Qed.

#[global] Instance row_le_total i : Total (row_le i).
Proof. intros r1 r2. unfold row_le. apply value_leb_total. Qed.

Lemma StronglySorted_list_filter {A} (R : relation A) (p : A -> bool) (l : list A) :
  StronglySorted R l -> StronglySorted R (List.filter p l).
Proof.
  induction 1 as [|x l Hs IH Hall]; simpl; [constructor|].
  destruct (p x); [|done].
  constructor; [done|].
  apply Forall_forall. intros y Hy. apply list_elem_of_In, filter_In in Hy as [Hy _].
  rewrite Forall_forall in Hall. by apply Hall, list_elem_of_In.
Qed.

(** [sort_values] leaves the rows in ascending order of the column. *)
Lemma sort_values_sorted df c out i :
  sort_values df c = Some out -> col_index df c = Some i ->
  columns out = columns df /\ StronglySorted (row_le i) (rows out)
  /\ rows out ≡ₚ rows df.
Proof.
  unfold sort_values. intros Hs Hi. rewrite Hi in Hs. simpl in Hs.
  destruct (sortable _); [|done]. injection Hs as <-. simpl.
  split; [done|]. split.
  - apply StronglySorted_merge_sort; apply _.
  - apply merge_sort_Permutation.
Qed.

End Order.

(* ===================================================================== *)
(** * Year-month labels sort like months                                   *)
(* ===================================================================== *)

Section Period.

Lemma string_compare_app (s1 s2 t1 t2 : string) :
  String.length s1 = String.length s2 ->
  (String.append s1 t1 ?= String.append s2 t2)%string
  = match (s1 ?= s2)%string with Eq => (t1 ?= t2)%string | c => c end.
Proof.
  revert s2. induction s1 as [|a s1 IH]; intros [|b s2]; simpl; try done.
  intros [= Hl]. destruct (a ?= b)%char; [by apply IH|done|done].
Qed.

Lemma string_length_append (s t : string) :
  String.length (String.append s t) = (String.length s + String.length t)%nat.
Proof. induction s as [|a s IH]; simpl; [done|]. by rewrite IH. Qed.

Lemma decimal_length (w : nat) (n : Z) : String.length (decimal w n) = w.
Proof.
  revert n. induction w as [|w IH]; intros n; simpl; [done|].
  rewrite string_length_append, IH. simpl. lia.
Qed.

Lemma digit_char_compare (x y : Z) :
  (digit_char x ?= digit_char y)%char = (x mod 10 ?= y mod 10).
Proof.
  unfold digit_char.
  pose proof (Z.mod_pos_bound x 10 eq_refl) as Hx.
  pose proof (Z.mod_pos_bound y 10 eq_refl) as Hy.
  assert (forall d, 0 <= d < 10 ->
            d = 0 \/ d = 1 \/ d = 2 \/ d = 3 \/ d = 4 \/ d = 5 \/ d = 6 \/ d = 7
            \/ d = 8 \/ d = 9) as Hcases by (intros; lia).
  destruct (Hcases _ Hx) as [->|[->|[->|[->|[->|[->|[->|[->|[->| ->]]]]]]]]];
  destruct (Hcases _ Hy) as [->|[->|[->|[->|[->|[->|[->|[->|[->| ->]]]]]]]]];
  reflexivity.
Qed.

Lemma compare_by_digits (x y : Z) :
  match x / 10 ?= y / 10 with Eq => x mod 10 ?= y mod 10 | c => c end = (x ?= y).
Proof.
  pose proof (Z.div_mod x 10 ltac:(done)) as Hx.
  pose proof (Z.div_mod y 10 ltac:(done)) as Hy.
  pose proof (Z.mod_pos_bound x 10 eq_refl) as Bx.
  pose proof (Z.mod_pos_bound y 10 eq_refl) as By.
  destruct (Z.compare_spec (x / 10) (y / 10));
    destruct (Z.compare_spec (x mod 10) (y mod 10));
    destruct (Z.compare_spec x y); try done; lia.
Qed.

(** Numbers printed with the same number of digits compare as numbers. *)
Lemma decimal_compare (w : nat) (x y : Z) :
  0 <= x < 10 ^ Z.of_nat w -> 0 <= y < 10 ^ Z.of_nat w ->
  (decimal w x ?= decimal w y)%string = (x ?= y).
Proof.
  revert x y. induction w as [|w IH]; intros x y Hx Hy.
  - simpl in *. assert (x = 0) as -> by lia. assert (y = 0) as -> by lia. done.
  - cbn [decimal].
    rewrite string_compare_app by (by rewrite !decimal_length).
    rewrite Nat2Z.inj_succ, Z.pow_succ_r in Hx, Hy by lia.
    rewrite IH.
    + cbn [String.compare]. rewrite digit_char_compare.
      rewrite <- (compare_by_digits x y).
      destruct (x / 10 ?= y / 10); [|done|done].
      by destruct (x mod 10 ?= y mod 10).
    + split; [apply Z.div_pos; lia|apply Z.div_lt_upper_bound; lia].
    + split; [apply Z.div_pos; lia|apply Z.div_lt_upper_bound; lia].
Qed.

(** The labels of two months are in string order exactly when the months
    are in calendar order. *)
Lemma period_str_month_le (a b : Timestamp) :
  calendar a -> calendar b ->
  value_le (period_str (VDate a)) (period_str (VDate b)) <-> month_le a b.
Proof.
  intros [Hya Hma] [Hyb Hmb]. unfold value_le, month_le. cbn [period_str value_leb].
  unfold String.leb.
  rewrite string_compare_app by (by rewrite !decimal_length).
  rewrite (decimal_compare 4) by (simpl; lia).
  destruct (Z.compare_spec (ts_year a) (ts_year b)) as [E|L|G].
  - rewrite (string_compare_app "-" "-") by reflexivity.
    change ("-" ?= "-")%string with Eq. cbv iota.
    rewrite (decimal_compare 2) by (simpl; lia).
    destruct (Z.compare_spec (ts_month a) (ts_month b)) as [Em|Lm|Gm].
    + split; [intros _; right; lia|done].
    + split; [intros _; right; lia|done].
    + split; [done|]. intros [Hlt|[_ Hle]]; lia.
  - split; [by left|done].
  - split; [done|]. intros [Hlt|[Heq _]]; lia.
Qed.

End Period.

(* ===================================================================== *)
(** * Properties of the interpreter                                        *)
(* ===================================================================== *)

Section ListFacts.

Lemma py_eqb_str (x : string) (j : JSON) : py_eqb (JStr x) j = true -> j = JStr x.
Proof.
  destruct j; simpl; try done.
  intros E. apply String.eqb_eq in E. by subst.
Qed.

Lemma str_in_In (c : string) (cs : list string) : str_in c cs = true <-> In c cs.
Proof.
  unfold str_in. rewrite existsb_exists. split.
  - intros (x & Hx & E). apply String.eqb_eq in E. by subst.
  - intros Hin. exists c. split; [done|]. apply String.eqb_refl.
Qed.

Lemma index_of_In (c : string) (cs : list string) :
  In c cs -> exists i, index_of c cs = Some i.
Proof.
  induction cs as [|c' cs IH]; simpl; [done|].
  intros Hin. destruct (String.eqb_spec c c') as [->|Hne]; [by eexists|].
  destruct Hin as [->|Hin]; [done|].
  destruct (IH Hin) as [i ->]. by eexists.
Qed.

Lemma index_of_Some_In (c : string) (cs : list string) (i : nat) :
  index_of c cs = Some i -> In c cs.
Proof.
  revert i. induction cs as [|c' cs IH]; intros i; simpl; [done|].
  destruct (String.eqb_spec c c') as [->|Hne]; [by left|].
  destruct (index_of c cs) as [j|]; simpl; [|done].
  intros _. right. by apply (IH j).
Qed.

Lemma nub_In {A} `{EqDecision A} (x : A) (l : list A) : In x (nub l) <-> In x l.
Proof.
  induction l as [|y l IH]; simpl; [done|].
  rewrite filter_In, IH. split.
  - intros [->|[Hin _]]; auto.
  - intros [->|Hin]; [by left|].
    destruct (decide (x = y)) as [->|Hne]; [by left|].
    right. split; [done|]. by rewrite bool_decide_eq_false_2.
Qed.

End ListFacts.

Section StageFacts.
Context `{Library}.

Lemma set_column_has df c vals : In c (columns (set_column df c vals)).
Proof.
  unfold set_column. destruct (col_index df c) as [i|] eqn:E; simpl.
  - by apply (index_of_Some_In _ _ i).
  - apply in_or_app. right. by left.
Qed.

Lemma groupby_agg_columns df keys col func out :
  groupby_agg df keys col func = Some out -> columns out = keys ++ [col].
Proof.
  unfold groupby_agg. intros Hg.
  destruct (mapM (col_index df) keys) as [ks|]; [|done]. simpl in Hg.
  destruct (col_index df col) as [ia|]; [|done]. simpl in Hg.
  destruct (str_in col keys); [done|].
  destruct (mapM _ _) as [rows'|]; [|done]. simpl in Hg.
  by injection Hg as <-.
Qed.

Lemma mapM_as_str_In (l : list JSON) (keys : list string) (s : string) :
  mapM as_str l = Some keys -> py_in (JStr s) l = true -> In s keys.
Proof.
  intros Hm Hin. apply mapM_Some_1 in Hm.
  unfold py_in in Hin. apply existsb_exists in Hin as (j & Hj & E).
  apply py_eqb_str in E. subst j.
  induction Hm as [|j k l keys Hjk Hm IH]; [done|].
  destruct Hj as [->|Hj].
  - simpl in Hjk. injection Hjk as <-. by left.
  - right. by apply IH.
Qed.

(** When ["Ano-Mês"] is a grouping column, the table that leaves step 2
    has a column of that name. *)
Lemma aggregate_stage_ano_mes plan transformation group_by df df_agg agg_col :
  dict_get_default transformation "group_by" (JArr []) = JArr group_by ->
  py_in (JStr "Ano-Mês") group_by = true ->
  aggregate_stage plan transformation df = Some (df_agg, agg_col) ->
  str_in "Ano-Mês" (columns df_agg) = true.
Proof.
  intros Hg Hin. unfold aggregate_stage. rewrite Hg.
  destruct (resolve_aggregation _) as [[col func]|]; [|done].
  set (cols := if truthy (dict_get plan "color") && negb (py_in (dict_get plan "color") group_by)
               then group_by ++ [dict_get plan "color"] else group_by).
  assert (py_in (JStr "Ano-Mês") cols = true) as Hin'.
  { subst cols. destruct (_ && _); [|done].
    unfold py_in in *. rewrite existsb_app, Hin. done. }
  rewrite Hin'. unfold add_ano_mes.
  destruct (truthy (JArr cols) && truthy col && truthy func);
    (destruct (get_column df "Data_Movimento_mov") as [series|]; simpl; [|done]);
    (destruct (is_datetime64_any_dtype series); simpl; [|done]).
  - destruct (mapM as_str cols) as [keys|] eqn:Ek; simpl; [|done].
    destruct (as_str col) as [c|]; simpl; [|done].
    destruct (groupby_agg _ _ _ _) as [out|] eqn:Eo; simpl; [|done].
    intros [= <- <-]. apply groupby_agg_columns in Eo. rewrite Eo.
    apply str_in_In, in_or_app. left. apply nub_In.
    by apply (mapM_as_str_In cols).
  - intros [= <- <-]. apply str_in_In, set_column_has.
Qed.

Lemma sorted_column i rs :
  StronglySorted (row_le i) rs -> StronglySorted value_le (map (cell i) rs).
Proof. apply StronglySorted_fmap. by intros r1 r2. Qed.

(** Every trace of a bar chart drawn from a sorted table is sorted. *)
Lemma px_bar_sorted df x y color i :
  col_index df x = Some i -> StronglySorted (row_le i) (rows df) ->
  Forall sorted_trace (px_bar df x y color).
Proof.
  intros Hi Hs. unfold px_bar.
  assert (Forall sorted_trace
            [ {| trace_name := None;
                 trace_x := get_column {| columns := columns df; rows := rows df |} x;
                 trace_y := match y with
                            | Some c =>
                                get_column {| columns := columns df; rows := rows df |} c
                            | None =>
                                Some (missing_y df x
                                        {| columns := columns df; rows := rows df |})
                            end |} ]) as Hone.
  { constructor; [|constructor].
    eexists. simpl. unfold get_column, col_index in *. simpl. rewrite Hi. simpl.
    split; [done|]. by apply sorted_column. }
  destruct (color ≫= col_index df) as [ic|]; [|exact Hone].
  destruct (continuous _); [exact Hone|].
  apply Forall_forall. intros t Ht.
  apply list_elem_of_fmap in Ht as (name & -> & _).
  eexists. simpl. unfold get_column, col_index in *. simpl. rewrite Hi. simpl.
  split; [done|]. by apply sorted_column, StronglySorted_list_filter.
Qed.

(** Step 3 on a bar plan over a table with an ["Ano-Mês"] column. *)
Lemma build_chart_bar_ano_mes plan agg_col df_agg fig :
  py_eqb (dict_get plan "chart_type") (JStr "bar") = true ->
  str_in "Ano-Mês" (columns df_agg) = true ->
  build_chart plan agg_col df_agg = Some fig ->
  fig_kind fig = Bar /\ fig_x fig = Some "Ano-Mês"
  /\ Forall sorted_trace (fig_traces fig)
  /\ (fig_color fig = None -> List.length (fig_traces fig) = 1%nat)
  /\ drawn_from_sorted fig "Ano-Mês".
Proof.
  intros Hbar Hcol. unfold build_chart. rewrite Hbar, Hcol. simpl.
  destruct (sort_values df_agg "Ano-Mês") as [sorted|] eqn:Es; simpl; [|done].
  destruct (px_arg sorted agg_col) as [y|]; simpl; [|done].
  destruct (px_arg sorted (dict_get plan "color")) as [color|]; simpl; [|done].
  intros [= <-]. simpl.
  apply str_in_In, index_of_In in Hcol as [i Hi].
  destruct (sort_values_sorted _ _ _ i Es Hi) as (Hc & Hs & _).
  assert (col_index sorted "Ano-Mês" = Some i) as Hi'
    by (unfold col_index; by rewrite Hc).
  split; [done|]. split; [done|]. split; [|split].
  - by apply (px_bar_sorted _ _ _ _ i).
  - intros ->. done.
  - exists sorted, i. done.
Qed.

(** C2.  A bar plan grouped by ["Ano-Mês"] is drawn with ["Ano-Mês"] on
    the x axis, whatever its [x_axis] field says; its traces are drawn
    from a table whose rows are in ascending order of that column, so the
    x values of every trace are ascending (one trace when there is no
    colour column); for year-month labels ascending order is calendar
    order. *)
Theorem bar_ano_mes_sorted (plan transformation : list (string * JSON))
    (group_by : list JSON) (df : DataFrame) (fig : Figure) :
  dict_get plan "data_transformation" = JObj transformation ->
  dict_get_default transformation "group_by" (JArr []) = JArr group_by ->
  py_in (JStr "Ano-Mês") group_by = true ->
  py_eqb (dict_get plan "chart_type") (JStr "bar") = true ->
  gerar_grafico_plotly (JObj plan) df = Some fig ->
  fig_kind fig = Bar /\ fig_x fig = Some "Ano-Mês"
  /\ Forall sorted_trace (fig_traces fig)
  /\ (fig_color fig = None -> List.length (fig_traces fig) = 1%nat)
  /\ drawn_from_sorted fig "Ano-Mês"
  /\ (forall a b, calendar a -> calendar b ->
        (value_le (period_str (VDate a)) (period_str (VDate b)) <-> month_le a b)).
Proof.
  intros Ht Hg Hin Hbar Hfig.
  assert (fig_kind fig = Bar /\ fig_x fig = Some "Ano-Mês"
          /\ Forall sorted_trace (fig_traces fig)
          /\ (fig_color fig = None -> List.length (fig_traces fig) = 1%nat)
          /\ drawn_from_sorted fig "Ano-Mês")
    as (Hk & Hx & Hs & Hone & Hdata).
  { revert Hfig. unfold gerar_grafico_plotly. rewrite Ht.
    destruct transformation as [|kv rest]; [done|].
    destruct (filter_stage _ df) as [df1|]; simpl; [|done].
    destruct (empty df1); [done|].
    destruct (aggregate_stage _ _ df1) as [[df_agg agg_col]|] eqn:Ea; [|done].
    destruct (empty df_agg); [done|].
    apply build_chart_bar_ano_mes; [done|].
    by apply (aggregate_stage_ano_mes plan (kv :: rest) group_by df1 df_agg agg_col). }
  repeat (split; [done|]). apply period_str_month_le.
Qed.

End StageFacts.

Section Aggregation.
Context `{Library}.

Lemma build_chart_fields (t : JSON) (fields : list (string * JSON)) agg_col df_agg :
  build_chart (("data_transformation", t) :: fields) agg_col df_agg
  = build_chart fields agg_col df_agg.
Proof. reflexivity. Qed.

Lemma aggregate_stage_resolve a1 a2 (t0 : JSON) transformation fields df :
  resolve_aggregation a1 = resolve_aggregation a2 ->
  aggregate_stage (("data_transformation", t0) :: fields)
                  (("aggregation", a1) :: transformation) df
  = aggregate_stage (("data_transformation", JObj (("aggregation", a2) :: transformation)) :: fields)
                    (("aggregation", a2) :: transformation) df.
Proof.
  intros Hr. unfold aggregate_stage.
  change (dict_get_default (("aggregation", a1) :: transformation) "group_by" (JArr []))
    with (dict_get_default transformation "group_by" (JArr [])).
  change (dict_get_default (("aggregation", a2) :: transformation) "group_by" (JArr []))
    with (dict_get_default transformation "group_by" (JArr [])).
  change (dict_get_default (("aggregation", a1) :: transformation) "aggregation" (JObj []))
    with a1.
  change (dict_get_default (("aggregation", a2) :: transformation) "aggregation" (JObj []))
    with a2.
  rewrite Hr. reflexivity.
Qed.

(** The interpreter reads the descriptor through [resolve_aggregation]
    only. *)
Lemma gerar_grafico_plotly_aggregation a1 a2 transformation fields df :
  resolve_aggregation a1 = resolve_aggregation a2 ->
  gerar_grafico_plotly (plan_with_aggregation a1 transformation fields) df
  = gerar_grafico_plotly (plan_with_aggregation a2 transformation fields) df.
Proof.
  intros Hr. unfold plan_with_aggregation, gerar_grafico_plotly.
  change (dict_get (("data_transformation", JObj (("aggregation", a1) :: transformation)) :: fields)
            "data_transformation")
    with (JObj (("aggregation", a1) :: transformation)).
  change (dict_get (("data_transformation", JObj (("aggregation", a2) :: transformation)) :: fields)
            "data_transformation")
    with (JObj (("aggregation", a2) :: transformation)).
  cbv iota beta.
  change (filter_stage (("aggregation", a1) :: transformation) df)
    with (filter_stage transformation df).
  change (filter_stage (("aggregation", a2) :: transformation) df)
    with (filter_stage transformation df).
  destruct (filter_stage transformation df) as [df1|]; cbn [mbind option_bind]; [|done].
  destruct (empty df1); [done|].
  rewrite (aggregate_stage_resolve a1 a2 _ transformation fields df1 Hr).
  destruct (aggregate_stage _ _ df1) as [[df_agg agg_col]|]; [|done].
  destruct (empty df_agg); [done|].
  by rewrite !build_chart_fields.
Qed.

Lemma resolve_aggregation_explicit (d : list (string * JSON)) (column function : JSON) :
  assoc "column" d = Some column -> assoc "function" d = Some function ->
  resolve_aggregation (JObj d) = Some (column, function).
Proof.
  intros Hc Hf.
  destruct d as [|[k1 v1] [|kv2 rest]]; [done| |].
  - cbn [assoc] in Hc, Hf.
    destruct (String.eqb_spec "column" k1) as [<-|]; [|done].
    done.
  - unfold resolve_aggregation, dict_get. by rewrite Hc, Hf.
Qed.

(** C3.  A single-entry mapping [{column: function}] and an object with
    the keys ['column'] and ['function'] that carries the same column and
    function resolve to the same (column, function) pair, and the
    interpreter returns the same result for two plans that differ in the
    shape of the descriptor only. *)
Theorem aggregation_shapes_agree (column : string) (function : JSON)
    (explicit : list (string * JSON))
    (transformation fields : list (string * JSON)) (df : DataFrame) :
  assoc "column" explicit = Some (JStr column) ->
  assoc "function" explicit = Some function ->
  resolve_aggregation (JObj [(column, function)]) = Some (JStr column, function)
  /\ resolve_aggregation (JObj explicit) = Some (JStr column, function)
  /\ gerar_grafico_plotly
       (plan_with_aggregation (JObj [(column, function)]) transformation fields) df
     = gerar_grafico_plotly
         (plan_with_aggregation (JObj explicit) transformation fields) df.
Proof.
  intros Hc Hf.
  pose proof (resolve_aggregation_explicit explicit _ _ Hc Hf) as He.
  split; [done|]. split; [done|].
  apply gerar_grafico_plotly_aggregation. by rewrite He.
Qed.

End Aggregation.

Section FilterFacts.
Context `{Library}.

Lemma filter_opt_ext {A} (test : A -> option bool) (p : A -> bool) (l kept : list A) :
  (forall x b, test x = Some b -> b = p x) ->
  filter_opt test l = Some kept -> kept = List.filter p l.
Proof.
  intros Hp. revert kept. induction l as [|x l IH]; intros kept; simpl.
  - by intros [= <-].
  - destruct (test x) as [b|] eqn:Ex; [|done].
    destruct (filter_opt test l) as [kept'|]; [|done].
    intros [= <-]. rewrite <- (Hp x b Ex), (IH kept' eq_refl). done.
Qed.


Lemma between_cell_inside left right v b :
  between_cell left right v = Some b -> b = inside left right v.
Proof.
  unfold between_cell, inside, cmp_bound.
  destruct v, left, right; simpl; try done; intros [= <-]; try done.
  by rewrite andb_false_r.
Qed.









End FilterFacts.

Section AliasFacts.
Context `{Library}.

Lemma apply_filters_app (pre post : list JSON) (df : DataFrame) :
  apply_filters (pre ++ post) df = apply_filters pre df ≫= apply_filters post.
Proof.
  revert df. induction pre as [|f pre IH]; intros df; simpl; [done|].
  destruct (apply_filter df f) as [df'|]; simpl; [apply IH|done].
Qed.

Lemma aggregate_stage_filters (t0 filters : JSON) transformation fields df :
  aggregate_stage (("data_transformation", t0) :: fields)
                  (("filters", filters) :: transformation) df
  = aggregate_stage fields transformation df.
Proof. reflexivity. Qed.

(** The interpreter reads the filter list through [apply_filters] only. *)
Lemma gerar_grafico_plotly_filters fs1 fs2 transformation fields df :
  apply_filters fs1 df = apply_filters fs2 df ->
  gerar_grafico_plotly (plan_with_filters fs1 transformation fields) df
  = gerar_grafico_plotly (plan_with_filters fs2 transformation fields) df.
Proof.
  intros Hf. unfold plan_with_filters, gerar_grafico_plotly.
  change (dict_get (("data_transformation", JObj (("filters", JArr fs1) :: transformation)) :: fields)
            "data_transformation")
    with (JObj (("filters", JArr fs1) :: transformation)).
  change (dict_get (("data_transformation", JObj (("filters", JArr fs2) :: transformation)) :: fields)
            "data_transformation")
    with (JObj (("filters", JArr fs2) :: transformation)).
  cbv iota beta.
  change (filter_stage (("filters", JArr fs1) :: transformation) df)
    with (apply_filters fs1 df).
  change (filter_stage (("filters", JArr fs2) :: transformation) df)
    with (apply_filters fs2 df).
  rewrite Hf.
  destruct (apply_filters fs2 df) as [df1|]; cbn [mbind option_bind]; [|done].
  destruct (empty df1); [done|].
  rewrite !aggregate_stage_filters.
  destruct (aggregate_stage fields transformation df1) as [[df_agg agg_col]|]; [|done].
  destruct (empty df_agg); [done|].
  by rewrite !build_chart_fields.
Qed.

Lemma filter_operator_alias (f1 f2 : list (string * JSON)) (op : JSON) :
  assoc "operator" f1 = Some op -> assoc "condition" f1 = None ->
  assoc "condition" f2 = Some op -> assoc "operator" f2 = None ->
  (truthy op = true -> filter_operator f1 = op /\ filter_operator f2 = op)
  /\ (truthy op = false ->
      truthy (filter_operator f1) = false /\ truthy (filter_operator f2) = false).
Proof.
  intros Ho1 Hc1 Hc2 Ho2. unfold filter_operator, dict_get, py_or.
  rewrite Ho1, Hc1, Hc2, Ho2. unfold default. cbn [from_option id truthy].
  split; intros Et; rewrite Et; done.
Qed.

(** The operator under either name gives the same pass of the loop. *)
Lemma apply_filter_alias (f1 f2 : list (string * JSON)) (op : JSON) (df : DataFrame) :
  assoc "operator" f1 = Some op -> assoc "condition" f1 = None ->
  assoc "condition" f2 = Some op -> assoc "operator" f2 = None ->
  (forall k, In k ["column"; "value"; "values"] -> assoc k f1 = assoc k f2) ->
  apply_filter df (JObj f1) = apply_filter df (JObj f2).
Proof.
  intros Ho1 Hc1 Hc2 Ho2 Hsame.
  assert (assoc "column" f1 = assoc "column" f2) as Hcol by (apply Hsame; simpl; auto).
  assert (filter_value f1 = filter_value f2) as Hval.
  { unfold filter_value, dict_get.
    rewrite (Hsame "value"), (Hsame "values"); simpl; auto. }
  destruct (filter_operator_alias f1 f2 op Ho1 Hc1 Hc2 Ho2) as [Htrue Hfalse].
  unfold apply_filter. rewrite Hcol, Hval.
  destruct (assoc "column" f2) as [column|]; cbn [mbind option_bind]; [|done].
  destruct (truthy op) eqn:Et.
  - destruct (Htrue eq_refl) as [-> ->]. reflexivity.
  - destruct (Hfalse eq_refl) as [-> ->]. reflexivity.
Qed.

(** An entry without operator is passed over. *)
Lemma apply_filter_no_operator (f : list (string * JSON)) (column : JSON) (df : DataFrame) :
  assoc "column" f = Some column ->
  assoc "operator" f = None -> assoc "condition" f = None ->
  apply_filter df (JObj f) = Some df.
Proof.
  intros Hc Ho Hn. unfold apply_filter, filter_operator, dict_get.
  rewrite Hc, Ho, Hn. reflexivity.
Qed.

(** C5.  A filter entry that names its operator ['operator'] and the same
    entry naming it ['condition'] give the same pass of the filter loop and
    the same result of the interpreter; an entry with a column and neither
    name is passed over: the table is unchanged, the other entries and the
    rest of the plan are processed as if the entry were not there. *)
Theorem operator_alias_and_skip (pre post : list JSON)
    (transformation fields : list (string * JSON)) (df : DataFrame) :
  (forall f1 f2 op,
      assoc "operator" f1 = Some op -> assoc "condition" f1 = None ->
      assoc "condition" f2 = Some op -> assoc "operator" f2 = None ->
      (forall k, In k ["column"; "value"; "values"] -> assoc k f1 = assoc k f2) ->
      (forall df0, apply_filter df0 (JObj f1) = apply_filter df0 (JObj f2))
      /\ gerar_grafico_plotly
           (plan_with_filters (pre ++ JObj f1 :: post) transformation fields) df
         = gerar_grafico_plotly
             (plan_with_filters (pre ++ JObj f2 :: post) transformation fields) df)
  /\ (forall f column,
      assoc "column" f = Some column ->
      assoc "operator" f = None -> assoc "condition" f = None ->
      (forall df0, apply_filter df0 (JObj f) = Some df0)
      /\ apply_filters (pre ++ JObj f :: post) df = apply_filters (pre ++ post) df
      /\ gerar_grafico_plotly
           (plan_with_filters (pre ++ JObj f :: post) transformation fields) df
         = gerar_grafico_plotly
             (plan_with_filters (pre ++ post) transformation fields) df).
Proof.
  split.
  - intros f1 f2 op Ho1 Hc1 Hc2 Ho2 Hsame.
    assert (forall df0, apply_filter df0 (JObj f1) = apply_filter df0 (JObj f2)) as Heq
      by (intros df0; by apply (apply_filter_alias f1 f2 op)).
    split; [done|].
    apply gerar_grafico_plotly_filters.
    rewrite !apply_filters_app.
    destruct (apply_filters pre df) as [df1|]; cbn [mbind option_bind apply_filters]; [|done].
    by rewrite Heq.
  - intros f column Hc Ho Hn.
    assert (forall df0, apply_filter df0 (JObj f) = Some df0) as Hskip
      by (intros df0; by apply (apply_filter_no_operator f column)).
    assert (apply_filters (pre ++ JObj f :: post) df = apply_filters (pre ++ post) df) as Hfs.
    { rewrite !apply_filters_app.
      destruct (apply_filters pre df) as [df1|]; cbn [mbind option_bind apply_filters]; [|done].
      by rewrite Hskip. }
    split; [done|]. split; [done|].
    by apply gerar_grafico_plotly_filters.
Qed.

End AliasFacts.

Section NoChart.
Context `{Library}.

Lemma empty_no_rows df : rows df = [] -> empty df = true.
Proof. unfold empty. intros ->. by destruct (columns df). Qed.

(** C6.  When the filters leave no row, and when the grouped and
    aggregated table has no row, the interpreter returns no figure. *)
Theorem empty_table_no_chart (plan transformation : list (string * JSON))
    (df : DataFrame) :
  dict_get plan "data_transformation" = JObj transformation ->
  (forall df1,
      filter_stage transformation df = Some df1 -> rows df1 = [] ->
      gerar_grafico_plotly (JObj plan) df = None)
  /\ (forall df1 df_agg agg_col,
      filter_stage transformation df = Some df1 ->
      aggregate_stage plan transformation df1 = Some (df_agg, agg_col) ->
      rows df_agg = [] ->
      gerar_grafico_plotly (JObj plan) df = None).
Proof.
  intros Ht. unfold gerar_grafico_plotly. rewrite Ht.
  destruct transformation as [|kv rest]; [done|].
  split.
  - intros df1 -> Hrows. cbn [mbind option_bind]. by rewrite (empty_no_rows df1 Hrows).
  - intros df1 df_agg agg_col -> Ha Hrows. cbn [mbind option_bind].
    destruct (empty df1); [done|].
    rewrite Ha. by rewrite (empty_no_rows df_agg Hrows).
Qed.

Lemma py_eqb_str_r (j : JSON) (x : string) : py_eqb j (JStr x) = true -> j = JStr x.
Proof.
  destruct j; simpl; try done.
  intros E. apply String.eqb_eq in E. by subst.
Qed.

Lemma py_eqb_str_ne (j : JSON) (x : string) : j <> JStr x -> py_eqb j (JStr x) = false.
Proof.
  intros Hne. destruct (py_eqb j (JStr x)) eqn:E; [|done].
  by apply py_eqb_str_r in E.
Qed.

(** A chart type other than the three known ones draws nothing. *)
Lemma build_chart_unsupported plan agg_col df_agg :
  dict_get plan "chart_type" <> JStr "bar" ->
  dict_get plan "chart_type" <> JStr "pie" ->
  dict_get plan "chart_type" <> JStr "donut" ->
  build_chart plan agg_col df_agg = None.
Proof.
  intros Hb Hp Hd. unfold build_chart, py_in. cbn [existsb].
  by rewrite (py_eqb_str_ne _ _ Hb), (py_eqb_str_ne _ _ Hp), (py_eqb_str_ne _ _ Hd).
Qed.

Lemma render_charts_app (l1 l2 : list JSON) (df : DataFrame) :
  render_charts (l1 ++ l2) df = render_charts l1 df ++ render_charts l2 df.
Proof. unfold render_charts. apply omap_app. Qed.

(** C7.  A plan whose [chart_type] is none of ['bar'], ['pie'], ['donut']
    yields no figure (the interpreter is a total function: nothing is
    raised); in a batch, a plan without figure is left out and the figures
    of the other plans come out in the order of their plans, and this list
    is what a successful reply of [/ask] carries. *)
Theorem unsupported_chart_type_dropped (plan : list (string * JSON)) (df : DataFrame) :
  dict_get plan "chart_type" <> JStr "bar" ->
  dict_get plan "chart_type" <> JStr "pie" ->
  dict_get plan "chart_type" <> JStr "donut" ->
  gerar_grafico_plotly (JObj plan) df = None
  /\ (forall before after,
        render_charts (before ++ JObj plan :: after) df
        = render_charts before df ++ render_charts after df)
  /\ (forall before p after,
        gerar_grafico_plotly p df = None ->
        render_charts (before ++ p :: after) df
        = render_charts before df ++ render_charts after df)
  /\ (forall before p fig after,
        gerar_grafico_plotly p df = Some fig ->
        render_charts (before ++ p :: after) df
        = render_charts before df ++ fig :: render_charts after df)
  /\ (forall session data question text d chart_plans,
        py_get data "question" = Some question -> truthy question = true ->
        extrair_json text = Some (JObj d) -> d <> [] ->
        py_iter (dict_get_default d "chart_plans" (JArr [])) = Some chart_plans ->
        exists body,
          fst (ask_gemini (Some df) session data (Some text)) = Ok body
          /\ charts_json body = render_charts chart_plans df).
Proof.
  intros Hb Hp Hd.
  assert (gerar_grafico_plotly (JObj plan) df = None) as Hnone.
  { unfold gerar_grafico_plotly.
    destruct (dict_get plan "data_transformation") as [| | | | |[|kv rest]]; try done.
    destruct (filter_stage _ df) as [df1|]; cbn [mbind option_bind]; [|done].
    destruct (empty df1); [done|].
    destruct (aggregate_stage _ _ df1) as [[df_agg agg_col]|]; [|done].
    destruct (empty df_agg); [done|].
    by apply build_chart_unsupported. }
  assert (forall before p after,
        gerar_grafico_plotly p df = None ->
        render_charts (before ++ p :: after) df
        = render_charts before df ++ render_charts after df) as Hdrop.
  { intros before p after Hp0. rewrite render_charts_app. f_equal.
    unfold render_charts. cbn [omap list_omap]. by rewrite Hp0. }
  split; [done|]. split; [intros; by apply Hdrop|]. split; [done|]. split.
  - intros before p fig after Hfig. rewrite render_charts_app. f_equal.
    unfold render_charts. cbn [omap list_omap]. by rewrite Hfig.
  - intros session data question text d chart_plans Hq Htq Hj Hne Hplans.
    unfold ask_gemini. rewrite Hq, Htq, Hj. cbn [negb].
    destruct d as [|kv d]; [done|]. cbn [truthy negb].
    rewrite Hplans. eexists. split; reflexivity.
Qed.

End NoChart.

(* ===================================================================== *)
(** * Properties of the orchestrator                                       *)
(* ===================================================================== *)

Section RouteFacts.
Context `{Library}.

(** C8.  When the model's text has no ['{'] or no ['}'], or the span
    between them does not parse, [extrair_json] returns [None]; the handler
    then answers with the model-response error (status 500) and the turns
    stored in the session are the ones it had before the request. *)
Theorem malformed_response_keeps_history (df : DataFrame)
    (session : option (list Turn)) (data question : JSON) (text : string) :
  py_get data "question" = Some question -> truthy question = true ->
  (str_find "{" text = None
   \/ str_rfind "}" text = None
   \/ exists i j, str_find "{" text = Some i /\ str_rfind "}" text = Some j
                  /\ json_loads (str_slice i (S j) text) = None) ->
  extrair_json text = None
  /\ fst (ask_gemini (Some df) session data (Some text)) = Error 500 msg_model
  /\ default [] (snd (ask_gemini (Some df) session data (Some text)))
     = default [] session
  /\ (forall history, session = Some history ->
        snd (ask_gemini (Some df) session data (Some text)) = session).
Proof.
  intros Hq Ht Hbad.
  assert (extrair_json text = None) as Hnone.
  { unfold extrair_json.
    destruct Hbad as [-> | [Hr | (i & j & -> & -> & Hl)]]; [done| |done].
    rewrite Hr. by destruct (str_find "{" text). }
  split; [done|].
  unfold ask_gemini. rewrite Hq, Ht, Hnone. cbn [negb fst snd].
  split; [done|]. split; [done|].
  by intros history ->.
Qed.

Lemma update_history_last_n (history : list Turn) (turn : Turn) :
  (List.length history <= 3)%nat ->
  update_history history turn = last_n 3 (history ++ [turn]).
Proof.
  intros Hl. unfold update_history, last_n. rewrite length_app. simpl.
  destruct (Nat.ltb_spec 3 (List.length history + 1)) as [Hgt|Hle].
  - assert (List.length history = 3%nat) as Hlen by lia.
    rewrite Hlen. simpl. by destruct history.
  - replace (List.length history + 1 - 3)%nat with 0%nat by lia. done.
Qed.

Lemma last_n_length {A} (n : nat) (l : list A) : (List.length (last_n n l) <= n)%nat.
Proof. unfold last_n. rewrite length_drop. lia. Qed.

Lemma last_n_snoc_3 (l : list Turn) (x : Turn) :
  last_n 3 (last_n 3 l ++ [x]) = last_n 3 (l ++ [x]).
Proof.
  unfold last_n. rewrite !length_app, length_drop. simpl.
  destruct (Nat.le_gt_cases (List.length l) 2) as [Hs|Hb].
  - replace (List.length l - 3)%nat with 0%nat by lia.
    by rewrite drop_0, Nat.sub_0_r.
  - replace (List.length l - (List.length l - 3) + 1 - 3)%nat with 1%nat by lia.
    replace (List.length l + 1 - 3)%nat with (List.length l - 3 + 1)%nat by lia.
    rewrite (drop_app_le l); [|lia].
    rewrite drop_app_le; [|rewrite length_drop; lia].
    by rewrite drop_drop.
Qed.

(** The reply does not depend on the session. *)
Lemma handle_reply_session (s1 s2 : option (list Turn)) (r : Request) :
  fst (handle s1 r) = fst (handle s2 r).
Proof.
  unfold handle, ask_gemini.
  destruct (req_df r); [|done].
  destruct (py_get _ _) as [question|]; [|done].
  destruct (negb _); [done|].
  destruct (req_response r) as [text|]; [|done].
  destruct (extrair_json _) as [parsed|]; [|done].
  destruct (negb _); [done|].
  destruct parsed; try done.
  destruct (py_iter _); done.
Qed.

(** An answered request appends its turn. *)
Lemma handle_answered (s : option (list Turn)) (r : Request) :
  answered r ->
  snd (handle s r) = Some (update_history (default [] s) (turn_of r)).
Proof.
  intros [body Hb]. unfold turn_of. rewrite Hb. revert Hb.
  unfold handle, ask_gemini.
  destruct (req_df r); [|done].
  destruct (py_get _ _) as [question|]; [|done].
  destruct (negb (truthy question)); [done|].
  destruct (req_response r) as [text|]; [|done].
  destruct (extrair_json _) as [parsed|]; [|done].
  destruct (negb _); [done|].
  destruct parsed; try done.
  destruct (py_iter _); [|done].
  cbn [fst snd default from_option id]. by intros [= <-].
Qed.

Lemma run_answered (requests : list Request) (past : list Turn) (s : option (list Turn)) :
  Forall answered requests ->
  default [] s = last_n 3 past ->
  default [] (run requests s) = last_n 3 (past ++ map turn_of requests).
Proof.
  intros Hall. revert past s.
  induction Hall as [|r requests Hr _ IH]; intros past s Hs.
  - simpl. by rewrite app_nil_r.
  - unfold run. cbn [foldl]. fold (run requests (snd (handle s r))).
    rewrite (IH (past ++ [turn_of r])).
    + by rewrite <- app_assoc.
    + rewrite (handle_answered s r Hr). cbn [default from_option id].
      rewrite update_history_last_n, Hs; [apply last_n_snoc_3|].
      rewrite Hs. apply last_n_length.
Qed.

(** C9.  Each answered request appends its turn and drops the oldest one
    when there are more than three; starting from an empty history, after
    any number of answered requests the session holds the last three turns
    (all of them when there are at most three), in order. *)
Theorem history_keeps_last_three (requests : list Request) :
  Forall answered requests ->
  (forall s r, answered r ->
     snd (handle s r) = Some (update_history (default [] s) (turn_of r)))
  /\ default [] (run requests None) = last_n 3 (map turn_of requests)
  /\ run requests (Some []) = Some (last_n 3 (map turn_of requests))
  /\ ((3 < List.length requests)%nat ->
      List.length (default [] (run requests None)) = 3%nat
      /\ default [] (run requests None)
         = drop (List.length requests - 3) (map turn_of requests)).
Proof.
  intros Hall.
  pose proof (run_answered requests [] None Hall eq_refl) as Hnone.
  pose proof (run_answered requests [] (Some []) Hall eq_refl) as Hsome.
  simpl in Hnone, Hsome.
  split; [intros s r; apply handle_answered|].
  split; [done|]. split.
  - destruct requests as [|r requests]; [done|].
    rewrite <- Hsome. unfold run. cbn [foldl].
    apply Forall_cons in Hall as [Hr Hall].
    rewrite (handle_answered (Some []) r Hr).
    clear Hsome Hnone. generalize (update_history (default [] (Some [])) (turn_of r)).
    induction Hall as [|r' rs Hr' _ IH]; intros h; [done|].
    cbn [foldl]. rewrite (handle_answered (Some h) r' Hr'). apply IH.
  - intros Hlen. rewrite Hnone. unfold last_n. rewrite length_drop, !length_map.
    split; [lia|done].
Qed.

End RouteFacts.

Section FalsyValue.
Context `{Library}.

Lemma compare_null_keeps_nothing (op : CmpOp) (rs kept : list (list Value)) (i : nat) :
  op <> OpNe ->
  filter_opt (fun r => compare_cell op (cell i r) VNull) rs = Some kept -> kept = [].
Proof.
  intros Hop Hk.
  assert (forall (r : list Value) b,
            compare_cell op (cell i r) VNull = Some b -> b = false) as Hfalse.
  { intros r b. unfold compare_cell. cbn [is_null]. rewrite orb_true_r.
    destruct op; try done; by intros [= <-]. }
  rewrite (filter_opt_ext _ (fun _ => false) _ _ Hfalse Hk).
  clear Hk. induction rs as [|r rs IH]; simpl; done.
Qed.

Lemma apply_filter_equals_zero (c : string) (df : DataFrame) :
  apply_filter df (equals_zero c)
  = prepare_column df c ≫= fun df' => query df' c "==" JNull.
Proof. reflexivity. Qed.

Lemma list_filter_const {A} (b : bool) (l : list A) :
  List.filter (fun _ => b) l = if b then l else [].
Proof.
  induction l as [|x l IH]; cbn [List.filter]; [by destruct b|].
  rewrite IH. by destruct b.
Qed.

(** A comparison with [None] holds for no row, [!=] for every row. *)
Lemma query_null (df out : DataFrame) (c operator : string) (op : CmpOp) :
  cmp_op operator = Some op ->
  query df c operator JNull = Some out ->
  columns out = columns df
  /\ rows out = match op with OpNe => rows df | _ => [] end.
Proof.
  intros Ho. unfold query. rewrite Ho. cbn [scalar is_null]. cbv zeta.
  destruct (plain_name c).
  - destruct (col_index df c) as [i|] eqn:Ei.
    + unfold filter_rows. rewrite Ei. cbn [mbind option_bind].
      destruct (filter_opt _ (rows df)) as [kept|] eqn:Ek; cbn [mbind option_bind]; [|done].
      intros [= <-]. cbn [columns rows]. split; [done|].
      assert (forall (r : list Value) b,
                compare_cell op (cell i r) VNull = Some b ->
                b = match op with OpNe => true | _ => false end) as Hnull.
      { intros r b. unfold compare_cell. cbn [is_null]. rewrite orb_true_r.
        by intros [= <-]. }
      rewrite (filter_opt_ext _ (fun _ => match op with OpNe => true | _ => false end)
                 _ _ Hnull Ek).
      rewrite list_filter_const. by destruct op.
    + destruct (str_in c ["index"; "ilevel_0"]).
      * intros [= <-]. done.
      * destruct (str_in c ["columns"; "clevel_0"]); [|done].
        destruct (rows df) as [|r rs] eqn:Er; [|done].
        intros [= <-]. rewrite Er. by destruct op.
  - destruct (query_name c operator JNull df) as [m|]; cbn [mbind option_bind]; [|done].
    intros [= <-]. done.
Qed.

Lemma equals_zero_no_rows (c : string) (df out : DataFrame) :
  apply_filter df (equals_zero c) = Some out -> rows out = [].
Proof.
  rewrite apply_filter_equals_zero.
  destruct (prepare_column df c) as [df'|]; cbn [mbind option_bind]; [|done].
  intros Hq. by destruct (query_null df' out c "==" OpEq eq_refl Hq) as [_ ->].
Qed.

(** C10.  A ['value'] that is [0], [false], the empty string or the empty
    list is not used: the comparison value is what ['values'] holds, and
    [null] when there is no ['values'].  So the entry
    [{column: c, operator: '==', value: 0}] compares the column with
    [null]: no row passes it (rows holding 0 included), and a plan whose
    last filter is this entry has no chart. *)
Theorem falsy_value_falls_back_to_values (f : list (string * JSON)) (v : JSON) :
  assoc "value" f = Some v ->
  In v [JNum 0; JBool false; JStr EmptyString; JArr []] ->
  filter_value f = dict_get f "values"
  /\ (assoc "values" f = None -> filter_value f = JNull /\ filter_value f <> v)
  /\ (forall c df,
        apply_filter df (equals_zero c)
        = prepare_column df c ≫= fun df' => query df' c "==" JNull)
  /\ (forall c df out, apply_filter df (equals_zero c) = Some out -> rows out = [])
  /\ (forall c pre transformation fields df,
        gerar_grafico_plotly
          (plan_with_filters (pre ++ [equals_zero c]) transformation fields) df = None).
Proof.
  intros Hv Hin.
  assert (truthy v = false) as Hf.
  { simpl in Hin. destruct Hin as [<-|[<-|[<-|[<-|[]]]]]; reflexivity. }
  assert (filter_value f = dict_get f "values") as Hval.
  { unfold filter_value, py_or, dict_get at 1 2. rewrite Hv. cbn [default from_option id].
    by rewrite Hf. }
  split; [done|]. split.
  { intros Hnone. rewrite Hval. unfold dict_get. rewrite Hnone. cbn [default from_option].
    split; [done|]. intros <-.
    simpl in Hin. destruct Hin as [E|[E|[E|[E|[]]]]]; discriminate E. }
  split; [intros; apply apply_filter_equals_zero|].
  split; [intros c df out; apply equals_zero_no_rows|].
  intros c pre transformation fields df.
  unfold plan_with_filters, gerar_grafico_plotly.
  change (dict_get (("data_transformation",
                     JObj (("filters", JArr (pre ++ [equals_zero c])) :: transformation))
                      :: fields) "data_transformation")
    with (JObj (("filters", JArr (pre ++ [equals_zero c])) :: transformation)).
  cbv iota beta.
  change (filter_stage (("filters", JArr (pre ++ [equals_zero c])) :: transformation) df)
    with (apply_filters (pre ++ [equals_zero c]) df).
  rewrite apply_filters_app.
  destruct (apply_filters pre df) as [df1|]; cbn [mbind option_bind apply_filters]; [|done].
  destruct (apply_filter df1 (equals_zero c)) as [out|] eqn:Eo;
    cbn [mbind option_bind]; [|done].
  by rewrite (empty_no_rows out (equals_zero_no_rows c df1 out Eo)).
Qed.

End FalsyValue.

(* ===================================================================== *)
(** * Further properties of the loader                                     *)
(* ===================================================================== *)

Section LoaderListing.
Context `{Library}.

Lemma load_items_filter_recognised items times dfs :
  load_items (List.filter recognised items) times dfs = load_items items times dfs.
Proof.
  revert times dfs. induction items as [|item items IH]; intros times dfs; [done|].
  cbn [List.filter]. unfold recognised at 1.
  destruct (csv_role (str_lower (item_name item)) csv_files) as [role|] eqn:Er.
  - cbn [load_items]. rewrite Er. destruct (item_csv item); [apply IH|done].
  - cbn [load_items]. rewrite Er. apply IH.
Qed.

(** X1.  Files whose lower-cased name is none of the five known names
    play no part: [get_data] returns the same table and the same
    modification times as it does on the listing without them. *)
Theorem get_data_ignores_unknown_files (items : list DriveItem)
    (times : gmap string string) :
  get_data (Some (Some (List.filter recognised items))) times
  = get_data (Some (Some items)) times.
Proof. unfold get_data. by rewrite load_items_filter_recognised. Qed.

Lemma csv_role_In (name role : string) (table : list (string * string)) :
  csv_role name table = Some role -> In (name, role) table.
Proof.
  induction table as [|[k v] table IH]; cbn [csv_role]; [done|].
  destruct (String.eqb_spec name k) as [->|_].
  - intros [= <-]. by left.
  - intros Hr. right. by apply IH.
Qed.

Lemma csv_role_file (name role : string) :
  csv_role name csv_files = Some role -> In (name, role) csv_files.
Proof. apply csv_role_In. Qed.

Lemma csv_files_role_file (file1 file2 role : string) :
  In (file1, role) csv_files -> In (file2, role) csv_files -> file1 = file2.
Proof.
  unfold csv_files. simpl.
  intros [E1|[E1|[E1|[E1|[E1|[]]]]]] [E2|[E2|[E2|[E2|[E2|[]]]]]];
    congruence.
Qed.

(** A table in the result was put there by a file of its role, or was
    there from the start. *)
Lemma load_items_origin items times dfs times' dfs' role df :
  load_items items times dfs = (times', Some dfs') ->
  dfs' !! role = Some df ->
  dfs !! role = Some df
  \/ exists item, In item items
       /\ csv_role (str_lower (item_name item)) csv_files = Some role.
Proof.
  revert times dfs. induction items as [|item items IH]; intros times dfs; cbn [load_items].
  - intros [= <- <-] Hdf. by left.
  - destruct (csv_role (str_lower (item_name item)) csv_files) as [r|] eqn:Er.
    + destruct (item_csv item) as [csv|]; [|done].
      intros Hl Hdf. destruct (IH _ _ Hl Hdf) as [Hin|(it & Hit & Hr)].
      * destruct (decide (r = role)) as [->|Hne].
        -- right. exists item. split; [by left|done].
        -- left. by rewrite lookup_insert_ne in Hin.
      * right. exists it. split; [by right|done].
    + intros Hl Hdf. destruct (IH _ _ Hl Hdf) as [Hin|(it & Hit & Hr)]; [by left|].
      right. exists it. split; [by right|done].
Qed.

Lemma merge_tables_needs_role (dfs : gmap string DataFrame) (file role : string) :
  In (file, role) csv_files -> dfs !! role = None -> merge_tables dfs = None.
Proof.
  intros Hin Hnone. unfold merge_tables.
  unfold csv_files in Hin. simpl in Hin.
  destruct (dfs !! "movimentos") as [df_mov|] eqn:Emov; cbn [mbind option_bind];
    [|done].
  destruct (dfs !! "classificacao") as [df_class|] eqn:Eclass;
    cbn [mbind option_bind fmap option_fmap option_map]; [|done].
  destruct (dfs !! "contas") as [contas|] eqn:Econtas; cbn [mbind option_bind]; [|done].
  destruct (merge_left df_mov contas _ _) as [m1|]; cbn [mbind option_bind]; [|done].
  destruct (dfs !! "clientes") as [clientes|] eqn:Eclientes; cbn [mbind option_bind];
    [|done].
  destruct (merge_left m1 clientes _ _) as [m2|]; cbn [mbind option_bind]; [|done].
  destruct (merge_left m2 _ _ _) as [m3|]; cbn [mbind option_bind]; [|done].
  destruct (dfs !! "parceiros") as [parceiros|] eqn:Eparceiros; cbn [mbind option_bind];
    [|done].
  destruct Hin as [E|[E|[E|[E|[E|[]]]]]]; injection E as <- <-; congruence.
Qed.

(** X2.  All five files are required: when no file of the listing has the
    name of one of them (case apart), [get_data] returns no table. *)
Theorem get_data_requires_all_files (items : list DriveItem)
    (times : gmap string string) (file role : string) :
  In (file, role) csv_files ->
  (forall item, In item items -> str_lower (item_name item) <> file) ->
  snd (get_data (Some (Some items)) times) = None.
Proof.
  intros Hfile Hnone. unfold get_data.
  destruct (load_items items times ∅) as [times' [dfs|]] eqn:El; [|done].
  cbn [snd mbind option_bind]. unfold process_tables.
  rewrite (merge_tables_needs_role dfs file role Hfile); [done|].
  destruct (dfs !! role) as [df|] eqn:Edf; [|done].
  destruct (load_items_origin _ _ _ _ _ _ _ El Edf) as [Hin|(item & Hitem & Hr)].
  - by rewrite lookup_empty in Hin.
  - exfalso. apply (Hnone item Hitem).
    apply csv_role_file in Hr. by apply (csv_files_role_file _ _ role).
Qed.

End LoaderListing.

Section CoerceDates.
Context `{Library}.

Local Abbreviation coerce_step :=
  (fun (df : DataFrame) (col : string) =>
     if str_contains "Data" col then
       match get_column df col with
       | Some series => set_column df col (to_datetime_coerce series)
       | None => df
       end
     else df).

Lemma index_of_lookup (c : string) (cs : list string) (i : nat) :
  index_of c cs = Some i -> cs !! i = Some c.
Proof.
  revert i. induction cs as [|c' cs IH]; intros i; cbn [index_of]; [done|].
  destruct (String.eqb_spec c c') as [->|Hne].
  - by intros [= <-].
  - destruct (index_of c cs) as [j|]; [|done]. intros [= <-]. by apply IH.
Qed.

Lemma index_of_distinct (c1 c2 : string) (cs : list string) (i j : nat) :
  index_of c1 cs = Some i -> index_of c2 cs = Some j -> c1 <> c2 -> i <> j.
Proof.
  intros H1 H2 Hne ->. apply index_of_lookup in H1, H2. congruence.
Qed.

Lemma cell_insert_ne (i j : nat) (v : Value) (r : list Value) :
  i <> j -> cell j (<[i := v]> r) = cell j r.
Proof.
  intros Hne. unfold cell. by rewrite !nth_lookup, list_lookup_insert_ne.
Qed.

Lemma cell_insert_eq (i : nat) (v : Value) (r : list Value) :
  cell i (<[i := v]> r) = v \/ cell i (<[i := v]> r) = VNull.
Proof.
  unfold cell. rewrite nth_lookup.
  destruct (decide (i < List.length r)%nat) as [Hlt|Hge].
  - left. by rewrite list_lookup_insert_eq.
  - right. rewrite list_insert_ge by lia. rewrite lookup_ge_None_2 by lia. done.
Qed.

Lemma map_cell_zip_insert_ne (i j : nat) (rs : list (list Value)) (vals : list Value) :
  i <> j -> List.length vals = List.length rs ->
  map (cell j) (zip_with (fun r v => <[i := v]> r) rs vals) = map (cell j) rs.
Proof.
  intros Hne. revert vals. induction rs as [|r rs IH]; intros [|v vals]; simpl; try done.
  intros [= Hl]. by rewrite cell_insert_ne, IH.
Qed.

Lemma forallb_cell_zip_insert (i : nat) (rs : list (list Value)) (vals : list Value) :
  forallb is_date_or_null vals = true ->
  forallb is_date_or_null (map (cell i) (zip_with (fun r v => <[i := v]> r) rs vals)) = true.
Proof.
  revert vals. induction rs as [|r rs IH]; intros [|v vals]; simpl; try done.
  intros Hv. apply andb_true_iff in Hv as [Hv Hvals].
  rewrite (IH vals Hvals), andb_true_r.
  destruct (cell_insert_eq i v r) as [-> | ->]; done.
Qed.

Lemma to_datetime_coerce_dates (series : list Value) :
  forallb is_date_or_null (to_datetime_coerce series) = true.
Proof.
  unfold to_datetime_coerce. generalize series at 1. intros ctx.
  induction series as [|v series IH]; simpl; [done|].
  rewrite IH, andb_true_r. unfold coerce_cell.
  destruct v; try done; by destruct (parse_cell ctx _).
Qed.

Lemma coerce_step_columns df col : columns (coerce_step df col) = columns df.
Proof.
  cbv beta. destruct (str_contains "Data" col); [|done].
  unfold get_column. destruct (col_index df col) as [i|] eqn:Ei; simpl; [|done].
  unfold set_column. by rewrite Ei.
Qed.

(** A step leaves every other column as it is. *)
Lemma coerce_step_other df col c :
  c <> col -> get_column (coerce_step df col) c = get_column df c.
Proof.
  intros Hne. cbv beta. destruct (str_contains "Data" col); [|done].
  unfold get_column at 2. destruct (col_index df col) as [i|] eqn:Ei; simpl; [|done].
  unfold get_column, set_column, col_index in *. rewrite Ei. simpl.
  destruct (index_of c (columns df)) as [j|] eqn:Ej; simpl; [|done].
  f_equal. apply map_cell_zip_insert_ne.
  - by apply (index_of_distinct col c (columns df)).
  - unfold to_datetime_coerce. by rewrite !length_map.
Qed.

Lemma coerce_step_keeps_dates df col c :
  date_column df c -> date_column (coerce_step df col) c.
Proof.
  intros (series & Hs & Hd). destruct (decide (c = col)) as [->|Hne].
  - cbv beta. destruct (str_contains "Data" col); [|by exists series].
    rewrite Hs. unfold date_column, get_column, set_column, col_index in *.
    destruct (index_of col (columns df)) as [i|] eqn:Ei; [|done]. simpl.
    rewrite Ei. simpl. eexists. split; [done|].
    apply forallb_cell_zip_insert, to_datetime_coerce_dates.
  - exists series. by rewrite coerce_step_other.
Qed.

Lemma coerce_step_makes_dates df col :
  In col (columns df) -> str_contains "Data" col = true ->
  date_column (coerce_step df col) col.
Proof.
  intros Hin Hd. cbv beta. rewrite Hd.
  destruct (index_of_In col (columns df) Hin) as [i Hi].
  unfold date_column, get_column, set_column, col_index. rewrite Hi. simpl.
  rewrite Hi. simpl. eexists. split; [done|].
  apply forallb_cell_zip_insert, to_datetime_coerce_dates.
Qed.

Lemma coerce_fold_columns df cols : columns (foldl coerce_step df cols) = columns df.
Proof.
  revert df. induction cols as [|col cols IH]; intros df; [done|].
  cbn [foldl]. by rewrite IH, coerce_step_columns.
Qed.

Lemma coerce_fold_keeps_dates df cols c :
  date_column df c -> date_column (foldl coerce_step df cols) c.
Proof.
  revert df. induction cols as [|col cols IH]; intros df Hd; [done|].
  cbn [foldl]. by apply IH, coerce_step_keeps_dates.
Qed.

Lemma coerce_fold_makes_dates df cols c :
  In c cols -> In c (columns df) -> str_contains "Data" c = true ->
  date_column (foldl coerce_step df cols) c.
Proof.
  revert df. induction cols as [|col cols IH]; intros df Hc Hin Hd; [done|].
  cbn [foldl]. destruct (decide (c = col)) as [->|Hne].
  - by apply coerce_fold_keeps_dates, coerce_step_makes_dates.
  - destruct Hc as [->|Hc]; [done|].
    apply IH; [done| |done]. by rewrite coerce_step_columns.
Qed.

Lemma coerce_fold_other df cols c :
  str_contains "Data" c = false ->
  get_column (foldl coerce_step df cols) c = get_column df c.
Proof.
  intros Hc. revert df. induction cols as [|col cols IH]; intros df; [done|].
  cbn [foldl]. rewrite IH.
  destruct (decide (c = col)) as [->|Hne]; [cbv beta; by rewrite Hc|].
  by apply coerce_step_other.
Qed.

(** X3.  The date coercion at the end of [get_data] keeps the column
    labels, turns every column whose label contains ["Data"] into a column
    of dates and nulls (what does not parse becomes null, nothing is
    raised), and leaves the cells of every other column as they are. *)
Theorem coerce_date_columns_postcondition (df : DataFrame) :
  columns (coerce_date_columns df) = columns df
  /\ (forall c, In c (columns df) -> str_contains "Data" c = true ->
        date_column (coerce_date_columns df) c)
  /\ (forall c, str_contains "Data" c = false ->
        get_column (coerce_date_columns df) c = get_column df c)
  /\ (forall local_dataframes final_df c,
        process_tables local_dataframes = Some final_df ->
        In c (columns final_df) -> str_contains "Data" c = true ->
        date_column final_df c).
Proof.
  assert (forall d c, In c (columns d) -> str_contains "Data" c = true ->
            date_column (coerce_date_columns d) c) as Hdates
    by (intros d c Hin Hd; by apply coerce_fold_makes_dates).
  split; [apply coerce_fold_columns|]. split; [apply Hdates|].
  split; [intros c Hc; by apply coerce_fold_other|].
  intros dfs final_df c. unfold process_tables.
  destruct (merge_tables dfs) as [merged|]; [|done].
  cbn [fmap option_fmap option_map]. intros [= <-] Hin Hd.
  apply Hdates; [|done]. unfold coerce_date_columns in Hin.
  by rewrite coerce_fold_columns in Hin.
Qed.

End CoerceDates.

Section Shape.
Context `{Library}.

Local Abbreviation coerce_step :=
  (fun (df : DataFrame) (col : string) =>
     if str_contains "Data" col then
       match get_column df col with
       | Some series => set_column df col (to_datetime_coerce series)
       | None => df
       end
     else df).

Lemma index_of_lt (c : string) (cs : list string) (i : nat) :
  index_of c cs = Some i -> (i < List.length cs)%nat.
Proof.
  intros Hi. apply index_of_lookup in Hi. by apply lookup_lt_Some in Hi.
Qed.

Lemma drop_nth_length {A} (i : nat) (l : list A) :
  (i < List.length l)%nat -> List.length (drop_nth i l) = (List.length l - 1)%nat.
Proof.
  intros Hlt. unfold drop_nth. rewrite length_app, length_take, length_drop. lia.
Qed.

Lemma merge_left_well_formed l r key sfx out :
  well_formed l -> well_formed r -> merge_left l r key sfx = Some out ->
  List.length (columns out) = (List.length (columns l) + List.length (columns r) - 1)%nat
  /\ well_formed out.
Proof.
  unfold well_formed. intros Hl Hr Hm.
  apply merge_left_Some in Hm
    as (il & ir & test & stored & El & Er & _ & Hstored & Hcolumns & Hrows).
  rewrite Hcolumns, Hrows.
  pose proof (index_of_lt _ _ _ Er) as Hir.
  assert (List.length
            (suffixed (columns l) (columns r) key sfx.1
             ++ drop_nth ir (suffixed (columns r) (columns l) key sfx.2))
          = (List.length (columns l) + List.length (columns r) - 1)%nat) as Hcols.
  { rewrite length_app, drop_nth_length; unfold suffixed; rewrite !length_map; lia. }
  split; [done|]. rewrite Hcols.
  apply Forall_forall. intros tr Htr.
  apply list_elem_of_In, in_flat_map in Htr as (lr & Hlr & Htr).
  rewrite Forall_forall in Hl, Hr.
  pose proof (Hl lr (proj2 (list_elem_of_In _ _) Hlr)) as Hlen.
  unfold joined_rows, matching in Htr.
  destruct (List.filter _ (rows r)) as [|m ms] eqn:Ef.
  - destruct Htr as [<-|[]]. rewrite length_app, length_replicate. lia.
  - apply in_map_iff in Htr as (rr & <- & Hrr).
    assert (In rr (rows r)) as Hin.
    { rewrite <- Ef in Hrr. by apply filter_In in Hrr as [Hrr _]. }
    pose proof (Hr rr (proj2 (list_elem_of_In _ _) Hin)) as Hrlen.
    rewrite length_app, drop_nth_length; rewrite Hstored; lia.
Qed.

Lemma merge_left_length_cols_pos l r key sfx out :
  merge_left l r key sfx = Some out ->
  (0 < List.length (columns l))%nat /\ (0 < List.length (columns r))%nat.
Proof.
  intros Hm.
  apply merge_left_Some in Hm as (il & ir & test & stored & El & Er & _).
  pose proof (index_of_lt _ _ _ El). pose proof (index_of_lt _ _ _ Er). lia.
Qed.

Lemma rename_column_well_formed old new df :
  well_formed df -> well_formed (rename_column old new df).
Proof. unfold well_formed, rename_column. simpl. by rewrite length_map. Qed.

Lemma coerce_step_well_formed df col :
  well_formed df -> well_formed (coerce_step df col).
Proof.
  intros Hwf. cbv beta. destruct (str_contains "Data" col); [|done].
  unfold get_column. destruct (col_index df col) as [i|] eqn:Ei; simpl; [|done].
  unfold well_formed, set_column in *. rewrite Ei. simpl.
  generalize (to_datetime_coerce (map (cell i) (rows df))) as vals.
  induction Hwf as [|r rs Hr _ IH]; intros [|v vals]; simpl; try constructor.
  - by rewrite length_insert.
  - apply IH.
Qed.

Lemma coerce_date_columns_well_formed df :
  well_formed df -> well_formed (coerce_date_columns df).
Proof.
  unfold coerce_date_columns. generalize (columns df) as cols. intros cols. revert df.
  induction cols as [|col cols IH]; intros df Hwf; [done|].
  cbn [foldl]. by apply IH, coerce_step_well_formed.
Qed.

(** X4.  When each of the five loaded tables has one cell per column in
    every row, so has the table [get_data] returns; the merged table has
    the columns of the five tables, each join key once. *)
Theorem get_data_table_well_formed (local_dataframes : gmap string DataFrame)
    (final_df : DataFrame) :
  (forall role df, In role ["movimentos"; "contas"; "clientes"; "classificacao"; "parceiros"] ->
     local_dataframes !! role = Some df -> well_formed df) ->
  process_tables local_dataframes = Some final_df ->
  well_formed final_df
  /\ (forall mov contas clientes classificacao parceiros,
        local_dataframes !! "movimentos" = Some mov ->
        local_dataframes !! "contas" = Some contas ->
        local_dataframes !! "clientes" = Some clientes ->
        local_dataframes !! "classificacao" = Some classificacao ->
        local_dataframes !! "parceiros" = Some parceiros ->
        (List.length (columns final_df) + 4
         = List.length (columns mov) + List.length (columns contas)
           + List.length (columns clientes) + List.length (columns classificacao)
           + List.length (columns parceiros))%nat).
Proof.
  intros Hwf. unfold process_tables, merge_tables.
  destruct (local_dataframes !! "movimentos") as [df_mov|] eqn:Emov;
    cbn [mbind option_bind fmap option_fmap option_map]; [|done].
  destruct (local_dataframes !! "classificacao") as [df_class|] eqn:Eclass;
    cbn [mbind option_bind fmap option_fmap option_map]; [|done].
  destruct (local_dataframes !! "contas") as [contas|] eqn:Econtas;
    cbn [mbind option_bind fmap option_fmap option_map]; [|done].
  destruct (merge_left df_mov contas _ _) as [m1|] eqn:E1;
    cbn [mbind option_bind fmap option_fmap option_map]; [|done].
  destruct (local_dataframes !! "clientes") as [clientes|] eqn:Eclientes;
    cbn [mbind option_bind fmap option_fmap option_map]; [|done].
  destruct (merge_left m1 clientes _ _) as [m2|] eqn:E2;
    cbn [mbind option_bind fmap option_fmap option_map]; [|done].
  destruct (merge_left m2 _ _ _) as [m3|] eqn:E3;
    cbn [mbind option_bind fmap option_fmap option_map]; [|done].
  destruct (local_dataframes !! "parceiros") as [parceiros|] eqn:Eparceiros;
    cbn [mbind option_bind fmap option_fmap option_map]; [|done].
  destruct (merge_left m3 parceiros _ _) as [merged|] eqn:E4;
    cbn [mbind option_bind fmap option_fmap option_map]; [|done].
  intros [= <-].
  assert (well_formed df_mov) as Wmov by (apply (Hwf "movimentos"); simpl; auto).
  assert (well_formed contas) as Wcontas by (apply (Hwf "contas"); simpl; auto).
  assert (well_formed clientes) as Wclientes by (apply (Hwf "clientes"); simpl; auto).
  assert (well_formed df_class) as Wclass by (apply (Hwf "classificacao"); simpl; auto 6).
  assert (well_formed parceiros) as Wparceiros by (apply (Hwf "parceiros"); simpl; auto 7).
  destruct (merge_left_well_formed _ _ _ _ _ Wmov Wcontas E1) as [L1 W1].
  destruct (merge_left_well_formed _ _ _ _ _ W1 Wclientes E2) as [L2 W2].
  destruct (merge_left_well_formed _ _ _ _ _ W2
              (rename_column_well_formed _ _ _ Wclass) E3) as [L3 W3].
  destruct (merge_left_well_formed _ _ _ _ _ W3 Wparceiros E4) as [L4 W4].
  split; [by apply coerce_date_columns_well_formed|].
  intros ? ? ? ? ? [= <-] [= <-] [= <-] [= <-] [= <-].
  unfold coerce_date_columns. rewrite coerce_fold_columns.
  unfold rename_column in L3. cbn [columns] in L3. rewrite length_map in L3.
  pose proof (merge_left_length_cols_pos df_mov contas _ _ _ E1).
  pose proof (merge_left_length_cols_pos m1 clientes _ _ _ E2).
  pose proof (merge_left_length_cols_pos m2 _ _ _ _ E3).
  pose proof (merge_left_length_cols_pos m3 parceiros _ _ _ E4).
  unfold rename_column in *. cbn [columns] in *. rewrite ?length_map in *. lia.
Qed.

End Shape.

Section Order1to1.
Context `{Library}.

Lemma merge_left_unique_rows l r key sfx out :
  merge_left l r key sfx = Some out ->
  integer_keys l key -> integer_keys r key -> unique_key r key ->
  Forall2 (fun lr tr => lr `prefix_of` tr) (rows l) (rows out).
Proof.
  intros Hm Hkl Hkr Hu.
  apply merge_left_Some in Hm as (il & ir & test & stored & Hil & Hir & Ht & _ & _ & ->).
  specialize (Hkl il Hil). specialize (Hkr ir Hir).
  assert (Forall integer_key (map (cell il) (rows l))) as Hl' by (by apply Forall_map).
  assert (Forall integer_key (map (cell ir) (rows r))) as Hr' by (by apply Forall_map).
  pose proof (merge_keys_integer _ _ _ Hl' Hr' Ht) as Htest.
  clear Ht Hl'. induction (rows l) as [|lr lrs IH]; cbn [flat_map]; [constructor|].
  apply Forall_cons in Hkl as [Hlr Hkl].
  assert (List.length (joined_rows test il ir r stored lr) = 1%nat) as Hone.
  { apply joined_rows_unique; [|by apply Hu].
    intros rr Hrr. apply Htest; [done|].
    rewrite Forall_forall in Hkr. by apply Hkr, list_elem_of_In. }
  pose proof (joined_rows_prefix test il ir r stored lr) as Hpre.
  destruct (joined_rows test il ir r stored lr) as [|tr [|tr' trs]]; try done.
  constructor; [|by apply IH]. apply Hpre. apply list_elem_of_here.
Qed.

Lemma Forall2_prefix_trans (l1 l2 l3 : list (list Value)) :
  Forall2 (fun a b => a `prefix_of` b) l1 l2 ->
  Forall2 (fun a b => a `prefix_of` b) l2 l3 ->
  Forall2 (fun a b => a `prefix_of` b) l1 l3.
Proof.
  intros H12. revert l3. induction H12 as [|a b l1 l2 Hab _ IH]; intros l3 H23.
  - inversion H23. constructor.
  - inversion H23 as [|b' c l2' l3' Hbc H23']; subst.
    constructor; [by etrans|by apply IH].
Qed.

(** X5.  When at every merge the keys are integers that float64 holds
    as they are (up to [2^53] in absolute value) and the dimension table
    repeats none, the merged table lists the movements in their order: it
    has one row per movement and its n-th row begins with the n-th
    movement row. *)
Theorem merge_tables_keeps_movement_order
    (local_dataframes : gmap string DataFrame) (df_mov merged : DataFrame) :
  local_dataframes !! "movimentos" = Some df_mov ->
  merge_tables local_dataframes = Some merged ->
  integer_unique_keys local_dataframes ->
  Forall2 (fun mr tr => mr `prefix_of` tr) (rows df_mov) (rows merged).
Proof.
  intros Hmov Hmerge Hu. unfold merge_tables in Hmerge.
  rewrite Hmov in Hmerge. cbn [mbind option_bind] in Hmerge.
  destruct (local_dataframes !! "classificacao") as [classificacao|] eqn:Eclass;
    cbn [mbind option_bind fmap option_fmap option_map] in Hmerge; [|done].
  destruct (local_dataframes !! "contas") as [contas|] eqn:Econtas;
    cbn [mbind option_bind] in Hmerge; [|done].
  destruct (merge_left df_mov contas _ _) as [m1|] eqn:E1;
    cbn [mbind option_bind] in Hmerge; [|done].
  destruct (local_dataframes !! "clientes") as [clientes|] eqn:Eclientes;
    cbn [mbind option_bind] in Hmerge; [|done].
  destruct (merge_left m1 clientes _ _) as [m2|] eqn:E2;
    cbn [mbind option_bind] in Hmerge; [|done].
  destruct (merge_left m2 _ _ _) as [m3|] eqn:E3;
    cbn [mbind option_bind] in Hmerge; [|done].
  destruct (local_dataframes !! "parceiros") as [parceiros|] eqn:Eparceiros;
    cbn [mbind option_bind] in Hmerge; [|done].
  destruct (Hu df_mov contas "ID_Conta") as (K1 & K1' & U1); [by constructor|].
  destruct (Hu m1 clientes "ID_Cliente") as (K2 & K2' & U2);
    [by apply (step_clientes _ df_mov contas)|].
  destruct (Hu m2 (rename_column "Data_Ultimo_Movimento" "Data_Movimento" classificacao)
              "ID_Conta") as (K3 & K3' & U3);
    [by apply (step_classificacao _ df_mov contas m1 clientes)|].
  destruct (Hu m3 parceiros "ID_Parceiro") as (K4 & K4' & U4);
    [by apply (step_parceiros _ df_mov contas m1 clientes m2 classificacao)|].
  eapply Forall2_prefix_trans; [|eapply Forall2_prefix_trans; [|eapply Forall2_prefix_trans]].
  - by apply (merge_left_unique_rows _ _ _ _ _ E1).
  - by apply (merge_left_unique_rows _ _ _ _ _ E2).
  - by apply (merge_left_unique_rows _ _ _ _ _ E3).
  - by apply (merge_left_unique_rows _ _ _ _ _ Hmerge).
Qed.

End Order1to1.

(* ===================================================================== *)
(** * Properties of the background check                                   *)
(* ===================================================================== *)

Section CheckerFacts.
Context `{Library}.

Lemma recognised_role (item : DriveItem) :
  recognised item = true <-> is_Some (csv_role (str_lower (item_name item)) csv_files).
Proof.
  unfold recognised. destruct (csv_role _ _) as [role|]; split; try done.
Qed.

(** A name that no recognised file of the listing bears keeps its record. *)
Lemma load_items_times_other items times dfs name :
  (forall item, In item items -> recognised item = true -> item_name item <> name) ->
  (load_items items times dfs).1 !! name = times !! name.
Proof.
  revert times dfs. induction items as [|item items IH]; intros times dfs Hno; [done|].
  cbn [load_items].
  assert (forall it, In it items -> recognised it = true -> item_name it <> name) as Hrest
    by (intros it Hit; apply Hno; by right).
  destruct (csv_role (str_lower (item_name item)) csv_files) as [role|] eqn:Er.
  - destruct (item_csv item) as [csv|]; [|done].
    rewrite IH by done. apply lookup_insert_ne, Hno; [by left|].
    unfold recognised. by rewrite Er.
  - by apply IH.
Qed.

(** After a load that succeeds, every recognised file of a listing without
    repeated names is on record with its listed time. *)
Lemma load_items_times_recorded items times dfs times' dfs' item :
  NoDup (map item_name items) ->
  load_items items times dfs = (times', Some dfs') ->
  In item items -> recognised item = true ->
  times' !! item_name item = Some (item_modifiedTime item).
Proof.
  revert times dfs. induction items as [|it items IH]; intros times dfs Hnd Hl Hin Hrec;
    [done|].
  apply NoDup_cons in Hnd as [Hfresh Hnd]. cbn [load_items] in Hl.
  destruct Hin as [->|Hin].
  - unfold recognised in Hrec.
    destruct (csv_role (str_lower (item_name item)) csv_files) as [role|]; [|done].
    destruct (item_csv item) as [csv|]; [|done].
    replace times' with (load_items items (<[item_name item := item_modifiedTime item]> times)
                           (<[role := csv]> dfs)).1 by (by rewrite Hl).
    rewrite load_items_times_other; [by rewrite lookup_insert_eq|].
    intros it Hit _ Heq. apply Hfresh. rewrite <- Heq.
    apply list_elem_of_In, in_map_iff. by exists it.
  - destruct (csv_role (str_lower (item_name it)) csv_files) as [role|].
    + destruct (item_csv it) as [csv|]; [|done]. by apply (IH _ _ Hnd Hl).
    + by apply (IH _ _ Hnd Hl).
Qed.

Lemma load_items_tracked_known items times dfs :
  tracked_known times -> tracked_known (load_items items times dfs).1.
Proof.
  revert times dfs. induction items as [|item items IH]; intros times dfs Hk; [done|].
  cbn [load_items].
  destruct (csv_role (str_lower (item_name item)) csv_files) as [role|] eqn:Er.
  - destruct (item_csv item) as [csv|]; [|done].
    apply IH. intros name recorded Hn.
    destruct (decide (item_name item = name)) as [<-|Hne].
    + rewrite Er. by eexists.
    + rewrite lookup_insert_ne in Hn by done. by apply (Hk name recorded).
  - by apply IH.
Qed.

Lemma load_items_readable items times dfs :
  all_readable items -> is_Some (load_items items times dfs).2.
Proof.
  revert times dfs. induction items as [|item items IH]; intros times dfs Hr;
    [by eexists|].
  cbn [load_items].
  assert (all_readable items) as Hrest by (intros it Hit; apply Hr; by right).
  destruct (csv_role (str_lower (item_name item)) csv_files) as [role|] eqn:Er.
  - destruct (Hr item) as [csv Hcsv]; [by left|unfold recognised; by rewrite Er|].
    rewrite Hcsv. by apply IH.
  - by apply IH.
Qed.

(** X6.  A reload settles the check: after [get_data] has read a listing
    in which no name repeats and every known file is readable, the
    modification times on record are those of the listing, so a turn of the
    check on the same listing finds no change, does not clear the cache
    and leaves the record as it is.  In particular a turn that clears the
    cache is followed by turns that do not. *)
Theorem reload_settles_check (items : list DriveItem) (times : gmap string string) :
  NoDup (map item_name items) -> all_readable items -> tracked_known times ->
  let times' := fst (get_data (Some (Some items)) times) in
  tracked_known times'
  /\ (forall item, In item items -> recognised item = true ->
        times' !! item_name item = Some (item_modifiedTime item))
  /\ existsb (changed times') items = false
  /\ verificar_atualizacoes (Some (Some items)) (Some items) times' = (false, times')
  /\ (forall cleared times1,
        verificar_atualizacoes (Some (Some items)) (Some items) times = (cleared, times1) ->
        verificar_atualizacoes (Some (Some items)) (Some items) times1 = (false, times1)).
Proof.
  intros Hnd Hread Hknown times'.
  assert (times' = (load_items items times ∅).1) as Htimes.
  { subst times'. unfold get_data. by destruct (load_items items times ∅). }
  assert (tracked_known times') as Hknown'
    by (rewrite Htimes; by apply load_items_tracked_known).
  assert (forall item, In item items -> recognised item = true ->
            times' !! item_name item = Some (item_modifiedTime item)) as Hrec.
  { intros item Hin Hr. rewrite Htimes.
    destruct (load_items_readable items times ∅ Hread) as [dfs' Hdfs].
    apply (load_items_times_recorded items times ∅ _ dfs'); try done.
    rewrite <- Hdfs. apply surjective_pairing. }
  assert (forall t, tracked_known t ->
            (forall item, In item items -> recognised item = true ->
               t !! item_name item = Some (item_modifiedTime item)) ->
            existsb (changed t) items = false) as Hquiet.
  { intros t Hk Ht. apply not_true_is_false. intros Hex.
    apply existsb_exists in Hex as (item & Hin & Hch). unfold changed in Hch.
    destruct (t !! item_name item) as [recorded|] eqn:Et; [|done].
    assert (recognised item = true) as Hr by (apply recognised_role; by apply (Hk _ recorded)).
    rewrite (Ht item Hin Hr) in Et. injection Et as <-.
    by rewrite String.eqb_refl in Hch. }
  pose proof (Hquiet times' Hknown' Hrec) as Hq.
  clear Htimes. subst times'.
  assert (verificar_atualizacoes (Some (Some items)) (Some items)
            (get_data (Some (Some items)) times).1
          = (false, (get_data (Some (Some items)) times).1)) as Hstill
    by (unfold verificar_atualizacoes; by rewrite Hq).
  split; [done|]. split; [done|]. split; [done|]. split; [done|].
  intros cleared times1. unfold verificar_atualizacoes at 1.
  destruct (existsb (changed times) items) eqn:Ech; intros [= <- <-].
  - exact Hstill.
  - unfold verificar_atualizacoes. by rewrite Ech.
Qed.

End CheckerFacts.

(* ===================================================================== *)
(** * Further properties of the interpreter                                *)
(* ===================================================================== *)

Section Axes.
Context `{Library}.







Lemma aggregate_stage_chart_type (chart_type : JSON) rest transformation df :
  aggregate_stage (("chart_type", chart_type) :: rest) transformation df
  = aggregate_stage rest transformation df.
Proof. reflexivity. Qed.

Lemma build_chart_donut rest agg_col df_agg :
  build_chart (("chart_type", JStr "donut") :: rest) agg_col df_agg
  = with_hole (4, 10) <$> build_chart (("chart_type", JStr "pie") :: rest) agg_col df_agg.
Proof.
  unfold build_chart.
  change (dict_get (("chart_type", JStr "donut") :: rest) "chart_type") with (JStr "donut").
  change (dict_get (("chart_type", JStr "pie") :: rest) "chart_type") with (JStr "pie").
  change (py_eqb (JStr "donut") (JStr "bar")) with false.
  change (py_eqb (JStr "pie") (JStr "bar")) with false.
  change (py_in (JStr "donut") [JStr "pie"; JStr "donut"]) with true.
  change (py_in (JStr "pie") [JStr "pie"; JStr "donut"]) with true.
  change (py_eqb (JStr "donut") (JStr "donut")) with true.
  change (py_eqb (JStr "pie") (JStr "donut")) with false.
  cbv iota.
  change (dict_get (("chart_type", JStr "donut") :: rest) "x_axis")
    with (dict_get (("chart_type", JStr "pie") :: rest) "x_axis").
  destruct (px_arg df_agg (dict_get _ "x_axis")) as [names|];
    cbn [mbind option_bind fmap option_fmap option_map]; [|done].
  destruct (px_arg df_agg agg_col) as [values|];
    cbn [mbind option_bind fmap option_fmap option_map]; [|done].
  reflexivity.
Qed.

(** X8.  A donut is the pie of the same plan with a hole of 0.4: the two
    chart types give figures that differ in the hole only (and both give
    none when either does); a pie has no hole, is one trace, and its rows
    are in table order (no sorting, no forced x axis). *)
Theorem donut_is_pie_with_hole (rest : list (string * JSON)) (df : DataFrame) :
  gerar_grafico_plotly (JObj (("chart_type", JStr "donut") :: rest)) df
  = with_hole (4, 10)
      <$> gerar_grafico_plotly (JObj (("chart_type", JStr "pie") :: rest)) df
  /\ (forall agg_col df_agg fig,
        build_chart (("chart_type", JStr "pie") :: rest) agg_col df_agg = Some fig ->
        fig_kind fig = Pie /\ fig_hole fig = (0, 1)
        /\ fig_traces fig
           = [ {| trace_name := None;
                  trace_x := px_column df_agg (fig_x fig);
                  trace_y := px_column df_agg (fig_y fig) |} ]).
Proof.
  split.
  - unfold gerar_grafico_plotly.
    change (dict_get (("chart_type", JStr "donut") :: rest) "data_transformation")
      with (dict_get rest "data_transformation").
    change (dict_get (("chart_type", JStr "pie") :: rest) "data_transformation")
      with (dict_get rest "data_transformation").
    destruct (dict_get rest "data_transformation") as [| | | | |[|kv t]]; try done.
    destruct (filter_stage _ df) as [df1|];
      cbn [mbind option_bind fmap option_fmap option_map]; [|done].
    destruct (empty df1); [done|].
    rewrite !aggregate_stage_chart_type.
    destruct (aggregate_stage rest _ df1) as [[df_agg a]|]; [|done].
    destruct (empty df_agg); [done|].
    apply build_chart_donut.
  - intros agg_col df_agg fig. unfold build_chart.
    change (dict_get (("chart_type", JStr "pie") :: rest) "chart_type") with (JStr "pie").
    change (py_eqb (JStr "pie") (JStr "bar")) with false.
    change (py_in (JStr "pie") [JStr "pie"; JStr "donut"]) with true.
    change (py_eqb (JStr "pie") (JStr "donut")) with false.
    cbv iota.
    destruct (px_arg df_agg (dict_get _ "x_axis")) as [names|];
      cbn [mbind option_bind]; [|done].
    destruct (px_arg df_agg agg_col) as [values|]; cbn [mbind option_bind]; [|done].
    by intros [= <-].
Qed.

End Axes.

Section Grouping.
Context `{Library}.

Lemma nub_NoDup {A} `{EqDecision A} (l : list A) : NoDup (nub l).
Proof.
  induction l as [|x l IH]; cbn [nub]; [constructor|].
  apply NoDup_cons. split.
  - intros Hin. apply list_elem_of_In, filter_In in Hin as [_ Hne].
    by rewrite bool_decide_eq_true_2 in Hne.
  - apply NoDup_ListNoDup, List.NoDup_filter, NoDup_ListNoDup, IH.
Qed.

Lemma nub_length {A} `{EqDecision A} (l : list A) :
  (List.length (nub l) <= List.length l)%nat.
Proof.
  induction l as [|x l IH]; cbn [nub]; simpl; [lia|].
  pose proof (List.filter_length_le (fun y => negb (bool_decide (y = x))) (nub l)). lia.
Qed.

Lemma mapM_snoc_groups (func : JSON) (agg : list Value -> list Value)
    (groups : list (list Value)) (rows' : list (list Value)) :
  mapM (fun g => v ← agg_named func (agg g); Some (g ++ [v])) groups = Some rows' ->
  Forall2 (fun g r => exists v, agg_named func (agg g) = Some v /\ r = g ++ [v])
          groups rows'.
Proof.
  intros Hm. apply mapM_Some_1 in Hm.
  induction Hm as [|g r gs rs Hg _ IH]; constructor; [|done].
  destruct (agg_named func (agg g)) as [v|]; cbn [mbind option_bind] in Hg; [|done].
  injection Hg as <-. by exists v.
Qed.

Lemma list_filter_ext_In {A} (p q : A -> bool) (l : list A) :
  (forall x, In x l -> p x = q x) -> List.filter p l = List.filter q l.
Proof.
  induction l as [|x l IH]; intros Hpq; simpl; [done|].
  rewrite (Hpq x) by (by left). rewrite IH; [done|]. intros y Hy. apply Hpq. by right.
Qed.

Lemma list_filter_filter {A} (p q : A -> bool) (l : list A) :
  List.filter p (List.filter q l) = List.filter (fun x => q x && p x) l.
Proof.
  induction l as [|x l IH]; cbn [List.filter]; [done|].
  destruct (q x); cbn [List.filter andb]; by rewrite IH.
Qed.

(** X9.  On key columns whose cells settle their dtype,
    [groupby().agg()] gives exactly one row per distinct key: every row of
    the table whose key cells are not null finds its key in one row
    of the result, no two rows of the result have the same key, no key cell
    is null (rows with a null key are left out), and every row is a key of
    the table followed by the aggregate of the cells of the rows with that
    key. *)
Theorem groupby_agg_one_row_per_key (df : DataFrame) (keys : list string)
    (agg_col : string) (agg_func : JSON) (out : DataFrame) :
  (forall k i, In k keys -> col_index df k = Some i ->
     settled (map (cell i) (rows df))) ->
  groupby_agg df keys agg_col agg_func = Some out ->
  exists ks ia,
    mapM (col_index df) keys = Some ks /\ col_index df agg_col = Some ia
    /\ columns out = keys ++ [agg_col]
    /\ well_formed out
    /\ NoDup (map (take (List.length keys)) (rows out))
    /\ Forall (fun r => forallb (fun v => negb (is_null v)) (take (List.length keys) r)
                        = true)
              (rows out)
    /\ (List.length (rows out) <= List.length (rows df))%nat
    /\ (forall r, In r (rows df) ->
          forallb (fun v => negb (is_null v)) (map (fun k => cell k r) ks) = true ->
          exists row, In row (rows out)
                      /\ take (List.length keys) row = map (fun k => cell k r) ks)
    /\ (forall row, In row (rows out) ->
          exists r v,
            In r (rows df)
            /\ row = map (fun k => cell k r) ks ++ [v]
            /\ agg_named agg_func
                 (map (cell ia)
                    (List.filter
                       (fun r' => bool_decide (map (fun k => cell k r') ks
                                               = map (fun k => cell k r) ks))
                       (rows df)))
               = Some v).
Proof.
  unfold groupby_agg. intros _ Hg.
  destruct (mapM (col_index df) keys) as [ks|] eqn:Eks; cbn [mbind option_bind] in Hg;
    [|done].
  destruct (col_index df agg_col) as [ia|]; cbn [mbind option_bind] in Hg; [|done].
  destruct (str_in agg_col keys); [done|].
  exists ks, ia. split; [done|]. split; [done|].
  pose (key_of := fun r : list Value => map (fun k => cell k r) ks).
  pose (live := List.filter (fun r => forallb (fun v => negb (is_null v)) (key_of r))
                  (rows df)).
  pose (groups := merge_sort keys_le (nub (map key_of live))).
  pose (agg := fun g : list Value =>
                 map (cell ia) (List.filter (fun r => bool_decide (key_of r = g)) live)).
  change (mapM (fun g => v ← agg_named agg_func (agg g); Some (g ++ [v])) groups
          ≫= (fun rows' => Some {| columns := keys ++ [agg_col]; rows := rows' |})
          = Some out) in Hg.
  destruct (mapM _ groups) as [rows'|] eqn:Er; cbn [mbind option_bind] in Hg; [|done].
  injection Hg as <-. cbn [columns rows].
  apply mapM_snoc_groups in Er.
  assert (List.length ks = List.length keys) as Hlen
    by (symmetry; by apply (length_mapM (col_index df))).
  assert (groups ≡ₚ nub (map key_of live)) as Hperm by apply merge_sort_Permutation.
  assert (forall g, g ∈ groups -> exists r, In r live /\ g = key_of r) as Hin.
  { intros g Hg. rewrite Hperm in Hg.
    apply list_elem_of_In, nub_In, in_map_iff in Hg as (r & <- & Hr). by exists r. }
  assert (map (take (List.length keys)) rows' = groups) as Htake.
  { clear Hperm. induction Er as [|g r gs rs (v & _ & ->) _ IH]; [done|].
    cbn [map]. rewrite IH.
    - f_equal. destruct (Hin g) as (r0 & _ & ->); [apply list_elem_of_here|].
      rewrite take_app_length'; [done|]. unfold key_of. by rewrite length_map.
    - intros g' Hg'. apply Hin. by apply list_elem_of_further. }
  split; [done|]. split.
  { unfold well_formed. cbn [columns rows]. rewrite length_app. simpl.
    clear Htake Hperm. induction Er as [|g r gs rs (v & _ & ->) _ IH]; constructor.
    - destruct (Hin g) as (r0 & _ & ->); [apply list_elem_of_here|].
      rewrite length_app. unfold key_of. rewrite length_map. simpl. lia.
    - apply IH. intros g' Hg'. apply Hin. by apply list_elem_of_further. }
  split; [rewrite Htake, Hperm; apply nub_NoDup|]. split.
  { apply Forall_forall. intros r Hr.
    assert (take (List.length keys) r ∈ groups) as Hg.
    { rewrite <- Htake. apply list_elem_of_fmap. by exists r. }
    destruct (Hin _ Hg) as (r0 & Hr0 & ->).
    subst live. by apply filter_In in Hr0 as [_ Hr0]. }
  split.
  { rewrite <- (length_map (take (List.length keys)) rows'), Htake, Hperm.
    etrans; [apply nub_length|]. rewrite length_map. subst live.
    apply List.filter_length_le. }
  split.
  { intros r Hr Hnn.
    assert (key_of r ∈ groups) as Hg.
    { rewrite Hperm. apply list_elem_of_In, nub_In, in_map_iff. exists r.
      split; [done|]. subst live. by apply filter_In. }
    rewrite <- Htake in Hg. apply list_elem_of_fmap in Hg as (row & Hrow & Hin').
    exists row. split; [by apply list_elem_of_In|done]. }
  intros row Hrow.
  assert (exists g v, g ∈ groups /\ agg_named agg_func (agg g) = Some v /\ row = g ++ [v])
    as (g & v & Hg & Hv & ->).
  { clear Htake Hperm Hin. apply list_elem_of_In in Hrow.
    induction Er as [|g r gs rs (v & Hv & ->) _ IH].
    - inversion Hrow.
    - inversion Hrow as [|? ? ? Hrow']; subst.
      + exists g, v. split; [apply list_elem_of_here|done].
      + destruct (IH Hrow') as (g' & v' & Hg' & Hrest).
        exists g', v'. split; [by apply list_elem_of_further|done]. }
  destruct (Hin g Hg) as (r & Hr & ->).
  exists r, v. subst live. pose proof Hr as Hr'. apply filter_In in Hr' as [Hrin Hnn].
  split; [done|]. split; [done|].
  rewrite <- Hv. unfold agg. f_equal. f_equal.
  rewrite list_filter_filter. apply list_filter_ext_In.
  intros r' _. cbv beta.
  change (map (fun k => cell k r') ks) with (key_of r').
  change (map (fun k => cell k r) ks) with (key_of r).
  destruct (decide (key_of r' = key_of r)) as [E|E].
  - rewrite E, Hnn. by rewrite bool_decide_eq_true_2.
  - rewrite (bool_decide_eq_false_2 _ E). by rewrite andb_false_r.
Qed.

End Grouping.

Section Traces.
Context `{Library}.

Lemma list_filter_Permutation {A} (p : A -> bool) (l1 l2 : list A) :
  l1 ≡ₚ l2 -> List.filter p l1 ≡ₚ List.filter p l2.
Proof.
  induction 1 as [|x l1 l2 _ IH|x y l|l1 l2 l3 _ IH1 _ IH2]; simpl.
  - done.
  - destruct (p x); [by constructor|done].
  - destruct (p x), (p y); try done. apply perm_swap.
  - by etrans.
Qed.

(** Splitting a list by the values of a key loses and repeats nothing. *)
Lemma filter_by_names {A B} `{EqDecision B} (key : A -> B) (names : list B) (l : list A) :
  NoDup names ->
  flat_map (fun n => List.filter (fun r => bool_decide (key r = n)) l) names
  ≡ₚ List.filter (fun r => bool_decide (key r ∈ names)) l.
Proof.
  induction 1 as [|n ns Hn Hnd IH]; cbn [flat_map].
  - rewrite (list_filter_ext_In _ (fun _ => false)).
    + induction l as [|x l IHl]; simpl; done.
    + intros x _. apply bool_decide_eq_false_2, not_elem_of_nil.
  - rewrite IH. clear IH. induction l as [|x l IHl]; cbn [List.filter app]; [done|].
    destruct (decide (key x = n)) as [E|E].
    + rewrite (bool_decide_eq_true_2 _ E).
      rewrite (bool_decide_eq_true_2 (key x ∈ n :: ns)) by (rewrite E; apply list_elem_of_here).
      rewrite (bool_decide_eq_false_2 (key x ∈ ns)) by (by rewrite E).
      cbn [app]. by constructor.
    + rewrite (bool_decide_eq_false_2 _ E).
      destruct (decide (key x ∈ ns)) as [Hin|Hout].
      * rewrite (bool_decide_eq_true_2 _ Hin).
        rewrite (bool_decide_eq_true_2 (key x ∈ n :: ns)) by (by apply list_elem_of_further).
        rewrite <- Permutation_middle. by constructor.
      * rewrite (bool_decide_eq_false_2 _ Hout).
        rewrite (bool_decide_eq_false_2 (key x ∈ n :: ns)); [done|].
        intros Hc. inversion Hc; subst; done.
Qed.

Lemma forallb_Permutation {A} (p : A -> bool) (l1 l2 : list A) :
  l1 ≡ₚ l2 -> forallb p l1 = forallb p l2.
Proof.
  induction 1 as [|x l1 l2 _ IH|x y l|l1 l2 l3 _ IH1 _ IH2]; cbn [forallb].
  - done.
  - by rewrite IH.
  - by rewrite !andb_assoc, (andb_comm (p y)).
  - by etrans.
Qed.

(** The dtype of a column does not depend on the order of its cells. *)
Lemma dtype_Permutation (l1 l2 : list Value) : l1 ≡ₚ l2 -> dtype l1 = dtype l2.
Proof.
  intros Hp. unfold dtype.
  pose proof (list_filter_Permutation (fun v => negb (is_null v)) l1 l2 Hp) as Hlive.
  rewrite (Permutation_length Hp).
  rewrite (forallb_Permutation is_int64 _ _ Hlive), (forallb_Permutation is_str _ _ Hlive),
          (forallb_Permutation is_date _ _ Hlive), (forallb_Permutation is_bool _ _ Hlive).
  pose proof (Permutation_length Hlive) as Hlen. rewrite Hlen.
  destruct (List.filter _ l1), (List.filter _ l2); done.
Qed.

Lemma px_bar_xs_colour df x y c i ic :
  col_index df x = Some i -> col_index df c = Some ic ->
  continuous (map (cell ic) (rows df)) = false ->
  List.concat (omap trace_x (px_bar df x y (Some c)))
  ≡ₚ map (cell i) (List.filter (fun r => negb (is_null (cell ic r))) (rows df))
  /\ NoDup (map trace_name (px_bar df x y (Some c))).
Proof.
  intros Hi Hic Hdiscrete. unfold px_bar. cbn [mbind option_bind]. rewrite Hic, Hdiscrete.
  set (names := nub (List.filter (fun v => negb (is_null v)) (map (cell ic) (rows df)))).
  assert (NoDup names) as Hnd by apply nub_NoDup.
  split.
  - match goal with
    | |- List.concat (omap trace_x (map ?f names)) ≡ₚ _ =>
        assert (forall ns : list Value,
                  List.concat (omap trace_x (map f ns))
                  = map (cell i)
                      (flat_map (fun n => List.filter (fun r => bool_decide (cell ic r = n))
                                            (rows df)) ns)) as ->
    end.
    { induction ns as [|n ns IH]; [done|].
      cbn [map omap list_omap trace_x flat_map]. unfold get_column at 1, col_index.
      cbn [columns rows]. unfold col_index in Hi. rewrite Hi. cbn [mbind option_bind].
      cbn [List.concat]. rewrite map_app. f_equal. apply IH. }
    apply Permutation_map. rewrite (filter_by_names (cell ic) names (rows df) Hnd).
    erewrite list_filter_ext_In; [done|].
    intros r Hr. cbv beta.
    destruct (is_null (cell ic r)) eqn:En; simpl.
    + apply bool_decide_eq_false_2. intros Hin. subst names.
      apply list_elem_of_In, nub_In, filter_In in Hin as [_ Hnn]. by rewrite En in Hnn.
    + apply bool_decide_eq_true_2. subst names.
      apply list_elem_of_In, nub_In, filter_In. split; [|by rewrite En].
      apply in_map_iff. by exists r.
  - rewrite map_map. cbn [trace_name].
    apply (NoDup_fmap_2 Some). exact Hnd.
Qed.

(** Without a colour, or with a continuous one, there is one trace. *)
Lemma px_bar_xs_plain df x y color i :
  col_index df x = Some i ->
  (color = None
   \/ exists c ic, color = Some c /\ col_index df c = Some ic
                   /\ continuous (map (cell ic) (rows df)) = true) ->
  exists t, px_bar df x y color = [t] /\ trace_name t = None
            /\ trace_x t = Some (map (cell i) (rows df)).
Proof.
  intros Hi Hone. unfold px_bar.
  assert (get_column {| columns := columns df; rows := rows df |} x
          = Some (map (cell i) (rows df))) as Hx.
  { unfold get_column, col_index in *. cbn [columns rows]. by rewrite Hi. }
  destruct Hone as [->|(c & ic & -> & Hic & Hcont)]; cbn [mbind option_bind].
  - eexists. split; [done|]. split; [done|]. exact Hx.
  - rewrite Hic, Hcont. eexists. split; [done|]. split; [done|]. exact Hx.
Qed.

(** X10.  A bar chart shows every row of the aggregated table once.
    Without a colour column, or with a numeric one (which plotly express
    takes for a continuous scale), it is one unnamed trace whose x values
    are the x column up to order; with a colour column of text, booleans or
    dates there is one trace per colour, no colour twice, and together the
    traces hold the x values of exactly the rows whose colour is not
    null. *)
Theorem bar_chart_shows_every_row (plan : list (string * JSON)) (agg_col : JSON)
    (df_agg : DataFrame) (fig : Figure) :
  py_eqb (dict_get plan "chart_type") (JStr "bar") = true ->
  build_chart plan agg_col df_agg = Some fig ->
  exists x i,
    fig_x fig = Some x /\ col_index df_agg x = Some i
    /\ (fig_color fig = None ->
        exists t, fig_traces fig = [t] /\ trace_name t = None
          /\ exists xs, trace_x t = Some xs /\ xs ≡ₚ map (cell i) (rows df_agg))
    /\ (forall c ic, fig_color fig = Some c -> col_index df_agg c = Some ic ->
        let colours := map (cell ic) (rows df_agg) in
        ((dtype colours = DInt \/ dtype colours = DFloat) ->
         exists t, fig_traces fig = [t] /\ trace_name t = None
           /\ exists xs, trace_x t = Some xs /\ xs ≡ₚ map (cell i) (rows df_agg))
        /\ ((dtype colours = DBool \/ dtype colours = DText \/ dtype colours = DDate) ->
            NoDup (map trace_name (fig_traces fig))
            /\ List.concat (omap trace_x (fig_traces fig))
               ≡ₚ map (cell i)
                    (List.filter (fun r => negb (is_null (cell ic r))) (rows df_agg)))).
Proof.
  intros Hbar. unfold build_chart. rewrite Hbar.
  destruct (as_str _) as [x|]; cbn [mbind option_bind]; [|done].
  destruct (sort_values df_agg x) as [sorted|] eqn:Es; cbn [mbind option_bind]; [|done].
  destruct (px_arg sorted agg_col) as [y|]; cbn [mbind option_bind]; [|done].
  destruct (px_arg sorted (dict_get plan "color")) as [color|];
    cbn [mbind option_bind]; [|done].
  intros [= <-]. cbn [fig_x fig_color fig_traces].
  assert (exists i, col_index df_agg x = Some i) as [i Hi].
  { unfold sort_values in Es. destruct (col_index df_agg x) as [i|]; [by exists i|done]. }
  destruct (sort_values_sorted _ _ _ i Es Hi) as (Hc & _ & Hperm).
  assert (col_index sorted x = Some i) as Hi' by (unfold col_index; by rewrite Hc).
  exists x, i. split; [done|]. split; [done|]. split.
  - intros ->.
    destruct (px_bar_xs_plain sorted x y None i Hi') as (t & -> & Hn & Hx); [by left|].
    exists t. split; [done|]. split; [done|]. eexists. split; [exact Hx|].
    by apply Permutation_map.
  - intros c ic -> Hic. cbv zeta. set (colours := map (cell ic) (rows df_agg)).
    assert (col_index sorted c = Some ic) as Hic' by (unfold col_index; by rewrite Hc).
    assert (dtype (map (cell ic) (rows sorted)) = dtype colours) as Hd
      by (apply dtype_Permutation; by apply Permutation_map).
    split.
    + intros Hnum.
      destruct (px_bar_xs_plain sorted x y (Some c) i Hi') as (t & -> & Hn & Hx).
      { right. exists c, ic. split; [done|]. split; [done|].
        unfold continuous. rewrite Hd. by destruct Hnum as [-> | ->]. }
      exists t. split; [done|]. split; [done|]. eexists. split; [exact Hx|].
      by apply Permutation_map.
    + intros Hdisc.
      destruct (px_bar_xs_colour sorted x y c i ic Hi' Hic') as [Hxs Hnd].
      { unfold continuous. rewrite Hd. by destruct Hdisc as [-> | [-> | ->]]. }
      split; [done|]. rewrite Hxs. by apply Permutation_map, list_filter_Permutation.
Qed.

End Traces.

Section FilterEdges.
Context `{Library}.

Lemma list_filter_none {A} (p : A -> bool) (l : list A) :
  (forall x, In x l -> p x = false) -> List.filter p l = [].
Proof.
  intros Hp. rewrite (list_filter_ext_In p (fun _ => false) l Hp).
  clear Hp. induction l as [|x l IH]; simpl; done.
Qed.

Lemma list_filter_all {A} (p : A -> bool) (l : list A) :
  (forall x, In x l -> p x = true) -> List.filter p l = l.
Proof.
  intros Hp. induction l as [|x l IH]; simpl; [done|].
  rewrite (Hp x) by (by left). f_equal. apply IH. intros y Hy. apply Hp. by right.
Qed.

Lemma inside_true (left right : option Timestamp) (v : Value) :
  inside left right v = true ->
  exists lo hi t, left = Some lo /\ right = Some hi /\ v = VDate t
                  /\ ts_leb lo t = true /\ ts_leb t hi = true /\ ts_leb lo hi = true.
Proof.
  unfold inside. destruct v as [| | | |t]; try done.
  destruct left as [lo|], right as [hi|]; try done.
  intros Hin. apply andb_true_iff in Hin as [H1 H2].
  exists lo, hi, t. repeat (split; [done|]). by apply (ts_leb_trans lo t hi).
Qed.

Lemma apply_filter_between (f : list (string * JSON)) (column : string)
    (v0 v1 : JSON) (df : DataFrame) :
  assoc "column" f = Some (JStr column) ->
  filter_operator f = JStr "between" -> filter_value f = JArr [v0; v1] ->
  apply_filter df (JObj f)
  = df' ← prepare_column df column;
    start_date ← to_datetime v0;
    end_date ← to_datetime v1;
    filter_rows (between_cell start_date end_date) df' column.
Proof.
  intros Hc Hop Hval. unfold apply_filter. rewrite Hc, Hop, Hval. reflexivity.
Qed.

(** X11.  [between] passes a cell only if it is a date, both bounds are
    dates and the cell lies within them; so with the bounds in the wrong
    order, or with a bound that is [NaT], the filter keeps no row, and a
    plan whose last filter it is has no chart. *)
Theorem between_wrong_bounds_keeps_nothing (f : list (string * JSON)) (column : string)
    (v0 v1 : JSON) (left right : option Timestamp) :
  assoc "column" f = Some (JStr column) ->
  filter_operator f = JStr "between" -> filter_value f = JArr [v0; v1] ->
  to_datetime v0 = Some left -> to_datetime v1 = Some right ->
  (forall lo hi, left = Some lo -> right = Some hi -> ts_leb lo hi = false) ->
  (forall df out, apply_filter df (JObj f) = Some out -> rows out = [])
  /\ (forall pre transformation fields df,
        gerar_grafico_plotly
          (plan_with_filters (pre ++ [JObj f]) transformation fields) df = None).
Proof.
  intros Hc Hop Hval H0 H1 Hbad.
  assert (forall df out, apply_filter df (JObj f) = Some out -> rows out = []) as Hnone.
  { intros df out. rewrite (apply_filter_between f column v0 v1 df Hc Hop Hval).
    destruct (prepare_column df column) as [df'|]; cbn [mbind option_bind]; [|done].
    rewrite H0, H1. cbn [mbind option_bind]. unfold filter_rows.
    destruct (col_index df' column) as [i|]; cbn [mbind option_bind]; [|done].
    destruct (filter_opt _ (rows df')) as [kept|] eqn:Ek; cbn [mbind option_bind]; [|done].
    intros [= <-]. cbn [rows].
    rewrite (filter_opt_ext _ (fun r => inside left right (cell i r)) _ _
               (fun r b => between_cell_inside left right (cell i r) b) Ek).
    apply list_filter_none. intros r _.
    destruct (inside left right (cell i r)) eqn:Ein; [|done].
    apply inside_true in Ein as (lo & hi & t & -> & -> & _ & _ & _ & Hle).
    by rewrite (Hbad lo hi eq_refl eq_refl) in Hle. }
  split; [done|].
  intros pre transformation fields df.
  unfold plan_with_filters, gerar_grafico_plotly.
  change (dict_get (("data_transformation",
                     JObj (("filters", JArr (pre ++ [JObj f])) :: transformation))
                      :: fields) "data_transformation")
    with (JObj (("filters", JArr (pre ++ [JObj f])) :: transformation)).
  cbv iota beta.
  change (filter_stage (("filters", JArr (pre ++ [JObj f])) :: transformation) df)
    with (apply_filters (pre ++ [JObj f]) df).
  rewrite apply_filters_app.
  destruct (apply_filters pre df) as [df1|]; cbn [mbind option_bind apply_filters]; [|done].
  destruct (apply_filter df1 (JObj f)) as [out|] eqn:Eo; cbn [mbind option_bind]; [|done].
  by rewrite (empty_no_rows out (Hnone df1 out Eo)).
Qed.

Lemma compare_cell_eq_total (v x : Value) :
  exists b, compare_cell OpEq v x = Some b /\ compare_cell OpNe v x = Some (negb b).
Proof.
  unfold compare_cell. destruct (is_null v || is_null x); [by exists false|].
  destruct (compare_cells v x) as [[]|]; by eexists.
Qed.

Lemma filter_opt_total_fun {A} (test : A -> option bool) (p : A -> bool) (l : list A) :
  (forall x, test x = Some (p x)) -> filter_opt test l = Some (List.filter p l).
Proof.
  intros Hp. induction l as [|x l IH]; simpl; [done|].
  rewrite Hp, IH. by destruct (p x).
Qed.

Lemma list_filter_split {A} (p : A -> bool) (l : list A) :
  List.filter p l ++ List.filter (fun x => negb (p x)) l ≡ₚ l.
Proof.
  induction l as [|x l IH]; simpl; [done|].
  destruct (p x); simpl.
  - by constructor.
  - rewrite <- Permutation_middle. by constructor.
Qed.

(** X12.  On a column whose label is a plain identifier, in a table that
    repeats no label, [==] and [!=] do not raise and split the table, each row passing exactly one of them
    (a null cell passes [!=]): for a number or a boolean against a column
    of numbers or booleans (in a float64 column, integers that float64
    holds as they are), for a text against a column of text, for [None]
    against any column, and against a date column for every value of which
    [query] makes one date under both operators. *)
Theorem equal_and_not_equal_split_rows (df : DataFrame) (column : string)
    (value : JSON) (x : Value) (i : nat) :
  plain_name column = true -> NoDup (columns df) ->
  scalar value = Some x -> col_index df column = Some i ->
  (x = VNull
   \/ ((In (dtype (map (cell i) (rows df))) [DInt; DBool]
        \/ (dtype (map (cell i) (rows df)) = DFloat
            /\ forallb exact_scalar (map (cell i) (rows df)) = true))
       /\ is_Some (num_of x) /\ exact_scalar x = true)
   \/ (dtype (map (cell i) (rows df)) = DText /\ is_str x = true)
   \/ (dtype (map (cell i) (rows df)) = DDate /\ is_null x = false
       /\ exists t, timestamp_scalar "==" value = Some t
                    /\ timestamp_scalar "!=" value = Some t)) ->
  exists p : list Value -> bool,
    query df column "==" value
    = Some {| columns := columns df; rows := List.filter p (rows df) |}
    /\ query df column "!=" value
       = Some {| columns := columns df;
                 rows := List.filter (fun r => negb (p r)) (rows df) |}
    /\ List.filter p (rows df) ++ List.filter (fun r => negb (p r)) (rows df)
       ≡ₚ rows df
    /\ (forall r, is_null (cell i r) = true -> p r = false).
Proof.
  intros Hplain _ Hx Hi Hkind.
  assert (exists y,
            (forall op operator, (operator = "==" \/ operator = "!=") ->
               cmp_op operator = Some op ->
               query df column operator value
               = filter_rows (fun v => compare_cell op v y) df column)) as [y Hq].
  { destruct Hkind as [->|[(Hd & Hnum & Hex)|[(Hd & Hs)|(Hd & Hnn & t & Ht1 & Ht2)]]].
    - exists VNull. intros op operator _ Ho. unfold query. by rewrite Ho, Hx, Hplain, Hi.
    - exists x. intros op operator _ Ho. unfold query. rewrite Ho, Hx, Hplain, Hi. cbv zeta.
      assert (is_null x = false) as -> by (destruct x; try done; by destruct Hnum).
      rewrite Hex. destruct Hd as [Hd|[-> ->]]; [|done].
      simpl in Hd. by destruct Hd as [<-|[<-|[]]].
    - exists x. intros op operator _ Ho. unfold query. rewrite Ho, Hx, Hplain, Hi. cbv zeta.
      rewrite Hd. by destruct x.
    - exists (date_value t). intros op operator Hop Ho. unfold query.
      rewrite Ho, Hx, Hplain, Hi. cbv zeta. rewrite Hnn, Hd.
      by destruct Hop as [-> | ->]; [rewrite Ht1|rewrite Ht2]. }
  exists (fun r => default false (compare_cell OpEq (cell i r) y)).
  rewrite (Hq OpEq "==" (or_introl eq_refl) eq_refl),
          (Hq OpNe "!=" (or_intror eq_refl) eq_refl).
  unfold filter_rows. rewrite Hi. cbn [mbind option_bind].
  rewrite (filter_opt_total_fun _ (fun r => default false (compare_cell OpEq (cell i r) y))).
  2:{ intros r. destruct (compare_cell_eq_total (cell i r) y) as (b & -> & _). done. }
  rewrite (filter_opt_total_fun _
             (fun r => negb (default false (compare_cell OpEq (cell i r) y)))).
  2:{ intros r. destruct (compare_cell_eq_total (cell i r) y) as (b & -> & ->). done. }
  cbn [mbind option_bind].
  split; [done|]. split; [done|]. split; [apply list_filter_split|].
  intros r Hnull. unfold compare_cell. by rewrite Hnull.
Qed.

End FilterEdges.

Section Comparisons.
Context `{Library}.

Lemma cmp_op_cases (op : string) (o : CmpOp) :
  cmp_op op = Some o -> In (op, o) comparison_operators.
Proof.
  unfold cmp_op, comparison_operators.
  destruct (String.eqb_spec op "==") as [->|_]; [intros [= <-]; simpl; tauto|].
  destruct (String.eqb_spec op "!=") as [->|_]; [intros [= <-]; simpl; tauto|].
  destruct (String.eqb_spec op "<") as [->|_]; [intros [= <-]; simpl; tauto|].
  destruct (String.eqb_spec op "<=") as [->|_]; [intros [= <-]; simpl; tauto|].
  destruct (String.eqb_spec op ">") as [->|_]; [intros [= <-]; simpl; tauto|].
  destruct (String.eqb_spec op ">=") as [->|_]; [intros [= <-]; simpl; tauto|].
  done.
Qed.

(** An entry with one of the six operators is handed to [query]. *)
Lemma apply_filter_comparison (f : list (string * JSON)) (column op : string)
    (o : CmpOp) (df : DataFrame) :
  assoc "column" f = Some (JStr column) ->
  filter_operator f = JStr op -> cmp_op op = Some o ->
  apply_filter df (JObj f)
  = df' ← prepare_column df column; query df' column op (filter_value f).
Proof.
  intros Hc Hop Ho. unfold apply_filter. rewrite Hc, Hop.
  apply cmp_op_cases in Ho. unfold comparison_operators in Ho. simpl in Ho.
  destruct Ho as [E|[E|[E|[E|[E|[E|[]]]]]]]; injection E as <- <-; reflexivity.
Qed.

Lemma compare_cell_null_value (o : CmpOp) (v : Value) :
  compare_cell o v VNull = Some (match o with OpNe => true | _ => false end).
Proof. unfold compare_cell. cbn [is_null]. by rewrite orb_true_r. Qed.

(** X13.  With any of the six operators, a ['value'] of [0], [false],
    the empty string or the empty list (and no ['values']) is compared as
    null: [!=] then keeps every row of the table (also the rows that hold
    the value), and each of the other five operators keeps none. *)
Theorem falsy_value_under_each_comparison (c op : string) (o : CmpOp) (v : JSON) :
  cmp_op op = Some o ->
  In v [JNum 0; JBool false; JStr EmptyString; JArr []] ->
  forall df out,
    apply_filter df (JObj (comparison_entry c op v)) = Some out ->
    exists df', prepare_column df c = Some df'
      /\ columns out = columns df'
      /\ rows out = match o with OpNe => rows df' | _ => [] end.
Proof.
  intros Ho Hv df out.
  assert (truthy v = false) as Hf.
  { simpl in Hv. destruct Hv as [<-|[<-|[<-|[<-|[]]]]]; reflexivity. }
  assert (op <> EmptyString) as Hne.
  { intros ->. by vm_compute in Ho. }
  assert (filter_operator (comparison_entry c op v) = JStr op) as Hop.
  { unfold filter_operator, comparison_entry.
    change (dict_get _ "operator") with (JStr op).
    unfold py_or. cbn [truthy]. by destruct (String.eqb_spec op EmptyString). }
  assert (filter_value (comparison_entry c op v) = JNull) as Hval.
  { unfold filter_value, comparison_entry.
    change (dict_get [("column", JStr c); ("operator", JStr op); ("value", v)] "value")
      with v.
    change (dict_get [("column", JStr c); ("operator", JStr op); ("value", v)] "values")
      with JNull.
    unfold py_or. by rewrite Hf. }
  assert (assoc "column" (comparison_entry c op v) = Some (JStr c)) as Hc by reflexivity.
  rewrite (apply_filter_comparison _ c op o df Hc Hop Ho), Hval.
  destruct (prepare_column df c) as [df'|]; cbn [mbind option_bind]; [|done].
  intros Hq. exists df'. split; [done|]. by apply (query_null df' out c op o).
Qed.

(** X14.  A filter on a column the table does not have ends the plan: the
    pass raises ([between] on a pair, [in] on a list, or one of the six
    comparisons of a plain identifier with a scalar), and the interpreter
    returns no chart.  The names that [query] finds without a column
    ([index], [ilevel_0], [columns], [clevel_0]) are set apart. *)
Theorem filter_on_missing_column_no_chart (f : list (string * JSON)) (column : string)
    (df : DataFrame) :
  assoc "column" f = Some (JStr column) ->
  col_index df column = None ->
  ((exists v0 v1, filter_operator f = JStr "between" /\ filter_value f = JArr [v0; v1])
   \/ (exists values, filter_operator f = JStr "in" /\ filter_value f = JArr values)
   \/ (exists op o x, filter_operator f = JStr op /\ cmp_op op = Some o
                      /\ scalar (filter_value f) = Some x
                      /\ plain_name column = true
                      /\ ~ In column ["index"; "ilevel_0"; "columns"; "clevel_0"])) ->
  apply_filter df (JObj f) = None
  /\ (forall post transformation fields,
        gerar_grafico_plotly
          (plan_with_filters (JObj f :: post) transformation fields) df = None).
Proof.
  intros Hc Hmiss Hkind.
  assert (forall df', prepare_column df column = Some df' -> df' = df) as Hprep.
  { intros df'. unfold prepare_column, get_column. rewrite Hmiss. cbn [mbind option_bind].
    destruct (str_contains "Data" column); [done|]. by intros [= <-]. }
  assert (apply_filter df (JObj f) = None) as Hnone.
  { destruct Hkind as [(v0 & v1 & Hop & Hval)|[(values & Hop & Hval)
                                              |(op & o & x & Hop & Ho & Hx & Hplain & Hname)]].
    - rewrite (apply_filter_between f column v0 v1 df Hc Hop Hval).
      destruct (prepare_column df column) as [df'|] eqn:Ep; cbn [mbind option_bind]; [|done].
      rewrite (Hprep df' eq_refl).
      destruct (to_datetime v0); cbn [mbind option_bind]; [|done].
      destruct (to_datetime v1); cbn [mbind option_bind]; [|done].
      unfold filter_rows. by rewrite Hmiss.
    - unfold apply_filter. rewrite Hc, Hop, Hval. cbn [mbind option_bind truthy negb].
      destruct (prepare_column df column) as [df'|] eqn:Ep; cbn [mbind option_bind]; [|done].
      rewrite (Hprep df' eq_refl). by rewrite Hmiss.
    - rewrite (apply_filter_comparison f column op o df Hc Hop Ho).
      destruct (prepare_column df column) as [df'|] eqn:Ep; cbn [mbind option_bind]; [|done].
      rewrite (Hprep df' eq_refl).
      assert (str_in column ["index"; "ilevel_0"] = false) as Hn1.
      { apply not_true_is_false. intros Hin. apply str_in_In in Hin. apply Hname.
        simpl in *. tauto. }
      assert (str_in column ["columns"; "clevel_0"] = false) as Hn2.
      { apply not_true_is_false. intros Hin. apply str_in_In in Hin. apply Hname.
        simpl in *. tauto. }
      unfold query. by rewrite Ho, Hx, Hplain, Hmiss, Hn1, Hn2. }
  split; [done|]. intros post transformation fields.
  unfold plan_with_filters, gerar_grafico_plotly.
  change (dict_get (("data_transformation",
                     JObj (("filters", JArr (JObj f :: post)) :: transformation))
                      :: fields) "data_transformation")
    with (JObj (("filters", JArr (JObj f :: post)) :: transformation)).
  cbv iota beta.
  change (filter_stage (("filters", JArr (JObj f :: post)) :: transformation) df)
    with (apply_filters (JObj f :: post) df).
  cbn [apply_filters]. by rewrite Hnone.
Qed.

End Comparisons.

Section FilterInvariant.
Context `{Library}.















End FilterInvariant.

Section Colour.
Context `{Library}.

Lemma py_in_snoc_str (c : string) (l : list JSON) : py_in (JStr c) (l ++ [JStr c]) = true.
Proof.
  unfold py_in. rewrite existsb_app. cbn [existsb py_eqb].
  by rewrite String.eqb_refl, orb_true_r.
Qed.

Lemma aggregate_stage_colour (c : string) (group_by : list JSON) (t1 t2 : JSON)
    (transformation fields : list (string * JSON)) (df : DataFrame) :
  c <> EmptyString -> py_in (JStr c) group_by = false ->
  dict_get fields "color" = JStr c ->
  aggregate_stage (("data_transformation", t1) :: fields)
    (("group_by", JArr group_by) :: transformation) df
  = aggregate_stage (("data_transformation", t2) :: fields)
      (("group_by", JArr (group_by ++ [JStr c])) :: transformation) df.
Proof.
  intros Hne Hin Hcolor. unfold aggregate_stage.
  change (dict_get_default (("group_by", JArr group_by) :: transformation)
            "group_by" (JArr [])) with (JArr group_by).
  change (dict_get_default (("group_by", JArr (group_by ++ [JStr c])) :: transformation)
            "group_by" (JArr [])) with (JArr (group_by ++ [JStr c])).
  change (dict_get_default (("group_by", JArr group_by) :: transformation)
            "aggregation" (JObj []))
    with (dict_get_default transformation "aggregation" (JObj [])).
  change (dict_get_default (("group_by", JArr (group_by ++ [JStr c])) :: transformation)
            "aggregation" (JObj []))
    with (dict_get_default transformation "aggregation" (JObj [])).
  cbv iota.
  destruct (resolve_aggregation _) as [[agg_col agg_func]|]; [|done].
  change (dict_get (("data_transformation", t1) :: fields) "color")
    with (dict_get fields "color").
  change (dict_get (("data_transformation", t2) :: fields) "color")
    with (dict_get fields "color").
  rewrite Hcolor, Hin, py_in_snoc_str.
  assert (truthy (JStr c) = true) as ->.
  { cbn [truthy]. by destruct (String.eqb_spec c EmptyString). }
  reflexivity.
Qed.

(** X19.  The colour column is one of the grouping keys: a plan whose
    ['color'] names a column that its ['group_by'] does not list gives the
    same result as the plan that lists it last in ['group_by']. *)
Theorem colour_column_joins_grouping (c : string) (group_by : list JSON)
    (transformation fields : list (string * JSON)) (df : DataFrame) :
  c <> EmptyString -> py_in (JStr c) group_by = false ->
  dict_get fields "color" = JStr c ->
  gerar_grafico_plotly (plan_with_grouping group_by transformation fields) df
  = gerar_grafico_plotly
      (plan_with_grouping (group_by ++ [JStr c]) transformation fields) df.
Proof.
  intros Hne Hin Hcolor. unfold plan_with_grouping, gerar_grafico_plotly.
  change (dict_get (("data_transformation",
                     JObj (("group_by", JArr group_by) :: transformation)) :: fields)
            "data_transformation")
    with (JObj (("group_by", JArr group_by) :: transformation)).
  change (dict_get (("data_transformation",
                     JObj (("group_by", JArr (group_by ++ [JStr c])) :: transformation))
                      :: fields) "data_transformation")
    with (JObj (("group_by", JArr (group_by ++ [JStr c])) :: transformation)).
  cbv iota beta.
  change (filter_stage (("group_by", JArr group_by) :: transformation) df)
    with (filter_stage transformation df).
  change (filter_stage (("group_by", JArr (group_by ++ [JStr c])) :: transformation) df)
    with (filter_stage transformation df).
  destruct (filter_stage transformation df) as [df1|]; cbn [mbind option_bind]; [|done].
  destruct (empty df1); [done|].
  rewrite (aggregate_stage_colour c group_by _
             (JObj (("group_by", JArr (group_by ++ [JStr c])) :: transformation))
             transformation fields df1 Hne Hin Hcolor).
  destruct (aggregate_stage _ _ df1) as [[df_agg agg_col]|]; [|done].
  destruct (empty df_agg); [done|].
  by rewrite !build_chart_fields.
Qed.

End Colour.

(* ===================================================================== *)
(** * Further properties of the orchestrator                               *)
(* ===================================================================== *)

Section Requests.
Context `{Library}.

Lemma update_history_length (history : list Turn) (turn : Turn) :
  (List.length (update_history history turn) <= S (List.length history))%nat
  /\ ((List.length history <= 3)%nat ->
      (List.length (update_history history turn) <= 3)%nat).
Proof.
  unfold update_history. rewrite length_app. simpl.
  destruct (Nat.ltb_spec 3 (List.length history + 1)) as [Hgt|Hle].
  - destruct history as [|t0 history]; simpl in *; [lia|].
    rewrite length_app. simpl. lia.
  - rewrite length_app. simpl. lia.
Qed.

(** X15.  Whatever the request and the model's reply: the history never
    grows beyond three turns once it is within three, it grows by at most
    one turn, it changes only when the reply is a success, and then by the
    turn made of the question and the answer of that reply. *)
Theorem ask_gemini_history_invariant (df : option DataFrame)
    (session : option (list Turn)) (data : JSON) (response : option string) :
  let reply := fst (ask_gemini df session data response) in
  let after := default [] (snd (ask_gemini df session data response)) in
  ((List.length (default [] session) <= 3)%nat -> (List.length after <= 3)%nat)
  /\ (List.length after <= S (List.length (default [] session)))%nat
  /\ ((forall body, reply <> Ok body) -> after = default [] session)
  /\ (forall body, reply = Ok body ->
        exists question,
          py_get data "question" = Some question /\ truthy question = true
          /\ after = update_history (default [] session)
                       {| q := question; a := answer body |}).
Proof.
  cbv zeta. unfold ask_gemini.
  destruct df as [df|]; [|cbn [fst snd]; repeat split; try done; lia].
  destruct (py_get data "question") as [question|];
    [|cbn [fst snd default from_option id]; repeat split; try done; lia].
  destruct (truthy question) eqn:Etq; cbn [negb];
    [|cbn [fst snd default from_option id]; repeat split; try done; lia].
  destruct response as [text|];
    [|cbn [fst snd default from_option id]; repeat split; try done; lia].
  destruct (extrair_json text) as [parsed|];
    [|cbn [fst snd default from_option id]; repeat split; try done; lia].
  destruct (negb (truthy parsed));
    [cbn [fst snd default from_option id]; repeat split; try done; lia|].
  destruct parsed as [| | | | |d];
    try (cbn [fst snd default from_option id]; repeat split; try done; lia).
  destruct (py_iter _) as [chart_plans|];
    [|cbn [fst snd default from_option id]; repeat split; try done; lia].
  cbn [fst snd default from_option id].
  destruct (update_history_length (from_option id [] session)
              {| q := question; a := dict_get d "answer" |}) as [Hgrow Hcap].
  split; [exact Hcap|]. split; [exact Hgrow|]. split.
  - intros Hno. by destruct (Hno _ eq_refl).
  - intros body [= <-]. exists question. by repeat split.
Qed.

(** X16.  Replies the parser accepts but the handler does not: an empty
    object counts as no reply (model-response error); a ['chart_plans']
    that is null, a number or a boolean cannot be iterated and gives the
    unexpected-error reply; in both cases the turns are kept.  Without a
    ['chart_plans'] key the reply succeeds with no chart, and without an
    ['answer'] key it succeeds with a null answer that goes into the
    history. *)
Theorem parsed_reply_edge_cases (df : DataFrame) (session : option (list Turn))
    (data question : JSON) (text : string) :
  py_get data "question" = Some question -> truthy question = true ->
  let result := ask_gemini (Some df) session data (Some text) in
  (forall parsed, extrair_json text = Some parsed -> truthy parsed = false ->
     result = (Error 500 msg_model, Some (default [] session)))
  /\ (forall d plans, extrair_json text = Some (JObj d) -> d <> [] ->
        assoc "chart_plans" d = Some plans ->
        (plans = JNull \/ (exists z, plans = JNum z) \/ (exists b, plans = JBool b)) ->
        result = (Error 500 msg_unexpected, Some (default [] session)))
  /\ (forall d, extrair_json text = Some (JObj d) -> d <> [] ->
        assoc "chart_plans" d = None ->
        exists body, fst result = Ok body /\ charts_json body = [])
  /\ (forall d body, extrair_json text = Some (JObj d) -> d <> [] ->
        assoc "answer" d = None -> fst result = Ok body ->
        answer body = JNull
        /\ snd result = Some (update_history (default [] session)
                                {| q := question; a := JNull |})).
Proof.
  intros Hq Htq. cbv zeta. unfold ask_gemini. rewrite Hq, Htq. cbn [negb].
  split; [|split; [|split]].
  - intros parsed -> Hf. by rewrite Hf.
  - intros d plans -> Hne Hp Hkind. destruct d as [|kv d]; [done|]. cbn [truthy negb].
    unfold dict_get_default. rewrite Hp. cbn [default from_option id].
    by destruct Hkind as [->|[[z ->]|[b ->]]].
  - intros d -> Hne Hp. destruct d as [|kv d]; [done|]. cbn [truthy negb].
    unfold dict_get_default. rewrite Hp. cbn [default from_option id py_iter].
    eexists. split; reflexivity.
  - intros d body -> Hne Ha. destruct d as [|kv d]; [done|]. cbn [truthy negb].
    destruct (py_iter _) as [chart_plans|]; [|done]. cbn [fst snd].
    unfold dict_get. rewrite Ha. cbn [default from_option id].
    by intros [= <-].
Qed.

End Requests.

Section Extraction.
Context `{Library}.

Lemma string_app_nil_l (s : string) : String.append EmptyString s = s.
Proof. reflexivity. Qed.

Lemma string_app_cons (x : ascii) (s t : string) :
  String.append (String x s) t = String x (String.append s t).
Proof. reflexivity. Qed.

Local Ltac sapp :=
  repeat (rewrite string_app_cons || rewrite string_app_nil_l).

Lemma str_find_app (c : ascii) (pre rest : string) :
  str_find c pre = None ->
  str_find c (String.append pre (String c rest)) = Some (String.length pre).
Proof.
  induction pre as [|x pre IH]; sapp; cbn [str_find String.length].
  - intros _. by rewrite Ascii.eqb_refl.
  - destruct (Ascii.eqb x c); [done|].
    destruct (str_find c pre) eqn:E; [done|]. intros _. by rewrite IH.
Qed.

Lemma str_rfind_app (c : ascii) (pre post : string) :
  str_rfind c post = None ->
  str_rfind c (String.append pre (String c post)) = Some (String.length pre).
Proof.
  intros Hpost.
  induction pre as [|x pre IH]; sapp; cbn [str_rfind String.length].
  - by rewrite Hpost, Ascii.eqb_refl.
  - by rewrite IH.
Qed.

Lemma str_find_split (c : ascii) (s : string) (i : nat) :
  str_find c s = Some i ->
  exists pre rest, s = String.append pre (String c rest)
    /\ String.length pre = i /\ str_find c pre = None.
Proof.
  revert i. induction s as [|x s IH]; intros i; cbn [str_find]; [done|].
  destruct (Ascii.eqb_spec x c) as [->|Hne].
  - intros [= <-]. by exists EmptyString, s.
  - destruct (str_find c s) as [k|] eqn:E; [|done]. intros [= <-].
    destruct (IH k eq_refl) as (pre & rest & -> & Hlen & Hpre).
    exists (String x pre), rest. sapp; cbn [String.length str_find].
    rewrite Hlen, Hpre. destruct (Ascii.eqb_spec x c); done.
Qed.

Lemma str_rfind_split (c : ascii) (s : string) (i : nat) :
  str_rfind c s = Some i ->
  exists pre post, s = String.append pre (String c post)
    /\ String.length pre = i /\ str_rfind c post = None.
Proof.
  revert i. induction s as [|x s IH]; intros i; cbn [str_rfind]; [done|].
  destruct (str_rfind c s) as [k|] eqn:E.
  - intros [= <-]. destruct (IH k eq_refl) as (pre & post & -> & Hlen & Hpost).
    exists (String x pre), post. sapp; cbn [String.length]. by rewrite Hlen.
  - destruct (Ascii.eqb_spec x c) as [->|Hne]; [|done]. intros [= <-].
    by exists EmptyString, s.
Qed.

Lemma substring_zero (n : nat) (s : string) : substring n 0 s = EmptyString.
Proof.
  revert n. induction s as [|x s IH]; intros [|n]; cbn [substring]; auto.
Qed.

Lemma substring_prefix (body post : string) :
  substring 0 (String.length body) (String.append body post) = body.
Proof.
  induction body as [|x body IH]; sapp; cbn [String.length].
  - apply substring_zero.
  - cbn [substring]. by rewrite IH.
Qed.

Lemma substring_middle (pre body post : string) :
  substring (String.length pre) (String.length body)
    (String.append pre (String.append body post)) = body.
Proof.
  induction pre as [|x pre IH]; sapp; cbn [String.length].
  - apply substring_prefix.
  - cbn [substring]. exact IH.
Qed.

Lemma string_app_assoc (s1 s2 s3 : string) :
  String.append (String.append s1 s2) s3 = String.append s1 (String.append s2 s3).
Proof.
  induction s1 as [|x s1 IH]; sapp; [done|]. by rewrite IH.
Qed.

Lemma string_app_length (s1 s2 : string) :
  String.length (String.append s1 s2) = (String.length s1 + String.length s2)%nat.
Proof.
  induction s1 as [|x s1 IH]; sapp; cbn [String.length]; [done|]. by rewrite IH.
Qed.

(** Two ways of cutting one text at different characters: the earlier cut
    lies inside the prefix of the later one. *)
Lemma string_cuts (c d : ascii) (pre rest s2 post : string) :
  c <> d ->
  String.append pre (String c rest) = String.append s2 (String d post) ->
  (String.length pre <= String.length s2)%nat ->
  exists inner, s2 = String.append pre (String c inner)
    /\ rest = String.append inner (String d post).
Proof.
  intros Hcd. revert s2.
  induction pre as [|x pre IH]; intros s2; sapp; cbn [String.length].
  - destruct s2 as [|y s2]; sapp.
    + intros [= Hc _]. done.
    + intros [= <- ->] _. by exists s2.
  - destruct s2 as [|y s2]; sapp; cbn [String.length]; [lia|].
    intros [= <- Heq] Hlen.
    destruct (IH s2 Heq ltac:(lia)) as (inner & -> & ->). by exists inner.
Qed.

(** X17.  The text handed to the JSON parser is the span from the first
    opening brace to the last closing brace: text before the first ['{']
    and after the last ['}'] is ignored, and every successful extraction
    is the parse of such a span (or of the empty text, when the last
    closing brace stands before the first opening one). *)
Theorem extrair_json_parses_brace_span :
  (forall pre inner post,
     str_find "{" pre = None -> str_rfind "}" post = None ->
     extrair_json (String.append pre (String.append (braced inner) post))
     = json_loads (braced inner))
  /\ (forall text parsed, extrair_json text = Some parsed ->
        (exists pre inner post,
           text = String.append pre (String.append (braced inner) post)
           /\ str_find "{" pre = None /\ str_rfind "}" post = None
           /\ json_loads (braced inner) = Some parsed)
        \/ json_loads EmptyString = Some parsed).
Proof.
  assert (Hspan : forall pre inner post,
     str_find "{" pre = None -> str_rfind "}" post = None ->
     extrair_json (String.append pre (String.append (braced inner) post))
     = json_loads (braced inner)).
  { intros pre inner post Hpre Hpost. unfold extrair_json, braced.
    sapp. rewrite (str_find_app _ _ _ Hpre).
    replace (String.append pre (String "{" (String.append (String.append inner "}") post)))
      with (String.append (String.append pre (String "{" inner)) (String "}" post)).
    2:{ rewrite !string_app_assoc. by sapp. }
    rewrite (str_rfind_app _ _ _ Hpost). unfold str_slice.
    rewrite string_app_assoc. sapp.
    replace (S (String.length (String.append pre (String "{" inner))) - String.length pre)%nat
      with (String.length (String "{" (String.append inner "}"))).
    2:{ cbn [String.length]. rewrite !string_app_length. cbn [String.length]. lia. }
    replace (String "{" (String.append inner (String "}" post)))
      with (String.append (String "{" (String.append inner "}")) post).
    2:{ sapp. rewrite string_app_assoc. by sapp. }
    by rewrite substring_middle. }
  split; [exact Hspan|].
  intros text parsed Hx. pose proof Hx as Hx0. unfold extrair_json in Hx.
  destruct (str_find "{" text) as [i|] eqn:Ei; [|done].
  destruct (str_rfind "}" text) as [k|] eqn:Ek; [|done].
  destruct (str_find_split _ _ _ Ei) as (pre & rest & Htext & Hi & Hpre).
  destruct (str_rfind_split _ _ _ Ek) as (s2 & post & Htext2 & Hk & Hpost).
  destruct (Nat.le_gt_cases i k) as [Hle|Hgt].
  - left. rewrite Htext in Htext2.
    destruct (string_cuts "{" "}" pre rest s2 post ltac:(done) Htext2 ltac:(lia))
      as (inner & -> & ->).
    exists pre, inner, post.
    assert (Heq : text = String.append pre (String.append (braced inner) post)).
    { rewrite Htext. unfold braced. sapp.
      by rewrite string_app_assoc. }
    split; [exact Heq|]. split; [exact Hpre|]. split; [exact Hpost|].
    rewrite <- (Hspan pre inner post Hpre Hpost), <- Heq. exact Hx0.
  - right. unfold str_slice in Hx.
    replace (S k - i)%nat with 0%nat in Hx by lia.
    by rewrite substring_zero in Hx.
Qed.

End Extraction.

(* ===================================================================== *)
(** * Worked examples                                                      *)
(* ===================================================================== *)

(** The statements above at the sample data of [Sample], run with the
    sample library. *)

#[local] Existing Instance Sample.sample_library.


(** The keys of the sample tables are small integers, no dimension table
    repeats one. *)
Lemma sample_integer_unique_keys : integer_unique_keys Sample.loaded.
Proof.
  assert (forall (df : DataFrame) (key : string) (i : nat),
            col_index df key = Some i ->
            Forall (fun row => integer_key (cell i row)) (rows df) ->
            integer_keys df key) as Hkeys.
  { intros df key i Hi Hall j Hj. rewrite Hi in Hj. by injection Hj as <-. }
  assert (forall (df : DataFrame) (key : string) (i : nat),
            col_index df key = Some i -> NoDup (map (cell i) (rows df)) ->
            unique_key df key) as Huniq.
  { intros df key i Hi Hnd j Hj. rewrite Hi in Hj. by injection Hj as <-. }
  intros l r key Hstep.
  inversion Hstep as
    [df_mov contas Hmov Hcontas
    |df_mov contas m1 clientes Hmov Hcontas H1 Hclientes
    |df_mov contas m1 clientes m2 classificacao Hmov Hcontas H1 Hclientes H2 Hclass
    |df_mov contas m1 clientes m2 classificacao m3 parceiros
       Hmov Hcontas H1 Hclientes H2 Hclass H3 Hparceiros]; subst.
  - vm_compute in Hmov, Hcontas. injection Hmov as <-. injection Hcontas as <-.
    split; [|split].
    + apply (Hkeys _ _ 1%nat); [vm_compute; reflexivity|]. repeat constructor; vm_compute; discriminate.
    + apply (Hkeys _ _ 0%nat); [vm_compute; reflexivity|]. repeat constructor; vm_compute; discriminate.
    + apply (Huniq _ _ 0%nat); [vm_compute; reflexivity|]. apply NoDup_singleton.
  - vm_compute in Hmov, Hcontas, Hclientes.
    injection Hmov as <-. injection Hcontas as <-. injection Hclientes as <-.
    vm_compute in H1. injection H1 as <-.
    split; [|split].
    + apply (Hkeys _ _ 4%nat); [vm_compute; reflexivity|].
      repeat constructor; vm_compute; try discriminate; exact I.
    + apply (Hkeys _ _ 0%nat); [vm_compute; reflexivity|]. repeat constructor; vm_compute; discriminate.
    + apply (Huniq _ _ 0%nat); [vm_compute; reflexivity|]. apply NoDup_singleton.
  - vm_compute in Hmov, Hcontas, Hclientes, Hclass.
    injection Hmov as <-. injection Hcontas as <-. injection Hclientes as <-.
    injection Hclass as <-.
    vm_compute in H1. injection H1 as <-. vm_compute in H2. injection H2 as <-.
    split; [|split].
    + apply (Hkeys _ _ 1%nat); [vm_compute; reflexivity|]. repeat constructor; vm_compute; discriminate.
    + apply (Hkeys _ _ 0%nat); [vm_compute; reflexivity|]. repeat constructor; vm_compute; discriminate.
    + apply (Huniq _ _ 0%nat); [vm_compute; reflexivity|]. apply NoDup_singleton.
  - vm_compute in Hmov, Hcontas, Hclientes, Hclass, Hparceiros.
    injection Hmov as <-. injection Hcontas as <-. injection Hclientes as <-.
    injection Hclass as <-. injection Hparceiros as <-.
    vm_compute in H1. injection H1 as <-. vm_compute in H2. injection H2 as <-.
    vm_compute in H3. injection H3 as <-.
    split; [|split].
    + apply (Hkeys _ _ 5%nat); [vm_compute; reflexivity|].
      repeat constructor; vm_compute; try discriminate; exact I.
    + apply (Hkeys _ _ 0%nat); [vm_compute; reflexivity|]. repeat constructor; vm_compute; discriminate.
    + apply (Huniq _ _ 0%nat); [vm_compute; reflexivity|]. apply NoDup_singleton.
Qed.


(** Equal row counts need keys that float64 holds as they are: a movement
    without account turns the clients' ids of the accounts into float64,
    where the clients [2^53] and [2^53 + 1] are one; two movements come out
    as three rows although no table repeats a key. *)
Example float64_keys_collide :
  NoDup (map (cell 0) (rows Scenes.clientes_big))
  /\ List.length (rows Scenes.two_movements) = 2%nat
  /\ (List.length <$> (rows <$> process_tables Scenes.loaded_big)) = Some 3%nat.
Proof.
  split; [|split; [reflexivity|vm_compute; reflexivity]].
  apply (bool_decide_unpack _). vm_compute. reflexivity.
Qed.

(** Accounts keyed by text against movements keyed by numbers: the merge
    raises and there is no table. *)
Example text_keys_raise :
  merge_left Sample.movimentos Scenes.contas_text "ID_Conta" ("_x", "_y") = None.
Proof. vm_compute. reflexivity. Qed.

(** The monthly bar plan asks for ["Valor"] on the x axis and gets
    ["Ano-Mês"], its three months in calendar order although the
    movements are listed March, January, February. *)
Lemma bar_ano_mes_sorted_witness :
  exists fig,
    gerar_grafico_plotly (JObj Sample.bar_plan) Sample.joined = Some fig
    /\ dict_get Sample.bar_plan "x_axis" = JStr "Valor"
    /\ fig_x fig = Some "Ano-Mês"
    /\ Forall sorted_trace (fig_traces fig)
    /\ map trace_x (fig_traces fig)
       = [Some [VStr "2024-01"; VStr "2024-02"; VStr "2024-03"]].
Proof.
  eexists. split; [vm_compute; reflexivity|]. split; [reflexivity|].
  match goal with
  | |- fig_x ?fig = _ /\ _ =>
      destruct (bar_ano_mes_sorted Sample.bar_plan
                  (("aggregation", JObj [("ID_Movimento", JStr "count")]) :: Sample.monthly)
                  [JStr "Ano-Mês"] Sample.joined fig)
        as (_ & Hx & Hs & _)
  end.
  - reflexivity.
  - reflexivity.
  - reflexivity.
  - reflexivity.
  - vm_compute; reflexivity.
  - split; [exact Hx|]. split; [exact Hs|reflexivity].
Defined.

Lemma aggregation_shapes_agree_witness :
  assoc "column" Sample.count_explicit = Some (JStr "ID_Movimento")
  /\ assoc "function" Sample.count_explicit = Some (JStr "count")
  /\ gerar_grafico_plotly
       (plan_with_aggregation (JObj [("ID_Movimento", JStr "count")])
          Sample.monthly Sample.bar_fields) Sample.joined
     = gerar_grafico_plotly
         (plan_with_aggregation (JObj Sample.count_explicit)
            Sample.monthly Sample.bar_fields) Sample.joined.
Proof.
  split; [reflexivity|]. split; [reflexivity|].
  apply (aggregation_shapes_agree "ID_Movimento" (JStr "count") Sample.count_explicit
           Sample.monthly Sample.bar_fields Sample.joined); reflexivity.
Defined.


(** C5, as the spec states it, fails: the loop reads the column of an
    entry before it looks for the operator, so an entry with neither an
    operator nor a column is not passed over; it ends the plan, which has a
    chart without the entry. *)
Lemma entry_without_column_counterexample :
  assoc "operator" Sample.bare_entry = None
  /\ assoc "condition" Sample.bare_entry = None
  /\ apply_filter Sample.joined (JObj Sample.bare_entry) = None
  /\ gerar_grafico_plotly
       (plan_with_filters [JObj Sample.bare_entry] Sample.counted Sample.bar_fields)
       Sample.joined = None
  /\ is_Some (gerar_grafico_plotly
                (plan_with_filters [] Sample.counted Sample.bar_fields) Sample.joined).
Proof.
  split; [reflexivity|]. split; [reflexivity|]. split; [reflexivity|].
  split; [vm_compute; reflexivity|]. vm_compute. by eexists.
Qed.

Lemma operator_alias_and_skip_witness :
  apply_filter Sample.joined (JObj Sample.large_operator)
  = apply_filter Sample.joined (JObj Sample.large_condition)
  /\ apply_filter Sample.joined (JObj Sample.no_operator) = Some Sample.joined
  /\ apply_filters [JObj Sample.no_operator; JObj Sample.in_entry] Sample.joined
     = apply_filters [JObj Sample.in_entry] Sample.joined.
Proof.
  destruct (operator_alias_and_skip [] [JObj Sample.in_entry] [] [] Sample.joined)
    as [Halias Hskip].
  destruct (Halias Sample.large_operator Sample.large_condition (JStr ">"))
    as [Hsame _]; try reflexivity.
  { intros k Hk. simpl in Hk. destruct Hk as [<-|[<-|[<-|[]]]]; reflexivity. }
  destruct (Hskip Sample.no_operator (JStr "Valor")) as (Hpass & Hrest & _);
    try reflexivity.
  split; [apply Hsame|]. split; [apply Hpass|exact Hrest].
Defined.

(** No movement is above 1000; the only movement on account 99 has no
    client, so grouping by client name leaves no group. *)
Lemma empty_table_no_chart_witness :
  gerar_grafico_plotly (JObj Sample.no_rows_plan) Sample.joined = None
  /\ gerar_grafico_plotly (JObj Sample.null_group_plan) Sample.joined = None.
Proof.
  split.
  - apply (proj1 (empty_table_no_chart Sample.no_rows_plan
                    [("filters", JArr [JObj Sample.huge])] Sample.joined eq_refl)
             {| columns := columns Sample.joined; rows := [] |}).
    + vm_compute; reflexivity.
    + reflexivity.
  - apply (proj2 (empty_table_no_chart Sample.null_group_plan Sample.null_group
                    Sample.joined eq_refl)
             (default Sample.joined (filter_stage Sample.null_group Sample.joined))
             {| columns := ["Nome"; "Valor"]; rows := [] |} (JStr "Valor")).
    + vm_compute; reflexivity.
    + vm_compute; reflexivity.
    + reflexivity.
Defined.

Lemma unsupported_chart_type_dropped_witness :
  gerar_grafico_plotly (JObj Sample.scatter_plan) Sample.joined = None
  /\ List.length
       (render_charts [JObj Sample.bar_plan; JObj Sample.scatter_plan; JObj Sample.bar_plan]
          Sample.joined) = 2%nat.
Proof.
  destruct (unsupported_chart_type_dropped Sample.scatter_plan Sample.joined)
    as (Hnone & Hdrop & _); try discriminate.
  split; [exact Hnone|].
  change [JObj Sample.bar_plan; JObj Sample.scatter_plan; JObj Sample.bar_plan]
    with ([JObj Sample.bar_plan] ++ JObj Sample.scatter_plan :: [JObj Sample.bar_plan]).
  rewrite (Hdrop [JObj Sample.bar_plan] [JObj Sample.bar_plan]).
  vm_compute; reflexivity.
Defined.

Lemma malformed_response_keeps_history_witness :
  extrair_json "sem chaves" = None
  /\ ask_gemini (Some Sample.joined) (Some [mkTurn (JStr "a") (JStr "ok")])
       (JObj [("question", JStr "b")]) (Some "sem chaves")
     = (Error 500 msg_model, Some [mkTurn (JStr "a") (JStr "ok")]).
Proof.
  destruct (malformed_response_keeps_history Sample.joined
              (Some [mkTurn (JStr "a") (JStr "ok")])
              (JObj [("question", JStr "b")]) (JStr "b") "sem chaves")
    as (Hnone & Hreply & _ & Hsame).
  - reflexivity.
  - reflexivity.
  - left. reflexivity.
  - split; [exact Hnone|].
    rewrite (surjective_pairing (ask_gemini _ _ _ _)), Hreply, (Hsame _ eq_refl).
    reflexivity.
Defined.

Lemma sample_requests_answered : Forall answered Sample.four_requests.
Proof. repeat constructor; eexists; vm_compute; reflexivity. Defined.

(** After the questions a, b, c, d the session holds b, c, d. *)
Lemma history_keeps_last_three_witness :
  run Sample.four_requests (Some [])
  = Some [mkTurn (JStr "b") (JStr "ok"); mkTurn (JStr "c") (JStr "ok");
          mkTurn (JStr "d") (JStr "ok")].
Proof.
  rewrite (proj1 (proj2 (proj2 (history_keeps_last_three Sample.four_requests
                                  sample_requests_answered)))).
  vm_compute; reflexivity.
Defined.

(** The sample table has a movement of value 0; asking for the rows equal
    to 0 keeps none. *)
Lemma falsy_value_falls_back_to_values_witness :
  filter_value Sample.zero_entry = JNull
  /\ In (VInt 0) (map (cell 3) (rows Sample.joined))
  /\ (forall out, apply_filter Sample.joined (equals_zero "Valor") = Some out ->
        rows out = []).
Proof.
  destruct (falsy_value_falls_back_to_values Sample.zero_entry (JNum 0))
    as (_ & Hnull & _ & Hrows & _).
  - reflexivity.
  - simpl. auto.
  - split; [apply Hnull; reflexivity|].
    split; [vm_compute; auto|].
    intros out. apply Hrows.
Defined.

(** The scenario of the specification: clients per month, over movements
    of January to March listed out of order, gives the three months in
    calendar order. *)
Example clients_per_month :
  fig_traces <$>
    gerar_grafico_plotly
      (JObj [("chart_type", JStr "bar");
             ("data_transformation",
              JObj [("group_by", Sample.strs ["Ano-Mês"]);
                    ("aggregation", JObj [("ID_Cliente", JStr "count")])])])
      Sample.joined
  = Some [ {| trace_name := None;
              trace_x := Some [VStr "2024-01"; VStr "2024-02"; VStr "2024-03"];
              trace_y := Some [VInt 1; VInt 0; VInt 1] |} ].
Proof. vm_compute. reflexivity. Qed.

(* ===================================================================== *)
(** * Worked examples of the further properties                            *)
(* ===================================================================== *)

(** Without [parceiros.csv] in the folder there is no table. *)
Lemma get_data_requires_all_files_witness :
  snd (get_data (Some (Some Scenes.without_partners)) ∅) = None.
Proof.
  apply (get_data_requires_all_files Scenes.without_partners ∅
           "parceiros.csv" "parceiros").
  - simpl. auto.
  - intros item Hin. simpl in Hin.
    destruct Hin as [<-|[<-|[<-|[<-|[<-|[]]]]]]; vm_compute; discriminate.
Defined.

(** The sample table has ten columns: the fourteen of the five tables,
    less the four repeated keys. *)
Lemma get_data_table_well_formed_witness :
  process_tables Sample.loaded = Some Sample.joined
  /\ well_formed Sample.joined
  /\ List.length (columns Sample.joined) = 10%nat.
Proof.
  assert (process_tables Sample.loaded = Some Sample.joined) as Hp
    by (vm_compute; reflexivity).
  split; [exact Hp|].
  destruct (get_data_table_well_formed Sample.loaded Sample.joined) as [Hwf Hcols].
  - intros role df Hin Hl. simpl in Hin.
    destruct Hin as [<-|[<-|[<-|[<-|[<-|[]]]]]];
      vm_compute in Hl; injection Hl as <-; repeat constructor.
  - exact Hp.
  - split; [exact Hwf|].
    pose proof (Hcols Sample.movimentos Sample.contas Sample.clientes
                  Sample.classificacao Sample.parceiros) as Hsum.
    cbn [columns Sample.movimentos Sample.contas Sample.clientes
         Sample.classificacao Sample.parceiros List.length] in Hsum.
    assert (forall n : nat, (n + 4 = 4 + 3 + 2 + 3 + 2)%nat -> n = 10%nat) as Hten
      by (intros n; lia).
    apply Hten, Hsum; vm_compute; reflexivity.
Defined.

Lemma merge_tables_keeps_movement_order_witness :
  Forall2 (fun mr tr => mr `prefix_of` tr)
    (rows Sample.movimentos) (rows Sample.merged).
Proof.
  apply (merge_tables_keeps_movement_order Sample.loaded).
  - vm_compute; reflexivity.
  - vm_compute; reflexivity.
  - exact sample_integer_unique_keys.
Defined.

(** The accounts file has changed since it was recorded: the check clears
    the cache and reloads, and the check after that finds nothing to do. *)
Lemma reload_settles_check_witness :
  exists fresh,
    verificar_atualizacoes (Some (Some Scenes.listing)) (Some Scenes.listing) Scenes.stale
    = (true, fresh)
    /\ fresh !! "Contas.csv" = Some "2024-04-01T10:05:00Z"
    /\ fresh !! "notas.csv" = None
    /\ verificar_atualizacoes (Some (Some Scenes.listing)) (Some Scenes.listing) fresh
       = (false, fresh).
Proof.
  exists (fst (get_data (Some (Some Scenes.listing)) Scenes.stale)).
  split; [vm_compute; reflexivity|].
  split; [vm_compute; reflexivity|].
  split; [vm_compute; reflexivity|].
  destruct (reload_settles_check Scenes.listing Scenes.stale) as (_ & _ & _ & _ & Hnext).
  - apply (bool_decide_unpack _). vm_compute. reflexivity.
  - intros item Hin Hr. simpl in Hin.
    destruct Hin as [<-|[<-|[<-|[<-|[<-|[<-|[]]]]]]];
      try (eexists; reflexivity). vm_compute in Hr. discriminate.
  - intros name recorded Hl. unfold Scenes.stale in Hl.
    apply lookup_singleton_Some in Hl as [<- <-].
    eexists. vm_compute. reflexivity.
  - apply (Hnext true). vm_compute. reflexivity.
Defined.

(** The movements of the sample table by account: one row for account 10
    with its two movements summed, one for account 99. *)
Lemma groupby_agg_one_row_per_key_witness :
  groupby_agg Sample.joined ["ID_Conta"] "Valor" (JStr "sum")
  = Some {| columns := ["ID_Conta"; "Valor"];
            rows := [[VInt 10; VInt 100]; [VInt 99; VInt 250]] |}
  /\ NoDup (map (take 1) [[VInt 10; VInt 100]; [VInt 99; VInt 250]])
  /\ (2 <= List.length (rows Sample.joined))%nat
  /\ (forall r, In r (rows Sample.joined) ->
        exists row, In row [[VInt 10; VInt 100]; [VInt 99; VInt 250]]
                    /\ take 1 row = [cell 1 r]).
Proof.
  assert (groupby_agg Sample.joined ["ID_Conta"] "Valor" (JStr "sum")
          = Some {| columns := ["ID_Conta"; "Valor"];
                    rows := [[VInt 10; VInt 100]; [VInt 99; VInt 250]] |}) as Hg
    by (vm_compute; reflexivity).
  split; [exact Hg|].
  assert (forall k i, In k ["ID_Conta"] -> col_index Sample.joined k = Some i ->
            settled (map (cell i) (rows Sample.joined))) as Hkeys.
  { intros k i [<-|[]] Hi. vm_compute in Hi. injection Hi as <-.
    split; [vm_compute; auto|]. repeat constructor. }
  destruct (groupby_agg_one_row_per_key _ _ _ _ _ Hkeys Hg)
    as (ks & ia & Hks & _ & _ & _ & Hnd & _ & Hle & Hall & _).
  vm_compute in Hks. injection Hks as <-.
  split; [exact Hnd|]. split; [exact Hle|].
  intros r Hr. apply (Hall r Hr).
  simpl in Hr. destruct Hr as [<-|[<-|[<-|[]]]]; reflexivity.
Defined.

(** Without aggregation the bars over the client names, a text column,
    count 1 for each row; the row without a client comes last. *)
Example bar_without_aggregation_counts :
  fig_traces <$> gerar_grafico_plotly Scenes.names_plan Sample.joined
  = Some [ {| trace_name := None;
              trace_x := Some [VStr "Ana"; VStr "Ana"; VNull];
              trace_y := Some [VInt 1; VInt 1; VInt 1] |} ].
Proof. vm_compute. reflexivity. Qed.

(** The three months come out as one trace, each month once; so do the
    two accounts when the account, a number, is the colour. *)
Lemma bar_chart_shows_every_row_witness :
  (exists fig t xs,
    build_chart Sample.bar_plan (JStr "ID_Movimento") Scenes.monthly_counts = Some fig
    /\ fig_traces fig = [t] /\ trace_x t = Some xs
    /\ xs ≡ₚ [VStr "2024-03"; VStr "2024-01"; VStr "2024-02"])
  /\ (exists fig t xs,
        build_chart Scenes.account_bars (JStr "ID_Movimento") Scenes.by_account = Some fig
        /\ fig_color fig = Some "ID_Conta"
        /\ fig_traces fig = [t] /\ trace_name t = None /\ trace_x t = Some xs
        /\ xs ≡ₚ [VInt 99; VInt 10]).
Proof.
  split.
  - eexists.
    match goal with
    | |- exists t xs, build_chart _ _ _ = Some ?fig /\ _ =>
        assert (build_chart Sample.bar_plan (JStr "ID_Movimento") Scenes.monthly_counts
                = Some fig) as Hb by (vm_compute; reflexivity);
        destruct (bar_chart_shows_every_row Sample.bar_plan (JStr "ID_Movimento")
                    Scenes.monthly_counts fig eq_refl Hb)
          as (x & i & Hx & Hi & Hone & _)
    end.
    destruct (Hone eq_refl) as (t & Ht & _ & xs & Hxs & Hperm).
    exists t, xs. split; [exact Hb|]. split; [exact Ht|]. split; [exact Hxs|].
    cbn [fig_x] in Hx. injection Hx as <-.
    vm_compute in Hi. injection Hi as <-. exact Hperm.
  - eexists.
    match goal with
    | |- exists t xs, build_chart _ _ _ = Some ?fig /\ _ =>
        assert (build_chart Scenes.account_bars (JStr "ID_Movimento") Scenes.by_account
                = Some fig) as Hb by (vm_compute; reflexivity);
        destruct (bar_chart_shows_every_row Scenes.account_bars (JStr "ID_Movimento")
                    Scenes.by_account fig eq_refl Hb)
          as (x & i & Hx & Hi & _ & Hcolour)
    end.
    destruct (Hcolour "ID_Conta" 0%nat eq_refl eq_refl) as [Hnum _].
    destruct Hnum as (t & Ht & Hn & xs & Hxs & Hperm); [left; reflexivity|].
    exists t, xs. split; [exact Hb|]. split; [reflexivity|]. split; [exact Ht|].
    split; [exact Hn|]. split; [exact Hxs|].
    cbn [fig_x] in Hx. injection Hx as <-.
    vm_compute in Hi. injection Hi as <-. exact Hperm.
Defined.

(** From 3 February to 15 January: no movement passes, and the plan has
    no chart. *)
Lemma between_wrong_bounds_keeps_nothing_witness :
  (exists out, apply_filter Sample.joined (JObj Scenes.reversed_entry) = Some out
               /\ rows out = [])
  /\ gerar_grafico_plotly
       (plan_with_filters [JObj Scenes.reversed_entry] Sample.monthly Sample.bar_fields)
       Sample.joined = None.
Proof.
  destruct (between_wrong_bounds_keeps_nothing Scenes.reversed_entry
              "Data_Movimento_mov" (JStr "2024-02-03") (JStr "2024-01-15")
              (Some (mkTimestamp 2024 2 3 0)) (Some (mkTimestamp 2024 1 15 0)))
    as [Hrows Hplan].
  - reflexivity.
  - reflexivity.
  - reflexivity.
  - vm_compute; reflexivity.
  - vm_compute; reflexivity.
  - intros lo hi [= <-] [= <-]. reflexivity.
  - split.
    + eexists. split; [vm_compute; reflexivity|].
      apply (Hrows Sample.joined). vm_compute; reflexivity.
    + apply (Hplan [] Sample.monthly Sample.bar_fields Sample.joined).
Defined.

(** The movements of value 0 and the others make up the sample table. *)
Lemma equal_and_not_equal_split_rows_witness :
  exists p : list Value -> bool,
    query Sample.joined "Valor" "==" (JNum 0)
    = Some {| columns := columns Sample.joined;
              rows := List.filter p (rows Sample.joined) |}
    /\ query Sample.joined "Valor" "!=" (JNum 0)
       = Some {| columns := columns Sample.joined;
                 rows := List.filter (fun r => negb (p r)) (rows Sample.joined) |}
    /\ List.filter p (rows Sample.joined)
       ++ List.filter (fun r => negb (p r)) (rows Sample.joined)
       ≡ₚ rows Sample.joined.
Proof.
  destruct (equal_and_not_equal_split_rows Sample.joined "Valor" (JNum 0) (VInt 0) 3)
    as (p & Heq & Hne & Hperm & _).
  - reflexivity.
  - apply (bool_decide_unpack _). vm_compute. reflexivity.
  - reflexivity.
  - vm_compute; reflexivity.
  - right. left. split; [vm_compute; auto|]. split; [by eexists|reflexivity].
  - exists p. split; [exact Heq|]. split; [exact Hne|exact Hperm].
Defined.

(** Asking for the movements whose value is not 0 returns all three, the
    one of value 0 among them. *)
Lemma falsy_value_under_each_comparison_witness :
  apply_filter Sample.joined (JObj (comparison_entry "Valor" "!=" (JNum 0)))
  = Some Sample.joined
  /\ exists df', prepare_column Sample.joined "Valor" = Some df'
       /\ rows Sample.joined = rows df'.
Proof.
  assert (apply_filter Sample.joined (JObj (comparison_entry "Valor" "!=" (JNum 0)))
          = Some Sample.joined) as Ha by (vm_compute; reflexivity).
  split; [exact Ha|].
  destruct (falsy_value_under_each_comparison "Valor" "!=" OpNe (JNum 0) eq_refl
              (or_introl eq_refl) Sample.joined Sample.joined Ha)
    as (df' & Hp & _ & Hrows).
  exists df'. split; [exact Hp|exact Hrows].
Defined.

(** The sample table has no column ["Saldo"]. *)
Lemma filter_on_missing_column_no_chart_witness :
  apply_filter Sample.joined (JObj Scenes.balance_entry) = None
  /\ gerar_grafico_plotly
       (plan_with_filters [JObj Scenes.balance_entry; JObj Sample.in_entry]
          Sample.monthly Sample.bar_fields) Sample.joined = None.
Proof.
  destruct (filter_on_missing_column_no_chart Scenes.balance_entry "Saldo" Sample.joined)
    as [Hnone Hplan].
  - reflexivity.
  - vm_compute; reflexivity.
  - right. right. exists ">", OpGt, (VInt 10).
    repeat (split; [reflexivity|]).
    simpl. intros [E|[E|[E|[E|[]]]]]; discriminate E.
  - split; [exact Hnone|]. apply Hplan.
Defined.

(** The reply [{}] parses, and is answered as if it had not. *)
Lemma parsed_reply_edge_cases_witness :
  extrair_json "{}" = Some (JObj [])
  /\ ask_gemini (Some Sample.joined) (Some Scenes.one_turn)
       (JObj [("question", JStr "b")]) (Some "{}")
     = (Error 500 msg_model, Some Scenes.one_turn).
Proof.
  assert (extrair_json "{}" = Some (JObj [])) as Hx by (vm_compute; reflexivity).
  split; [exact Hx|].
  destruct (parsed_reply_edge_cases Sample.joined (Some Scenes.one_turn)
              (JObj [("question", JStr "b")]) (JStr "b") "{}") as (Hempty & _).
  - reflexivity.
  - reflexivity.
  - apply (Hempty (JObj []) Hx). reflexivity.
Defined.


(** Counting per month with the class as colour groups by month and
    class. *)
Lemma colour_column_joins_grouping_witness :
  gerar_grafico_plotly
    (plan_with_grouping [JStr "Ano-Mês"] Scenes.counting Scenes.coloured_fields)
    Sample.joined
  = gerar_grafico_plotly
      (plan_with_grouping [JStr "Ano-Mês"; JStr "Classe"] Scenes.counting
         Scenes.coloured_fields)
      Sample.joined.
Proof.
  apply (colour_column_joins_grouping "Classe" [JStr "Ano-Mês"] Scenes.counting
           Scenes.coloured_fields Sample.joined).
  - discriminate.
  - reflexivity.
  - reflexivity.
Defined.
